(** * Timetabling engine: schedule validator, CP search driver and conflict
      resolution engine

    A shallow embedding of [ai-service/services/csp_solver.py],
    [ai-service/services/conflict_analyzer.py] and the time grid and
    availability normalisation of [ai-service/services/constraint_encoder.py],
    together with the pydantic records of
    [ai-service/models/optimization_models.py].

    Conventions of the embedding.
    - Python [int] is [Z]; Python [float] is idealised as an exact rational
      [Q] (decimal literals such as [0.4] are read as [4/10]); equalities on
      scores are stated with [==].
    - Python [str] is [string]; f-strings are built with [str_int] (decimal
      rendering of an integer, as [str] does).
    - A [dict] that is only probed for membership is a [gmap]; a [set] is a
      [gset]; a [dict] whose iteration order is observed is an association
      list kept in insertion order.
    - [sorted]/[list.sort] are stable sorts; they are modelled by a stable
      insertion sort, which computes the same list.
    - A [datetime] is read only through [.hour]; the session record keeps that
      field as [start_hour]. *)

From Stdlib Require Import ZArith QArith Qminmax Qabs Lqa Lia List String Ascii Bool.
From Stdlib Require Import DecimalString DecimalPos DecimalZ Permutation Sorted.
From stdpp Require Import gmap strings.
Import ListNotations.
Open Scope string_scope.
Open Scope list_scope.
Open Scope Z_scope.

(** ** Python helpers *)

(** [str(z)] for an integer. *)
Definition str_int (z : Z) : string := NilZero.string_of_int (Z.to_int z).

(** The values stored in the loosely typed dictionaries ([Dict[str, Any]])
    that the solver emits. *)
Inductive PyVal :=
| PStr (s : string)
| PNum (q : Q)
| PList (l : list string).

(** A dictionary literal, in insertion order. *)
Definition PyDict := list (string * PyVal).

Fixpoint dict_get (key : string) (d : PyDict) : option PyVal :=
  match d with
  | [] => None
  | (k, v) :: rest => if String.eqb k key then Some v else dict_get key rest
  end.

(** [dict[k] = f(dict.get(k))] on an insertion-ordered dictionary: an existing
    key keeps its position, a new key goes last. *)
Fixpoint upsert {V : Type} (k : string) (f : option V -> V)
  (d : list (string * V)) : list (string * V) :=
  match d with
  | [] => [(k, f None)]
  | (k', v) :: rest =>
      if String.eqb k' k then (k', f (Some v)) :: rest
      else (k', v) :: upsert k f rest
  end.

Fixpoint upsertZ {V : Type} (k : Z) (f : option V -> V)
  (d : list (Z * V)) : list (Z * V) :=
  match d with
  | [] => [(k, f None)]
  | (k', v) :: rest =>
      if Z.eqb k' k then (k', f (Some v)) :: rest
      else (k', v) :: upsertZ k f rest
  end.

(** [d[k] = d.get(k, 0) + 1]. *)
Definition count_into (d : list (string * Z)) (k : string) : list (string * Z) :=
  upsert k (fun o => match o with Some n => n + 1 | None => 0 + 1 end) d.

(** Stable insertion sort for a total preorder [leb]: the list computed by
    [sorted(l, key=...)] when [leb x y] compares the keys of [x] and [y]. *)
Section StableSort.
Context {A : Type} (leb : A -> A -> bool).

Fixpoint insert_by (x : A) (l : list A) : list A :=
  match l with
  | [] => [x]
  | y :: rest => if leb x y then x :: y :: rest else y :: insert_by x rest
  end.

(** Elements are inserted from the right, each in front of the elements
    that are not smaller, so equal keys keep their original order. *)
Definition sorted_by (l : list A) : list A :=
  fold_right insert_by [] l.
End StableSort.

(** [l[:n]] for an integer [n]: a negative [n] counts from the end. *)
Definition slice_to {A : Type} (l : list A) (n : Z) : list A :=
  if n <? 0 then firstn (Z.to_nat (Z.max 0 (Z.of_nat (length l) + n))) l
  else firstn (Z.to_nat n) l.

(** [list(range(a, b))] *)
Definition range (a b : Z) : list Z :=
  map (fun i => a + Z.of_nat i) (seq 0 (Z.to_nat (b - a))).

(** [f"{h:02d}"]: zero-padded to two characters. *)
Definition fmt02d (h : Z) : string :=
  let digits := str_int h in
  if (String.length digits <? 2)%nat then "0" +:+ digits else digits.

(** [x in l] for a list of strings. *)
Definition str_in (x : string) (l : list string) : bool :=
  existsb (String.eqb x) l.

(** [pattern in s] for strings. *)
Definition str_contains (pattern s : string) : bool :=
  match String.index 0 pattern s with
  | Some _ => true
  | None => false
  end.

(** [{x['id']: x for x in l}.get(key)]: the last entry with that id wins. *)
Definition lookup_by_id {A : Type} (get_id : A -> string) (key : string)
  (l : list A) : option A :=
  find (fun x => String.eqb (get_id x) key) (rev l).

(** [sum(...)] over rationals and integers. *)
Definition Qsum (l : list Q) : Q := fold_right Qplus 0%Q l.
Definition Zsum (l : list Z) : Z := fold_right Z.add 0 l.

(** ** Records of [models/optimization_models.py] *)

Module ScheduledSessionModel.
Record t := {
  id : string;
  course_id : string;
  lecturer_id : string;
  venue_id : string;
  student_groups : list string;
  start_hour : Z;          (* start_time.hour *)
  day_of_week : Z          (* 0 = Monday *)
}.
End ScheduledSessionModel.
Abbreviation Session := ScheduledSessionModel.t.

Module SolutionModel.
Record t := {
  sessions : list Session;
  score : Q;
  is_feasible : bool;
  conflicts : list PyDict;
  metadata : PyDict
}.
End SolutionModel.

Module ValidationResult.
Record t := {
  is_valid : bool;
  score : Q;
  conflicts : list PyDict;
  constraint_violations : list PyDict
}.
End ValidationResult.

(** ** Entity dictionaries

    Entities arrive as dictionaries; a missing key is read through
    [.get(key, default)], so each field below already holds the value that
    the code reads ([0] for an absent capacity or size, [[]] for an absent
    list). *)

Module Venue.
Record t := {
  id : string;
  name : string;
  capacity : Z;
  equipment : list string
}.
End Venue.

Module Lecturer.
Record t := {
  id : string;
  subjects : list string;
  (** [availability[str(day)]] is a list of [(start_hour, end_hour)]. *)
  availability : list (string * list (Z * Z));
  max_hours_per_week : Z
}.
End Lecturer.

Module Course.
Record t := {
  id : string;
  required_equipment : list string;
  student_groups : list string;
  lecturer_id : string
}.
End Course.

Module StudentGroup.
Record t := {
  id : string;
  size : Z
}.
End StudentGroup.

Module Entities.
Record t := {
  venues : list Venue.t;
  lecturers : list Lecturer.t;
  courses : list Course.t;
  student_groups : list StudentGroup.t
}.
End Entities.

(** ** [services/csp_solver.py]: the schedule validator *)

Module CSPSolver.
Import ScheduledSessionModel.

(** [f"{session.day_of_week}_{session.start_time.hour}"] *)
Definition time_key (session : Session) : string :=
  str_int (day_of_week session) +:+ "_" +:+ str_int (start_hour session).

(** *** The conditions under which the constraint installers forbid an
    assignment *)

(** [_add_venue_capacity_constraints]: the students of a course. *)
Definition total_students (entities : Entities.t) (course : Course.t) : Z :=
  Zsum (map StudentGroup.size
          (List.filter (fun group => str_in (StudentGroup.id group)
                                  (Course.student_groups course))
                  (Entities.student_groups entities))).

(** [total_students > venue_capacity]: the venue cannot host the course. *)
Definition capacity_insufficient (entities : Entities.t) (course : Course.t)
  (venue : Venue.t) : bool :=
  Venue.capacity venue <? total_students entities course.

(** [_add_equipment_constraints]: [required_equipment.issubset(venue_equipment)];
    nothing is checked when no equipment is required. *)
Definition has_all_equipment (course : Course.t) (venue : Venue.t) : bool :=
  forallb (fun eq => str_in eq (Venue.equipment venue))
    (Course.required_equipment course).

(** [_add_lecturer_availability_constraints]: [is_available] for a lecturer
    at [(day_of_week, hour)]. *)
Definition is_available (lecturer : Lecturer.t) (day_of_week hour : Z) : bool :=
  let day_availability :=
    match find (fun kv => String.eqb (fst kv) (str_int day_of_week))
            (Lecturer.availability lecturer) with
    | Some kv => snd kv
    | None => []
    end in
  existsb (fun slot => (fst slot <=? hour) && (hour <? snd slot)) day_availability.

(** *** [_validate_hard_constraints] *)

(** The local variables of [_validate_hard_constraints]. *)
Record hard_state := {
  venue_bookings : gmap string (gset string);
  lecturer_bookings : gmap string (gset string);
  violations : list PyDict;
  total_checks : Z;
  passed_checks : Z
}.

Definition hard_init : hard_state :=
  {| venue_bookings := ∅; lecturer_bookings := ∅; violations := [];
     total_checks := 0; passed_checks := 0 |}.

(** [if who not in bookings: bookings[who] = set()] *)
Definition ensure_key (who : string) (bookings : gmap string (gset string))
  : gmap string (gset string) :=
  match bookings !! who with
  | Some _ => bookings
  | None => <[who := ∅]> bookings
  end.

Definition venue_violation (session : Session) : PyDict :=
  [("type", PStr "venue_double_booking");
   ("venue_id", PStr (venue_id session));
   ("time", PStr (time_key session));
   ("sessions", PList [id session])].

Definition lecturer_violation (session : Session) : PyDict :=
  [("type", PStr "lecturer_double_booking");
   ("lecturer_id", PStr (lecturer_id session));
   ("time", PStr (time_key session));
   ("sessions", PList [id session])].

(** One iteration of [for session in sessions]: the venue check, then the
    lecturer check. *)
Definition hard_step (st : hard_state) (session : Session) : hard_state :=
  let key := time_key session in
  (* venue double booking check *)
  let vb := ensure_key (venue_id session) (venue_bookings st) in
  let vset := default ∅ (vb !! venue_id session) in
  let st1 :=
    if bool_decide (key ∈ vset) then
      {| venue_bookings := vb;
         lecturer_bookings := lecturer_bookings st;
         violations := violations st ++ [venue_violation session];
         total_checks := total_checks st + 1;
         passed_checks := passed_checks st |}
    else
      {| venue_bookings := <[venue_id session := {[key]} ∪ vset]> vb;
         lecturer_bookings := lecturer_bookings st;
         violations := violations st;
         total_checks := total_checks st + 1;
         passed_checks := passed_checks st + 1 |} in
  (* lecturer double booking check *)
  let lb := ensure_key (lecturer_id session) (lecturer_bookings st1) in
  let lset := default ∅ (lb !! lecturer_id session) in
  if bool_decide (key ∈ lset) then
    {| venue_bookings := venue_bookings st1;
       lecturer_bookings := lb;
       violations := violations st1 ++ [lecturer_violation session];
       total_checks := total_checks st1 + 1;
       passed_checks := passed_checks st1 |}
  else
    {| venue_bookings := venue_bookings st1;
       lecturer_bookings := <[lecturer_id session := {[key]} ∪ lset]> lb;
       violations := violations st1;
       total_checks := total_checks st1 + 1;
       passed_checks := passed_checks st1 + 1 |}.

Definition hard_loop (sessions : list Session) : hard_state :=
  fold_left hard_step sessions hard_init.

(** [passed_checks / total_checks if total_checks > 0 else 1.0] *)
Definition hard_score_of (st : hard_state) : Q :=
  if 0 <? total_checks st
  then (inject_Z (passed_checks st) / inject_Z (total_checks st))%Q
  else 1%Q.

Definition _validate_hard_constraints (solution : SolutionModel.t)
  : Q * list PyDict :=
  let st := hard_loop (SolutionModel.sessions solution) in
  (hard_score_of st, violations st).

(** *** Soft scores *)

Definition Qmax0 (q : Q) : Q := Qmax 0 q.

(** [venue_usage[session.venue_id] = venue_usage.get(session.venue_id, 0) + 1]
    over all sessions, and likewise per lecturer. *)
Definition usage_by (who : Session -> string) (sessions : list Session)
  : list (string * Z) :=
  fold_left (fun d session => count_into d (who session)) sessions [].

Definition _calculate_venue_utilization_score (solution : SolutionModel.t) : Q :=
  let sessions := SolutionModel.sessions solution in
  match sessions with
  | [] => 0%Q
  | _ =>
      let venue_usage := usage_by venue_id sessions in
      let total_sessions := Z.of_nat (length sessions) in
      let num_venues := Z.of_nat (length venue_usage) in
      if num_venues =? 0 then 0%Q
      else
        let ideal_sessions_per_venue :=
          (inject_Z total_sessions / inject_Z num_venues)%Q in
        let utilization_variance :=
          (Qsum (map (fun kv => Qabs (inject_Z (snd kv) - ideal_sessions_per_venue))
                     venue_usage)
           / inject_Z num_venues)%Q in
        let max_possible_variance := ideal_sessions_per_venue in
        Qmax0 (1 - utilization_variance / max_possible_variance)%Q
  end.

Definition _calculate_lecturer_satisfaction_score (solution : SolutionModel.t) : Q :=
  let sessions := SolutionModel.sessions solution in
  match sessions with
  | [] => 1%Q
  | _ =>
      let lecturer_workload := usage_by lecturer_id sessions in
      match lecturer_workload with
      | [] => 1%Q
      | _ =>
          let workloads := map (fun kv => inject_Z (snd kv)) lecturer_workload in
          let n := inject_Z (Z.of_nat (length workloads)) in
          let avg_workload := (Qsum workloads / n)%Q in
          let workload_variance :=
            (Qsum (map (fun w => Qabs (w - avg_workload)) workloads) / n)%Q in
          let max_variance :=
            if Qlt_le_dec 0 avg_workload then avg_workload else 1%Q in
          Qmax0 (1 - workload_variance / max_variance)%Q
      end
  end.

(** [group_schedules[group_id][day].append(hour)] with the two
    [if ... not in ...] initialisations. *)
Definition add_group_hour (day hour : Z)
  (group_schedules : list (string * list (Z * list Z))) (group_id : string)
  : list (string * list (Z * list Z)) :=
  upsert group_id
    (fun o => upsertZ day (fun oh => default [] oh ++ [hour]) (default [] o))
    group_schedules.

Definition group_schedules_of (sessions : list Session)
  : list (string * list (Z * list Z)) :=
  fold_left
    (fun gs session =>
       fold_left (add_group_hour (day_of_week session) (start_hour session))
                 (student_groups session) gs)
    sessions [].

(** [sum(hours[i+1] - hours[i] - 1 for i in range(len(hours)-1))] *)
Fixpoint gaps_of (hours : list Z) : Z :=
  match hours with
  | h0 :: ((h1 :: _) as rest) => (h1 - h0 - 1) + gaps_of rest
  | _ => 0
  end.

(** The contribution of one [(day, hours)] entry to [total_gap_penalty]. *)
Definition day_gap_penalty (hours : list Z) : Z :=
  if (1 <? Z.of_nat (length hours)) then gaps_of (sorted_by Z.leb hours)
  else 0.

Definition _calculate_student_convenience_score (solution : SolutionModel.t) : Q :=
  let sessions := SolutionModel.sessions solution in
  match sessions with
  | [] => 1%Q
  | _ =>
      let group_schedules := group_schedules_of sessions in
      let day_entries := concat (map snd group_schedules) in
      let total_gap_penalty := Zsum (map (fun dh => day_gap_penalty (snd dh)) day_entries) in
      let total_days := Z.of_nat (length day_entries) in
      if total_days =? 0 then 1%Q
      else
        let avg_gap_penalty := (inject_Z total_gap_penalty / inject_Z total_days)%Q in
        let max_possible_gap := 8%Q in
        Qmax0 (1 - avg_gap_penalty / max_possible_gap)%Q
  end.

Definition used_slots_of (sessions : list Session) : gset string :=
  fold_left (fun used session => {[time_key session]} ∪ used) sessions ∅.

Definition _calculate_efficiency_score (solution : SolutionModel.t) : Q :=
  let sessions := SolutionModel.sessions solution in
  match sessions with
  | [] => 0%Q
  | _ =>
      let used_slots := used_slots_of sessions in
      let total_available_slots := 50%Q in
      let utilization_rate :=
        (inject_Z (Z.of_nat (size used_slots)) / total_available_slots)%Q in
      if Qle_bool (6#10) utilization_rate && Qle_bool utilization_rate (8#10)
      then 1%Q
      else if negb (Qle_bool (6#10) utilization_rate)
      then (utilization_rate / (6#10))%Q
      else Qmax0 (1 - (utilization_rate - (8#10)) / (2#10))%Q
  end.

(** *** [validate_solution] *)

(** The [scores] dictionary of [validate_solution]. *)
Record scores_t := {
  hard_constraints : Q;
  venue_utilization : Q;
  lecturer_satisfaction : Q;
  student_convenience : Q;
  overall_efficiency : Q
}.

Definition scores_of (solution : SolutionModel.t) : scores_t :=
  let '(hard_constraint_score, _) := _validate_hard_constraints solution in
  if SolutionModel.is_feasible solution then
    {| hard_constraints := hard_constraint_score;
       venue_utilization := _calculate_venue_utilization_score solution;
       lecturer_satisfaction := _calculate_lecturer_satisfaction_score solution;
       student_convenience := _calculate_student_convenience_score solution;
       overall_efficiency := _calculate_efficiency_score solution |}
  else
    {| hard_constraints := hard_constraint_score;
       venue_utilization := 0;
       lecturer_satisfaction := 0;
       student_convenience := 0;
       overall_efficiency := 0 |}.

Definition overall_score_of (scores : scores_t) : Q :=
  (hard_constraints scores * (4#10)
   + venue_utilization scores * (15#100)
   + lecturer_satisfaction scores * (2#10)
   + student_convenience scores * (15#100)
   + overall_efficiency scores * (1#10))%Q.

Definition validate_solution (solution : SolutionModel.t) : ValidationResult.t :=
  let '(hard_constraint_score, hard_violations) :=
    _validate_hard_constraints solution in
  let constraint_violations := [] ++ hard_violations in
  let conflicts :=
    if negb (Qle_bool 1 hard_constraint_score) then [] ++ hard_violations else [] in
  let scores := scores_of solution in
  {| ValidationResult.is_valid := (length conflicts =? 0)%nat;
     ValidationResult.score := overall_score_of scores;
     ValidationResult.conflicts := conflicts;
     ValidationResult.constraint_violations := constraint_violations |}.

(** *** [solve]: the search driver *)

(** [status] values returned by [CpSolver.Solve]. *)
Inductive CpStatus := UNKNOWN | MODEL_INVALID | FEASIBLE | INFEASIBLE | OPTIMAL.

Definition is_solved (status : CpStatus) : bool :=
  match status with
  | OPTIMAL | FEASIBLE => true
  | _ => false
  end.

(** Exceptions derived from [Exception]: the two classes that [solve] names
    in its inner handlers, and all the others.  [exn_str] is [str(e)]. *)
Inductive ExnClass := TypeError | AttributeError | OtherException.

Record exn := { exn_class : ExnClass; exn_str : string }.

Inductive outcome (A : Type) :=
| Returns (a : A)
| Raises (e : exn).
Arguments Returns {A} a.
Arguments Raises {A} e.

(** [_analyze_infeasibility] *)
Definition _analyze_infeasibility : list PyDict :=
  [] ++ [[("type", PStr "infeasible_problem");
          ("message", PStr "No feasible solution found with current constraints");
          ("suggestion",
           PStr "Consider relaxing some constraints or adding more resources")]].

(** The [SolutionModel] built in the [else] branch of [solve]. *)
Definition infeasible_solution (processing_time : Q) : SolutionModel.t :=
  {| SolutionModel.sessions := [];
     SolutionModel.score := 0;
     SolutionModel.is_feasible := false;
     SolutionModel.conflicts := _analyze_infeasibility;
     SolutionModel.metadata :=
       [("processing_time", PNum processing_time);
        ("solver_status", PStr "infeasible")] |}.

(** The [SolutionModel] built by the [except Exception as e] handler. *)
Definition error_solution (e : exn) (processing_time : Q) : SolutionModel.t :=
  {| SolutionModel.sessions := [];
     SolutionModel.score := 0;
     SolutionModel.is_feasible := false;
     SolutionModel.conflicts :=
       [[("type", PStr "solver_error"); ("message", PStr (exn_str e))]];
     SolutionModel.metadata := [("processing_time", PNum processing_time)] |}.

(** [d[k] = v] on a dictionary literal. *)
Definition dict_set (k : string) (v : PyVal) (d : PyDict) : PyDict :=
  upsert k (fun _ => v) d.

(** [solution.metadata["processing_time"] = ...] and
    [solution.metadata["solver_status"] = ...] on the extracted solution. *)
Definition with_status (solution : SolutionModel.t) (processing_time : Q)
  (status : CpStatus) : SolutionModel.t :=
  {| SolutionModel.sessions := SolutionModel.sessions solution;
     SolutionModel.score := SolutionModel.score solution;
     SolutionModel.is_feasible := SolutionModel.is_feasible solution;
     SolutionModel.conflicts := SolutionModel.conflicts solution;
     SolutionModel.metadata :=
       dict_set "solver_status"
         (PStr (match status with OPTIMAL => "optimal" | _ => "feasible" end))
         (dict_set "processing_time" (PNum processing_time)
            (SolutionModel.metadata solution)) |}.

Section Solve.
(** The CP-SAT engine, the model under construction ([self.model],
    [self.solver], [self.variables]) and the wall clock live outside the
    embedding: [World] is their joint state, and every call into them is a
    computation that returns or raises and leaves a new state. *)
Context {World EncodedConstraints OptimizationParameters : Type}.

Definition M (A : Type) : Type := World -> outcome A * World.

Definition ret {A} (a : A) : M A := fun w => (Returns a, w).

Definition bind {A B} (m : M A) (k : A -> M B) : M B :=
  fun w =>
    match m w with
    | (Returns a, w') => k a w'
    | (Raises e, w') => (Raises e, w')
    end.

(** [try: m except <classes>: handler] *)
Definition try_except {A} (m : M A) (catches : exn -> bool)
  (handler : exn -> M A) : M A :=
  fun w =>
    match m w with
    | (Returns a, w') => (Returns a, w')
    | (Raises e, w') => if catches e then handler e w' else (Raises e, w')
    end.

Local Notation "x <- m ;; k" := (bind m (fun x => k))
  (at level 100, m at next level, right associativity).
Local Notation "m ;;; k" := (bind m (fun _ => k))
  (at level 100, right associativity).

(** [except (TypeError, AttributeError)] *)
Definition is_mock_error (e : exn) : bool :=
  match exn_class e with
  | TypeError | AttributeError => true
  | OtherException => false
  end.

(** [except Exception] *)
Definition is_exception (e : exn) : bool := true.

(** [time.time()] reads the clock; it does not raise. *)
Variable time_time : World -> Q * World.
Definition now : M Q := fun w => let '(t, w') := time_time w in (Returns t, w').

(** The calls of [solve] into the engine, in source order. *)
Variable new_model : OptimizationParameters -> M unit.
Variable _create_variables : EncodedConstraints -> M unit.
Variable _add_hard_constraints : EncodedConstraints -> M unit.
Variable _add_soft_constraints :
  EncodedConstraints -> OptimizationParameters -> M unit.
Variable _set_objective : OptimizationParameters -> M unit.
Variable solver_Solve : M CpStatus.
(** [_extract_solution] reads the assignment back from the engine and
    scores it with [validate_solution]; only its outcome matters here. *)
Variable _extract_solution : EncodedConstraints -> M SolutionModel.t.

(** The statements of the [try] block up to the search. *)
Definition build_model (encoded_constraints : EncodedConstraints)
  (parameters : OptimizationParameters) : M unit :=
  new_model parameters ;;;
  _create_variables encoded_constraints ;;;
  _add_hard_constraints encoded_constraints ;;;
  try_except (_add_soft_constraints encoded_constraints parameters)
    is_mock_error (fun _ => ret tt) ;;;
  try_except (_set_objective parameters) is_mock_error (fun _ => ret tt).

(** The whole [try] block. *)
Definition solve_body (start_time : Q)
  (encoded_constraints : EncodedConstraints)
  (parameters : OptimizationParameters) : M SolutionModel.t :=
  build_model encoded_constraints parameters ;;;
  status <- solver_Solve ;;
  t <- now ;;
  let processing_time := (t - start_time)%Q in
  if is_solved status then
    solution <- _extract_solution encoded_constraints ;;
    ret (with_status solution processing_time status)
  else
    ret (infeasible_solution processing_time).

Definition solve (encoded_constraints : EncodedConstraints)
  (parameters : OptimizationParameters) : M SolutionModel.t :=
  start_time <- now ;;
  try_except (solve_body start_time encoded_constraints parameters)
    is_exception
    (fun e => t <- now ;; ret (error_solution e (t - start_time)%Q)).

(** Control leaves a guarded step [m] without an exception: the step
    returned, or it raised one of the two classes that [solve] skips. *)
Definition passes (m : M unit) (w w' : World) : Prop :=
  m w = (Returns tt, w')
  \/ exists e, m w = (Raises e, w') /\ is_mock_error e = true.

(** An exception [e] leaves the [try] block, entered in state [w0], with
    the engine in state [w']: one constructor per statement that can raise
    it.  The two guarded statements only let through what their handlers
    do not name. *)
Inductive raises_in_try (encoded_constraints : EncodedConstraints)
  (parameters : OptimizationParameters) (w0 : World) (e : exn) (w' : World)
  : Prop :=
| raise_new_model :
    new_model parameters w0 = (Raises e, w') ->
    raises_in_try encoded_constraints parameters w0 e w'
| raise_create_variables w1 :
    new_model parameters w0 = (Returns tt, w1) ->
    _create_variables encoded_constraints w1 = (Raises e, w') ->
    raises_in_try encoded_constraints parameters w0 e w'
| raise_hard_constraints w1 w2 :
    new_model parameters w0 = (Returns tt, w1) ->
    _create_variables encoded_constraints w1 = (Returns tt, w2) ->
    _add_hard_constraints encoded_constraints w2 = (Raises e, w') ->
    raises_in_try encoded_constraints parameters w0 e w'
| raise_soft_constraints w1 w2 w3 :
    new_model parameters w0 = (Returns tt, w1) ->
    _create_variables encoded_constraints w1 = (Returns tt, w2) ->
    _add_hard_constraints encoded_constraints w2 = (Returns tt, w3) ->
    _add_soft_constraints encoded_constraints parameters w3 = (Raises e, w') ->
    is_mock_error e = false ->
    raises_in_try encoded_constraints parameters w0 e w'
| raise_objective w1 w2 w3 w4 :
    new_model parameters w0 = (Returns tt, w1) ->
    _create_variables encoded_constraints w1 = (Returns tt, w2) ->
    _add_hard_constraints encoded_constraints w2 = (Returns tt, w3) ->
    passes (_add_soft_constraints encoded_constraints parameters) w3 w4 ->
    _set_objective parameters w4 = (Raises e, w') ->
    is_mock_error e = false ->
    raises_in_try encoded_constraints parameters w0 e w'
| raise_search w1 :
    build_model encoded_constraints parameters w0 = (Returns tt, w1) ->
    solver_Solve w1 = (Raises e, w') ->
    raises_in_try encoded_constraints parameters w0 e w'
| raise_extract w1 status w2 :
    build_model encoded_constraints parameters w0 = (Returns tt, w1) ->
    solver_Solve w1 = (Returns status, w2) ->
    is_solved status = true ->
    _extract_solution encoded_constraints (snd (time_time w2)) = (Raises e, w') ->
    raises_in_try encoded_constraints parameters w0 e w'.
End Solve.

(** *** [_create_variables] and [_extract_solution]: the data they build

    The two functions are steps of [solve]; the oracles of the section
    above stand for them together with the engine calls that they make.
    What follows is the data that they compute: the dictionary
    [self.variables], without the engine's variable handles, and the
    solution read back from the values that [solver.Value] returns for the
    three variables of every session. *)

(** An encoded time slot; [slot_hour] and [slot_day_of_week] hold what
    [.get("hour", 9)] and [.get("day_of_week", 0)] read. *)
Record time_slot := {
  slot_id : string;
  slot_day_of_week : Z;
  slot_hour : Z;
  slot_day_name : string;
  slot_time_display : string
}.

(** The entries of [encoded_constraints] that the two functions read; a
    course comes with its [course.get("frequency", 1)]. *)
Record encoded_constraints := {
  enc_venues : list Venue.t;
  enc_lecturers : list Lecturer.t;
  enc_courses : list (Course.t * Z);
  enc_time_slots : list time_slot
}.

(** [f"{course_id}_session_{session_idx}"] *)
Definition session_key (course_id : string) (session_idx : Z) : string :=
  course_id +:+ "_session_" +:+ str_int session_idx.

(** [self.variables] after [_create_variables]: the entry of a session key
    holds ["course_id"] and ["session_index"]. *)
Definition _create_variables (encoded : encoded_constraints)
  : list (string * (string * Z)) :=
  fold_left
    (fun variables '(course, sessions_needed) =>
       fold_left
         (fun variables session_idx =>
            upsert (session_key (Course.id course) session_idx)
              (fun _ => (Course.id course, session_idx)) variables)
         (range 0 sessions_needed) variables)
    (enc_courses encoded) [].

Definition index_error : exn :=
  {| exn_class := OtherException; exn_str := "list index out of range" |}.

Definition hour_error : exn :=
  {| exn_class := OtherException; exn_str := "hour must be in 0..23" |}.

(** [l[i]]: a negative index counts from the end. *)
Definition py_index {A : Type} (l : list A) (i : Z) : outcome A :=
  let position := if 0 <=? i then i else Z.of_nat (length l) + i in
  if position <? 0 then Raises index_error
  else match nth_error l (Z.to_nat position) with
       | Some x => Returns x
       | None => Raises index_error
       end.

(** [datetime.now().replace(hour=hour, ...)], of which only the hour is
    kept. *)
Definition replace_hour (hour : Z) : outcome Z :=
  if (0 <=? hour) && (hour <=? 23) then Returns hour else Raises hour_error.

(** One iteration of [for session_key, variables in self.variables.items()];
    [value session_key] is the triple that [solver.Value] returns for the
    venue, lecturer and time variables of the session. *)
Definition extract_session (encoded : encoded_constraints)
  (value : string -> Z * Z * Z) (entry : string * (string * Z))
  : outcome Session :=
  let '(session_key, (course_id, _)) := entry in
  let '(venue_idx, lecturer_idx, time_idx) := value session_key in
  match py_index (enc_venues encoded) venue_idx with
  | Raises e => Raises e
  | Returns venue =>
  match py_index (enc_lecturers encoded) lecturer_idx with
  | Raises e => Raises e
  | Returns lecturer =>
  match py_index (enc_time_slots encoded) time_idx with
  | Raises e => Raises e
  | Returns time_slot =>
      let student_groups :=
        match find (fun c => String.eqb (Course.id (fst c)) course_id)
                (enc_courses encoded) with
        | Some c => Course.student_groups (fst c)
        | None => []
        end in
      match replace_hour (slot_hour time_slot) with
      | Raises e => Raises e
      | Returns start_hour =>
      match replace_hour (slot_hour time_slot + 1) with
      | Raises e => Raises e
      | Returns _ =>
          Returns {| id := session_key;
                     ScheduledSessionModel.course_id := course_id;
                     lecturer_id := Lecturer.id lecturer;
                     venue_id := Venue.id venue;
                     student_groups := student_groups;
                     ScheduledSessionModel.start_hour := start_hour;
                     day_of_week := slot_day_of_week time_slot |}
      end end
  end end end.

(** The loop; it stops at the first exception. *)
Fixpoint extract_sessions (encoded : encoded_constraints)
  (value : string -> Z * Z * Z) (entries : list (string * (string * Z)))
  : outcome (list Session) :=
  match entries with
  | [] => Returns []
  | entry :: rest =>
      match extract_session encoded value entry with
      | Raises e => Raises e
      | Returns session =>
          match extract_sessions encoded value rest with
          | Raises e => Raises e
          | Returns sessions => Returns (session :: sessions)
          end
      end
  end.

(** [_extract_solution], run after [_create_variables] on the same encoded
    constraints. *)
Definition _extract_solution (encoded : encoded_constraints)
  (value : string -> Z * Z * Z) : outcome SolutionModel.t :=
  match extract_sessions encoded value (_create_variables encoded) with
  | Raises e => Raises e
  | Returns sessions =>
      let solution :=
        {| SolutionModel.sessions := sessions;
           SolutionModel.score := 0;
           SolutionModel.is_feasible := true;
           SolutionModel.conflicts := [];
           SolutionModel.metadata := [] |} in
      let validation_result := validate_solution solution in
      Returns
        {| SolutionModel.sessions := sessions;
           SolutionModel.score := ValidationResult.score validation_result;
           SolutionModel.is_feasible := true;
           SolutionModel.conflicts := ValidationResult.conflicts validation_result;
           SolutionModel.metadata :=
             [("total_sessions", PNum (inject_Z (Z.of_nat (length sessions))));
              ("unique_venues",
               PNum (inject_Z (Z.of_nat
                                 (size (list_to_set (map venue_id sessions)
                                        : gset string)))));
              ("unique_lecturers",
               PNum (inject_Z (Z.of_nat
                                 (size (list_to_set (map lecturer_id sessions)
                                        : gset string)))));
              ("optimization_score",
               PNum (ValidationResult.score validation_result))] |}
  end.
End CSPSolver.

(** ** [services/constraint_encoder.py]: the time grid and lecturer
    availability *)

Module ConstraintEncoder.

Definition weekday_names : list string :=
  ["Monday"; "Tuesday"; "Wednesday"; "Thursday"; "Friday"].

(** The dictionary appended for [day] and [hour]. *)
Definition slot_of (day hour : Z) : CSPSolver.time_slot :=
  {| CSPSolver.slot_id := "slot_" +:+ str_int day +:+ "_" +:+ str_int hour;
     CSPSolver.slot_day_of_week := day;
     CSPSolver.slot_hour := hour;
     CSPSolver.slot_day_name := nth (Z.to_nat day) weekday_names "";
     CSPSolver.slot_time_display := fmt02d hour +:+ ":00" |}.

Definition _generate_time_slots : list CSPSolver.time_slot :=
  flat_map (fun day => map (slot_of day) (range 8 18)) (range 0 5).

(** [day_key.lower()].  Only the ASCII letters are lowered: the keys of
    [day_mapping] are ASCII and contain no [k], the one ASCII letter that
    is also the lower case of a character outside ASCII, so the lookup
    below finds what it finds after [str.lower]. *)
Definition lower_char (c : ascii) : ascii :=
  let n := nat_of_ascii c in
  if (65 <=? n)%nat && (n <=? 90)%nat then ascii_of_nat (n + 32) else c.

Fixpoint lower (s : string) : string :=
  match s with
  | EmptyString => EmptyString
  | String c rest => String (lower_char c) (lower rest)
  end.

Definition day_mapping : list (string * Z) :=
  [("monday", 0); ("mon", 0); ("0", 0);
   ("tuesday", 1); ("tue", 1); ("1", 1);
   ("wednesday", 2); ("wed", 2); ("2", 2);
   ("thursday", 3); ("thu", 3); ("3", 3);
   ("friday", 4); ("fri", 4); ("4", 4)].

(** [day_mapping.get(day_key.lower(), 0)] *)
Definition _parse_day_key (day_key : string) : Z :=
  match find (fun kv => String.eqb (fst kv) (lower day_key)) day_mapping with
  | Some kv => snd kv
  | None => 0
  end.

(** What a raw availability dictionary holds for a day: a list of slots, a
    single slot, or a value of another type.  A slot is the pair of its
    [start_hour] and [end_hour]. *)
Inductive DayAvailability :=
| AsList (slots : list (Z * Z))
| AsDict (slot : Z * Z)
| Unclear.

(** The value stored for a day by the first loop. *)
Definition normal_slots (day_availability : DayAvailability) : list (Z * Z) :=
  match day_availability with
  | AsList slots => slots
  | AsDict slot => [slot]
  | Unclear => [(8, 17)]
  end.

(** [str(day) in normalized] *)
Definition has_key (key : string) (normalized : list (string * list (Z * Z))) : bool :=
  existsb (fun kv => String.eqb (fst kv) key) normalized.

Definition _normalize_availability (availability : list (string * DayAvailability))
  : list (string * list (Z * Z)) :=
  let normalized :=
    fold_left
      (fun normalized '(day_key, day_availability) =>
         let day_num := _parse_day_key day_key in
         upsert (str_int day_num) (fun _ => normal_slots day_availability) normalized)
      availability [] in
  (* Ensure all weekdays have some availability entry *)
  fold_left
    (fun normalized day =>
       if has_key (str_int day) normalized then normalized
       else upsert (str_int day) (fun _ => []) normalized)
    (range 0 5) normalized.
End ConstraintEncoder.
(** ** [services/conflict_analyzer.py] *)

(** A conflict record as the analyzer reads it: [type_] and [severity] are
    [None] when the key is absent; the two lists are read with default [[]]. *)
Module Conflict.
Record t := {
  type_ : option string;
  severity : option string;
  affected_entities : list string;
  session_ids : list string
}.
End Conflict.

Module ConflictPattern.
Record t := {
  conflict_type : string;
  frequency : Z;
  entities : list string;
  severity_score : Q
}.

Definition _calculate_severity (frequency : Z) (entities : list string) : Q :=
  let base_score := Qmin (inject_Z frequency / 10) 1 in
  let entity_impact := (inject_Z (Z.of_nat (length entities)) / 20)%Q in
  Qmin (base_score + entity_impact) 1.

(** [ConflictPattern(conflict_type, frequency, entities)] *)
Definition make (conflict_type : string) (frequency : Z)
  (entities : list string) : t :=
  {| conflict_type := conflict_type;
     frequency := frequency;
     entities := entities;
     severity_score := _calculate_severity frequency entities |}.
End ConflictPattern.

Module ResolutionSuggestion.
(** The keys of [parameters] that the evaluator reads, [None] when absent. *)
Record Parameters := {
  new_venue_id : option string;
  new_lecturer_id : option string
}.

Record t := {
  resolution_id : string;
  description : string;
  resolution_type : string;
  affected_sessions : list string;
  parameters : Parameters;
  score : Q;
  effort_level : string;
  impact_description : string;
  confidence : Q
}.

Definition _calculate_confidence (score : Q) (effort_level : string) : Q :=
  let effort_penalty : Q :=
    (if String.eqb effort_level "low" then 0
     else if String.eqb effort_level "medium" then 1#10
     else if String.eqb effort_level "high" then 2#10
     else 2#10)%Q in
  Qmax 0 (Qmin 1 (score - effort_penalty)).

(** [ResolutionSuggestion(...)] *)
Definition make (resolution_id description resolution_type : string)
  (affected_sessions : list string) (parameters : Parameters) (score : Q)
  (effort_level impact_description : string) : t :=
  {| resolution_id := resolution_id;
     description := description;
     resolution_type := resolution_type;
     affected_sessions := affected_sessions;
     parameters := parameters;
     score := score;
     effort_level := effort_level;
     impact_description := impact_description;
     confidence := _calculate_confidence score effort_level |}.
End ResolutionSuggestion.

Module ConflictAnalyzer.
Import ScheduledSessionModel.

(** *** Pattern mining *)

(** [conflict.get('type', 'unknown')] *)
Definition type_or_unknown (conflict : Conflict.t) : string :=
  default "unknown" (Conflict.type_ conflict).

(** [Counter(conflict.get('type', 'unknown') for conflict in conflicts)] *)
Definition type_counts (conflicts : list Conflict.t) : list (string * Z) :=
  fold_left (fun d conflict => count_into d (type_or_unknown conflict)) conflicts [].

(** [entity_conflicts[entity].append(conflict)] for every affected entity of
    every conflict. *)
Definition entity_conflicts (conflicts : list Conflict.t)
  : list (string * list Conflict.t) :=
  fold_left
    (fun d conflict =>
       fold_left
         (fun d entity => upsert entity (fun o => default [] o ++ [conflict]) d)
         (Conflict.affected_entities conflict) d)
    conflicts [].

(** [conflict.get('type') == conflict_type] *)
Definition has_type (conflict_type : string) (conflict : Conflict.t) : bool :=
  match Conflict.type_ conflict with
  | Some ty => String.eqb ty conflict_type
  | None => false
  end.

(** The entities gathered for one conflict type; [list(set(...))] removes
    duplicates (Python leaves the order of the result unspecified). *)
Definition involved_entities (conflict_type : string)
  (conflicts : list Conflict.t) : list string :=
  nodup String.string_dec
    (flat_map Conflict.affected_entities
       (List.filter (has_type conflict_type) conflicts)).

(** First loop: patterns for frequent conflict types. *)
Definition type_patterns (conflicts : list Conflict.t) : list ConflictPattern.t :=
  flat_map
    (fun '(conflict_type, count) =>
       if 2 <=? count
       then [ConflictPattern.make conflict_type count
               (involved_entities conflict_type conflicts)]
       else [])
    (type_counts conflicts).

(** Second loop: patterns for entities with multiple conflicts. *)
Definition entity_patterns (conflicts : list Conflict.t) : list ConflictPattern.t :=
  flat_map
    (fun '(entity, entity_conflict_list) =>
       if 3 <=? Z.of_nat (length entity_conflict_list)
       then [ConflictPattern.make ("entity_hotspot_" +:+ entity)
               (Z.of_nat (length entity_conflict_list)) [entity]]
       else [])
    (entity_conflicts conflicts).

(** [key=lambda p: p.severity_score, reverse=True] *)
Definition severity_desc (p1 p2 : ConflictPattern.t) : bool :=
  Qle_bool (ConflictPattern.severity_score p2) (ConflictPattern.severity_score p1).

Definition _identify_conflict_patterns (conflicts : list Conflict.t)
  : list ConflictPattern.t :=
  sorted_by severity_desc (type_patterns conflicts ++ entity_patterns conflicts).

(** *** Ranking (the last definition of [_rank_suggestions]) *)

(** [effort_order.get(s.effort_level, 2)] *)
Definition effort_order (effort_level : string) : Z :=
  if String.eqb effort_level "low" then 1
  else if String.eqb effort_level "medium" then 2
  else if String.eqb effort_level "high" then 3
  else 2.

(** Comparison of the sort keys [(-s.score, effort_order[...])]. *)
Definition rank_leb (s1 s2 : ResolutionSuggestion.t) : bool :=
  let k1 := (- ResolutionSuggestion.score s1)%Q in
  let k2 := (- ResolutionSuggestion.score s2)%Q in
  negb (Qle_bool k2 k1)
  || (Qeq_bool k1 k2
      && (effort_order (ResolutionSuggestion.effort_level s1)
          <=? effort_order (ResolutionSuggestion.effort_level s2))).

Definition _rank_suggestions (suggestions : list ResolutionSuggestion.t)
  (conflicts : list Conflict.t) (solution : SolutionModel.t)
  : list ResolutionSuggestion.t :=
  sorted_by rank_leb suggestions.

(** [_group_conflicts_by_type] *)
Definition _group_conflicts_by_type (conflicts : list Conflict.t)
  : list (string * list Conflict.t) :=
  fold_left
    (fun grouped conflict =>
       upsert (type_or_unknown conflict) (fun o => default [] o ++ [conflict]) grouped)
    conflicts [].

Section Suggester.
(** The seven strategy generators; [generate_resolution_suggestions] only
    concatenates what they return. *)
Variables
  _generate_venue_conflict_resolutions
  _generate_lecturer_conflict_resolutions
  _generate_student_group_resolutions
  _generate_capacity_resolutions
  _generate_equipment_resolutions
  _generate_availability_resolutions
  _generate_generic_resolutions
  : list Conflict.t -> SolutionModel.t -> Entities.t ->
    list ResolutionSuggestion.t.

Definition dispatch (conflict_type : string) :=
  if String.eqb conflict_type "venue_double_booking"
  then _generate_venue_conflict_resolutions
  else if String.eqb conflict_type "lecturer_conflict"
  then _generate_lecturer_conflict_resolutions
  else if String.eqb conflict_type "student_group_overlap"
  then _generate_student_group_resolutions
  else if String.eqb conflict_type "capacity_exceeded"
  then _generate_capacity_resolutions
  else if String.eqb conflict_type "equipment_conflict"
  then _generate_equipment_resolutions
  else if String.eqb conflict_type "availability_violation"
  then _generate_availability_resolutions
  else _generate_generic_resolutions.

(** The list [all_suggestions] before ranking. *)
Definition all_suggestions (conflicts : list Conflict.t)
  (solution : SolutionModel.t) (entities : Entities.t)
  : list ResolutionSuggestion.t :=
  fold_left
    (fun acc '(conflict_type, type_conflicts) =>
       acc ++ dispatch conflict_type type_conflicts solution entities)
    (_group_conflicts_by_type conflicts) [].

Definition generate_resolution_suggestions (conflicts : list Conflict.t)
  (solution : SolutionModel.t) (entities : Entities.t)
  (max_suggestions : Z) : list ResolutionSuggestion.t :=
  let ranked_suggestions :=
    _rank_suggestions (all_suggestions conflicts solution entities)
      conflicts solution in
  slice_to ranked_suggestions max_suggestions.
End Suggester.

Definition default_max_suggestions : Z := 5.

(** *** Alternative finders (the last definitions in the class) *)

Definition required_capacity_of (session : Session) (entities : Entities.t) : Z :=
  Zsum (map
          (fun group_id =>
             match lookup_by_id StudentGroup.id group_id
                     (Entities.student_groups entities) with
             | Some group => StudentGroup.size group
             | None => 0
             end)
          (student_groups session)).

Definition required_equipment_of (session : Session) (entities : Entities.t)
  : list string :=
  match lookup_by_id Course.id (course_id session) (Entities.courses entities) with
  | Some course => Course.required_equipment course
  | None => []
  end.

(** The body of [for venue in venues.values()]: [true] when the venue
    reaches [suitable_venues.append(venue)]. *)
Definition venue_suitable (session : Session) (required_capacity : Z)
  (required_equipment : list string) (venue : Venue.t) : bool :=
  if String.eqb (Venue.id venue) (venue_id session) then false
  else if Venue.capacity venue <? required_capacity then false
  else if negb (forallb (fun eq => str_in eq (Venue.equipment venue))
                  required_equipment) then false
  else true.

Definition capacity_leb (v1 v2 : Venue.t) : bool :=
  Venue.capacity v1 <=? Venue.capacity v2.

(** [venues] is the list [venues.values()], in insertion order. *)
Definition _find_alternative_venues (session : Session)
  (venues : list Venue.t) (entities : Entities.t) : list Venue.t :=
  let required_equipment := required_equipment_of session entities in
  let required_capacity := required_capacity_of session entities in
  let suitable_venues :=
    List.filter (venue_suitable session required_capacity required_equipment) venues in
  sorted_by capacity_leb suitable_venues.

Definition possible_hours : list Z := range 9 17.
Definition possible_days : list Z := range 0 5.

Definition day_names : list string :=
  ["Monday"; "Tuesday"; "Wednesday"; "Thursday"; "Friday"].

(** [f"{day_names[day]} {hour:02d}:00"] *)
Definition time_str (day hour : Z) : string :=
  nth (Z.to_nat day) day_names "" +:+ " " +:+ fmt02d hour +:+ ":00".

(** The condition of the inner [if] over [other_session]. *)
Definition blocks (session : Session) (day hour : Z) (other_session : Session)
  : bool :=
  (day_of_week other_session =? day)
  && (start_hour other_session =? hour)
  && (String.eqb (venue_id other_session) (venue_id session)
      || String.eqb (lecturer_id other_session) (lecturer_id session)
      || existsb (fun group => str_in group (student_groups other_session))
           (student_groups session)).

(** [time_slot_free] after the scan of [all_sessions]. *)
Definition time_slot_free (session : Session) (all_sessions : list Session)
  (day hour : Z) : bool :=
  negb (existsb (blocks session day hour) all_sessions).

(** [for hour in possible_hours], with its [continue] and [break]. *)
Fixpoint hours_loop (session : Session) (all_sessions : list Session)
  (day : Z) (hours : list Z) (alternative_times : list string) : list string :=
  match hours with
  | [] => alternative_times
  | hour :: rest =>
      if (day =? day_of_week session) && (hour =? start_hour session)
      then hours_loop session all_sessions day rest alternative_times
      else if time_slot_free session all_sessions day hour
      then
        let alternative_times := alternative_times ++ [time_str day hour] in
        if (5 <=? length alternative_times)%nat then alternative_times
        else hours_loop session all_sessions day rest alternative_times
      else hours_loop session all_sessions day rest alternative_times
  end.

(** [for day in possible_days], with the [break] after the inner loop. *)
Fixpoint days_loop (session : Session) (all_sessions : list Session)
  (days : list Z) (alternative_times : list string) : list string :=
  match days with
  | [] => alternative_times
  | day :: rest =>
      let alternative_times :=
        hours_loop session all_sessions day possible_hours alternative_times in
      if (5 <=? length alternative_times)%nat then alternative_times
      else days_loop session all_sessions rest alternative_times
  end.

Definition _find_alternative_times (session : Session)
  (all_sessions : list Session) : list string :=
  days_loop session all_sessions possible_days [].

(** *** Suggestion evaluator (the last definitions in the class) *)

Definition clamp01 (q : Q) : Q := Qmin 1 (Qmax 0 q).

Definition known_id (ids : list string) (o : option string) : bool :=
  match o with
  | Some x => str_in x ids
  | None => false
  end.

Definition _calculate_feasibility_score (suggestion : ResolutionSuggestion.t)
  (entities : Entities.t) : Q :=
  let base_score : Q := 8#10 in
  let base_score : Q :=
    if String.eqb (ResolutionSuggestion.resolution_type suggestion) "reassign_venue"
    then
      if negb (known_id (map Venue.id (Entities.venues entities))
                 (ResolutionSuggestion.new_venue_id
                    (ResolutionSuggestion.parameters suggestion)))
      then (base_score - (3#10))%Q else base_score
    else if String.eqb (ResolutionSuggestion.resolution_type suggestion)
              "reassign_lecturer"
    then
      if negb (known_id (map Lecturer.id (Entities.lecturers entities))
                 (ResolutionSuggestion.new_lecturer_id
                    (ResolutionSuggestion.parameters suggestion)))
      then (base_score - (3#10))%Q else base_score
    else base_score in
  let effort_penalty : Q :=
    (if String.eqb (ResolutionSuggestion.effort_level suggestion) "low" then 0
     else if String.eqb (ResolutionSuggestion.effort_level suggestion) "medium"
     then 1#10
     else if String.eqb (ResolutionSuggestion.effort_level suggestion) "high"
     then 2#10
     else 1#10)%Q in
  clamp01 (base_score - effort_penalty).

(** [affected_sessions.intersection(conflict_sessions)] is non-empty. *)
Definition touches (affected_sessions : list string) (conflict : Conflict.t) : bool :=
  existsb (fun sid => str_in sid (Conflict.session_ids conflict)) affected_sessions.

Definition _calculate_impact_score (suggestion : ResolutionSuggestion.t)
  (conflicts : list Conflict.t) (solution : SolutionModel.t) : Q :=
  let base_score : Q := 7#10 in
  let conflicts_resolved :=
    Z.of_nat (length (List.filter (touches (ResolutionSuggestion.affected_sessions suggestion))
                        conflicts)) in
  let base_score : Q :=
    if 1 <? conflicts_resolved
    then (base_score + Qmin (3#10) (inject_Z conflicts_resolved * (1#10)))%Q
    else base_score in
  let base_score : Q :=
    if String.eqb (ResolutionSuggestion.effort_level suggestion) "high"
    then (base_score - (1#10))%Q else base_score in
  clamp01 base_score.

Record RiskAssessment := {
  level : string;
  factors : list string;
  mitigation_suggestions : list string
}.

(** [pattern in str(risk_factors)]: the patterns contain no quote or comma,
    so a match lies inside one of the factors. *)
Definition mentioned (pattern : string) (risk_factors : list string) : bool :=
  existsb (str_contains pattern) risk_factors.

Definition _assess_suggestion_risk (suggestion : ResolutionSuggestion.t)
  (conflicts : list Conflict.t) : RiskAssessment :=
  let risk_factors : list string := [] in
  let risk_level := "low" in
  (* High effort = higher risk *)
  let '(risk_factors, risk_level) :=
    if String.eqb (ResolutionSuggestion.effort_level suggestion) "high"
    then (risk_factors ++ ["High implementation effort required"], "medium")
    else (risk_factors, risk_level) in
  (* Multiple affected sessions = higher risk *)
  let '(risk_factors, risk_level) :=
    if (3 <? length (ResolutionSuggestion.affected_sessions suggestion))%nat
    then (risk_factors ++ ["Multiple sessions affected"],
          if String.eqb risk_level "medium" then "high" else "medium")
    else (risk_factors, risk_level) in
  (* Low confidence = higher risk *)
  let '(risk_factors, risk_level) :=
    if negb (Qle_bool (6#10) (ResolutionSuggestion.confidence suggestion))
    then (risk_factors ++ ["Low confidence in solution effectiveness"],
          if String.eqb risk_level "medium" then "high" else "medium")
    else (risk_factors, risk_level) in
  (* Complex resolution types = higher risk *)
  let '(risk_factors, risk_level) :=
    if str_in (ResolutionSuggestion.resolution_type suggestion)
         ["split_group"; "reassign_lecturer"]
    then (risk_factors ++ ["Complex resolution type with potential side effects"],
          if String.eqb risk_level "low" then "medium" else risk_level)
    else (risk_factors, risk_level) in
  let mitigation_suggestions : list string :=
    (if mentioned "High implementation effort" risk_factors
     then ["Plan implementation in phases"] else [])
    ++ (if mentioned "Multiple sessions affected" risk_factors
        then ["Notify all affected parties in advance"] else [])
    ++ (if mentioned "Low confidence" risk_factors
        then ["Consider alternative solutions or seek additional input"] else []) in
  {| level := risk_level;
     factors := risk_factors;
     mitigation_suggestions := mitigation_suggestions |}.

(** The dictionary returned by [evaluate_suggestion_quality]. *)
Record Evaluation := {
  overall_score : Q;
  confidence : Q;
  feasibility_score : Q;
  impact_score : Q;
  effort_score : Q;
  risk_assessment : RiskAssessment;
  recommendation : string
}.

(** [effort_scores.get(suggestion.effort_level, 0.5)] *)
Definition effort_score_of (effort_level : string) : Q :=
  if String.eqb effort_level "low" then 9#10
  else if String.eqb effort_level "medium" then 6#10
  else if String.eqb effort_level "high" then 3#10
  else 5#10.

(** The local variable [overall_score], before it is clamped for output. *)
Definition weighted_overall (suggestion_score feasibility_score impact_score
  effort_score : Q) : Q :=
  (suggestion_score * (4#10) + feasibility_score * (3#10)
   + impact_score * (2#10) + effort_score * (1#10))%Q.

Definition evaluate_suggestion_quality (suggestion : ResolutionSuggestion.t)
  (conflicts : list Conflict.t) (solution : SolutionModel.t)
  (entities : Entities.t) : Evaluation :=
  let feasibility_score := _calculate_feasibility_score suggestion entities in
  let impact_score := _calculate_impact_score suggestion conflicts solution in
  let effort_score :=
    effort_score_of (ResolutionSuggestion.effort_level suggestion) in
  let risk_assessment := _assess_suggestion_risk suggestion conflicts in
  let overall_score :=
    weighted_overall (ResolutionSuggestion.score suggestion)
      feasibility_score impact_score effort_score in
  let recommendation :=
    if Qle_bool (7#10) overall_score
       && negb (String.eqb (level risk_assessment) "high")
    then "approve" else "review" in
  {| overall_score := Qmin 1 (Qmax 0 overall_score);
     confidence := ResolutionSuggestion.confidence suggestion;
     feasibility_score := feasibility_score;
     impact_score := impact_score;
     effort_score := effort_score;
     risk_assessment := risk_assessment;
     recommendation := recommendation |}.

(** *** Strategy generators

    The generators for venue conflicts, student-group overlaps, equipment
    conflicts and for all other kinds (the last definition of
    [_generate_generic_resolutions]).  The [parameters] of a suggestion are
    kept through the view [ResolutionSuggestion.Parameters]. *)

(** [list({x['id']: x for x in l}.values())]: one entry per id, at the
    position of the first occurrence of the id and with the value of the
    last. *)
Definition values_by_id {A : Type} (get_id : A -> string) (l : list A) : list A :=
  map snd (fold_left (fun d x => upsert (get_id x) (fun _ => x) d) l []).

(** [[s for s in solution.sessions if s.id in conflict.get('session_ids', [])]] *)
Definition affected_by (conflict : Conflict.t) (solution : SolutionModel.t)
  : list Session :=
  List.filter (fun s => str_in (id s) (Conflict.session_ids conflict))
    (SolutionModel.sessions solution).

Definition no_parameters : ResolutionSuggestion.Parameters :=
  {| ResolutionSuggestion.new_venue_id := None;
     ResolutionSuggestion.new_lecturer_id := None |}.

Definition new_venue (venue : Venue.t) : ResolutionSuggestion.Parameters :=
  {| ResolutionSuggestion.new_venue_id := Some (Venue.id venue);
     ResolutionSuggestion.new_lecturer_id := None |}.

(** The body of [for conflict in conflicts] in
    [_generate_venue_conflict_resolutions]. *)
Definition venue_conflict_suggestions (solution : SolutionModel.t)
  (entities : Entities.t) (conflict : Conflict.t) : list ResolutionSuggestion.t :=
  let venues := values_by_id Venue.id (Entities.venues entities) in
  match affected_by conflict solution with
  | session1 :: session2 :: _ =>
      (* Suggestion 1: Move one session to different venue *)
      (match _find_alternative_venues session1 venues entities with
       | venue :: _ =>
           [ResolutionSuggestion.make ("venue_move_" +:+ id session1)
              ("Move session " +:+ course_id session1 +:+ " to " +:+ Venue.name venue)
              "reassign_venue" [id session1] (new_venue venue) (8#10) "low"
              "Changes venue location for one session"]
       | [] => []
       end)
      (* Suggestion 2: Reschedule one session *)
      ++ (match _find_alternative_times session1 (SolutionModel.sessions solution) with
          | time :: _ =>
              [ResolutionSuggestion.make ("reschedule_" +:+ id session1)
                 ("Reschedule session " +:+ course_id session1 +:+ " to " +:+ time)
                 "reschedule" [id session1] no_parameters (7#10) "medium"
                 "Changes session timing"]
          | [] => []
          end)
  | _ => []
  end.

Definition _generate_venue_conflict_resolutions (conflicts : list Conflict.t)
  (solution : SolutionModel.t) (entities : Entities.t)
  : list ResolutionSuggestion.t :=
  flat_map (venue_conflict_suggestions solution entities) conflicts.

(** The body of the loop of [_generate_student_group_resolutions]. *)
Definition student_group_suggestions (solution : SolutionModel.t)
  (entities : Entities.t) (conflict : Conflict.t) : list ResolutionSuggestion.t :=
  match affected_by conflict solution with
  | session :: _ =>
      (* Suggestion 1: Reschedule session *)
      (match _find_alternative_times session (SolutionModel.sessions solution) with
       | time :: _ =>
           [ResolutionSuggestion.make ("group_reschedule_" +:+ id session)
              ("Reschedule " +:+ course_id session +:+ " to avoid student group overlap")
              "reschedule" [id session] no_parameters (8#10) "medium"
              "Changes session timing for affected groups"]
       | [] => []
       end)
      (* Suggestion 2: Split student groups *)
      ++ (if (1 <? length (student_groups session))%nat
          then
            [ResolutionSuggestion.make ("split_groups_" +:+ id session)
               ("Split student groups for " +:+ course_id session
                +:+ " into separate sessions")
               "split_group" [id session] no_parameters (6#10) "high"
               "Creates multiple parallel sessions"]
          else [])
  | [] => []
  end.

Definition _generate_student_group_resolutions (conflicts : list Conflict.t)
  (solution : SolutionModel.t) (entities : Entities.t)
  : list ResolutionSuggestion.t :=
  flat_map (student_group_suggestions solution entities) conflicts.

(** The venues that [_generate_equipment_resolutions] considers for a
    session: those with every required equipment tag and another id. *)
Definition equipped_venues (session : Session) (required_equipment : list string)
  (venues : list Venue.t) : list Venue.t :=
  List.filter
    (fun v => forallb (fun eq => str_in eq (Venue.equipment v)) required_equipment
              && negb (String.eqb (Venue.id v) (venue_id session)))
    venues.

(** The body of the loop of [_generate_equipment_resolutions]. *)
Definition equipment_suggestions (solution : SolutionModel.t)
  (entities : Entities.t) (conflict : Conflict.t) : list ResolutionSuggestion.t :=
  let venues := values_by_id Venue.id (Entities.venues entities) in
  match affected_by conflict solution with
  | session :: _ =>
      match lookup_by_id Course.id (course_id session) (Entities.courses entities) with
      | Some course =>
          let required_equipment := Course.required_equipment course in
          match equipped_venues session required_equipment venues with
          | best_venue :: _ =>
              [ResolutionSuggestion.make ("equipment_move_" +:+ id session)
                 ("Move " +:+ course_id session +:+ " to " +:+ Venue.name best_venue
                  +:+ " with required equipment")
                 "reassign_venue" [id session] (new_venue best_venue) (9#10) "low"
                 "Changes venue to one with required equipment"]
          | [] => []
          end
      | None => []
      end
  | [] => []
  end.

Definition _generate_equipment_resolutions (conflicts : list Conflict.t)
  (solution : SolutionModel.t) (entities : Entities.t)
  : list ResolutionSuggestion.t :=
  flat_map (equipment_suggestions solution entities) conflicts.

(** The body of the loop of [_generate_generic_resolutions]. *)
Definition generic_suggestions (solution : SolutionModel.t)
  (entities : Entities.t) (conflict : Conflict.t) : list ResolutionSuggestion.t :=
  match affected_by conflict solution with
  | session :: _ =>
      match _find_alternative_times session (SolutionModel.sessions solution) with
      | time :: _ =>
          [ResolutionSuggestion.make ("generic_reschedule_" +:+ id session)
             ("Reschedule " +:+ course_id session +:+ " to resolve conflict")
             "reschedule" [id session] no_parameters (5#10) "medium"
             "Generic rescheduling solution"]
      | [] => []
      end
  | [] => []
  end.

Definition _generate_generic_resolutions (conflicts : list Conflict.t)
  (solution : SolutionModel.t) (entities : Entities.t)
  : list ResolutionSuggestion.t :=
  flat_map (generic_suggestions solution entities) conflicts.

(** *** [generate_multiple_alternatives] (the last definition) *)

(** [key=lambda s: s.score, reverse=True] *)
Definition score_desc (s1 s2 : ResolutionSuggestion.t) : bool :=
  Qle_bool (ResolutionSuggestion.score s2) (ResolutionSuggestion.score s1).

(** The list [alternative] built in iteration [i] of the loop. *)
Definition alternative_path (all_suggestions : list ResolutionSuggestion.t) (i : Z)
  : list ResolutionSuggestion.t :=
  if i =? 0 then
    (* Alternative 1: Prefer low-effort solutions *)
    firstn 5 (List.filter
                (fun s => String.eqb (ResolutionSuggestion.effort_level s) "low")
                all_suggestions)
  else if i =? 1 then
    (* Alternative 2: Prefer high-score solutions regardless of effort *)
    firstn 5 (sorted_by score_desc all_suggestions)
  else
    (* Alternative 3: Balanced approach *)
    firstn 5 (skipn (Z.to_nat (i * 2)) all_suggestions).

Section Alternatives.
(** The seven strategy generators that [generate_resolution_suggestions]
    dispatches to. *)
Variables g_venue g_lecturer g_group g_capacity g_equipment g_availability g_generic
  : list Conflict.t -> SolutionModel.t -> Entities.t ->
    list ResolutionSuggestion.t.

Definition generate_multiple_alternatives (conflicts : list Conflict.t)
  (solution : SolutionModel.t) (entities : Entities.t) (num_alternatives : Z)
  : list (list ResolutionSuggestion.t) :=
  let all_suggestions :=
    generate_resolution_suggestions g_venue g_lecturer g_group g_capacity
      g_equipment g_availability g_generic conflicts solution entities 20 in
  match all_suggestions with
  | [] => []
  | _ =>
      fold_left
        (fun alternatives i =>
           match alternative_path all_suggestions i with
           | [] => alternatives
           | alternative => alternatives ++ [alternative]
           end)
        (range 0 (Z.min num_alternatives (Z.of_nat (length all_suggestions))))
        []
  end.
End Alternatives.

Definition default_num_alternatives : Z := 3.

(** *** Root causes, severity distribution and recommendations *)

Record RootCause := {
  cause_type : string;
  cause_description : string;
  cause_severity : string;
  cause_affected_entities : list string;
  cause_recommendation : string
}.

(** [[k for k, usage in usage.items() if usage > avg * factor]] *)
Definition above (usage : list (string * Z)) (avg factor : Q) : list string :=
  map fst
    (List.filter (fun kv => negb (Qle_bool (inject_Z (snd kv)) (avg * factor))) usage).

(** [sum(usage.values()) / n] *)
Definition average (usage : list (string * Z)) (n : nat) : Q :=
  (inject_Z (Zsum (map snd usage)) / inject_Z (Z.of_nat n))%Q.

(** [len(found) > n * share] *)
Definition more_than_share (found : list string) (n : nat) (share : Q) : bool :=
  negb (Qle_bool (inject_Z (Z.of_nat (length found))) (inject_Z (Z.of_nat n) * share)).

(** The block "Check venue utilization": the cause that it appends, if
    any. *)
Definition venue_scarcity (sessions : list Session) (venues : list Venue.t)
  : list RootCause :=
  let venue_usage := CSPSolver.usage_by venue_id sessions in
  match venues with
  | [] => []
  | _ =>
      let avg_venue_usage := average venue_usage (length venues) in
      let high_usage_venues := above venue_usage avg_venue_usage (15#10) in
      match high_usage_venues with
      | [] => []
      | _ =>
          [{| cause_type := "venue_scarcity";
              cause_description :=
                str_int (Z.of_nat (length high_usage_venues))
                +:+ " venues are overutilized";
              cause_severity :=
                if more_than_share high_usage_venues (length venues) (3#10)
                then "high" else "medium";
              cause_affected_entities := high_usage_venues;
              cause_recommendation :=
                "Consider adding more venues or redistributing sessions" |}]
      end
  end.

(** The block "Check lecturer workload". *)
Definition lecturer_overload (sessions : list Session) (lecturers : list Lecturer.t)
  : list RootCause :=
  let lecturer_usage := CSPSolver.usage_by lecturer_id sessions in
  match lecturers with
  | [] => []
  | _ =>
      let avg_lecturer_usage := average lecturer_usage (length lecturers) in
      let overloaded_lecturers := above lecturer_usage avg_lecturer_usage (15#10) in
      match overloaded_lecturers with
      | [] => []
      | _ =>
          [{| cause_type := "lecturer_overload";
              cause_description :=
                str_int (Z.of_nat (length overloaded_lecturers))
                +:+ " lecturers are overloaded";
              cause_severity :=
                if more_than_share overloaded_lecturers (length lecturers) (2#10)
                then "high" else "medium";
              cause_affected_entities := overloaded_lecturers;
              cause_recommendation :=
                "Balance lecturer workload or hire additional staff" |}]
      end
  end.

(** The block "Check time slot distribution". *)
Definition time_slot_congestion (sessions : list Session) : list RootCause :=
  let time_slot_usage := CSPSolver.usage_by CSPSolver.time_key sessions in
  match time_slot_usage with
  | [] => []
  | _ =>
      let avg_time_usage := average time_slot_usage (length time_slot_usage) in
      let peak_times := above time_slot_usage avg_time_usage 2 in
      match peak_times with
      | [] => []
      | _ =>
          [{| cause_type := "time_slot_congestion";
              cause_description :=
                str_int (Z.of_nat (length peak_times))
                +:+ " time slots are heavily congested";
              cause_severity := "medium";
              cause_affected_entities := peak_times;
              cause_recommendation := "Spread sessions across more time slots" |}]
      end
  end.

Definition _identify_root_causes (conflicts : list Conflict.t)
  (solution : SolutionModel.t) (entities : Entities.t) : list RootCause :=
  let root_causes : list RootCause := [] in
  let venues := Entities.venues entities in
  let lecturers := Entities.lecturers entities in
  let sessions := SolutionModel.sessions solution in
  let root_causes := root_causes ++ venue_scarcity sessions venues in
  let root_causes := root_causes ++ lecturer_overload sessions lecturers in
  let root_causes := root_causes ++ time_slot_congestion sessions in
  root_causes.

(** [Counter(conflict.get('severity', 'unknown') for conflict in conflicts)] *)
Definition _calculate_severity_distribution (conflicts : list Conflict.t)
  : list (string * Z) :=
  fold_left
    (fun d conflict => count_into d (default "unknown" (Conflict.severity conflict)))
    conflicts [].

(** The recommendation that a pattern contributes, if any. *)
Definition pattern_recommendation (pattern : ConflictPattern.t) : list string :=
  if String.eqb (ConflictPattern.conflict_type pattern) "venue_double_booking"
  then ["Consider adding more venues or extending operating hours"]
  else if String.eqb (ConflictPattern.conflict_type pattern) "lecturer_conflict"
  then ["Review lecturer availability and consider hiring additional staff"]
  else if String.prefix "entity_hotspot" (ConflictPattern.conflict_type pattern)
  then
    let entity_id :=
      match ConflictPattern.entities pattern with
      | entity :: _ => entity
      | [] => "unknown"
      end in
    ["Entity " +:+ entity_id
     +:+ " is involved in many conflicts - review its constraints"]
  else [].

Definition cause_recommendations (cause : RootCause) : list string :=
  if String.eqb (cause_severity cause) "high" then [cause_recommendation cause]
  else [].

Definition _generate_analysis_recommendations (patterns : list ConflictPattern.t)
  (root_causes : list RootCause) : list string :=
  let recommendations :=
    flat_map pattern_recommendation (firstn 3 patterns)
    ++ flat_map cause_recommendations root_causes in
  firstn 5 recommendations.
End ConflictAnalyzer.

(** ** The hard rules of the data model, for a schedule and its entities

    Rules 2 to 7 of the data model, phrased for scheduled sessions with the
    conditions that the solver's constraint installers use. *)

Module Invariants.
Import ScheduledSessionModel.

Definition same_slot (a b : Session) : bool :=
  (day_of_week a =? day_of_week b) && (start_hour a =? start_hour b).

(** Rule 2: two sessions in one venue at one slot. *)
Definition venue_clash (a b : Session) : bool :=
  same_slot a b && String.eqb (venue_id a) (venue_id b).

(** Rule 3: two sessions of one lecturer at one slot. *)
Definition lecturer_clash (a b : Session) : bool :=
  same_slot a b && String.eqb (lecturer_id a) (lecturer_id b).

(** Rule 4: two sessions attended by a common student group at one slot. *)
Definition group_clash (a b : Session) : bool :=
  same_slot a b
  && existsb (fun group => str_in group (student_groups b)) (student_groups a).

(** Rule 5: the venue seats the attending groups. *)
Definition capacity_ok (entities : Entities.t) (session : Session) : bool :=
  match lookup_by_id Venue.id (venue_id session) (Entities.venues entities),
        lookup_by_id Course.id (course_id session) (Entities.courses entities) with
  | Some venue, Some course =>
      negb (CSPSolver.capacity_insufficient entities course venue)
  | _, _ => false
  end.

(** Rule 6: the venue has the equipment that the course requires. *)
Definition equipment_ok (entities : Entities.t) (session : Session) : bool :=
  match lookup_by_id Venue.id (venue_id session) (Entities.venues entities),
        lookup_by_id Course.id (course_id session) (Entities.courses entities) with
  | Some venue, Some course => CSPSolver.has_all_equipment course venue
  | _, _ => false
  end.

(** Rule 7: the lecturer is available at the slot of the session. *)
Definition availability_ok (entities : Entities.t) (session : Session) : bool :=
  match lookup_by_id Lecturer.id (lecturer_id session)
          (Entities.lecturers entities) with
  | Some lecturer =>
      CSPSolver.is_available lecturer (day_of_week session) (start_hour session)
  | None => false
  end.

(** The booking that the validator's two scans compare. *)
Definition venue_booking (session : Session) : string * Z * Z :=
  (venue_id session, day_of_week session, start_hour session).

Definition lecturer_booking (session : Session) : string * Z * Z :=
  (lecturer_id session, day_of_week session, start_hour session).
End Invariants.

(** ** The alternative-times finder as the specification words it

    Days Monday to Friday, hours 8 to 17 without the lunch hour 12 and
    without the current slot; a slot is usable when no other session shares
    the venue, the lecturer or a student group there; at most five slots.
    This reading is compared with the code below; nothing else depends on
    it. *)

Module Documented.
Import ConflictAnalyzer ScheduledSessionModel.

Definition hours : list Z := [8; 9; 10; 11; 13; 14; 15; 16; 17].
Definition days : list Z := [0; 1; 2; 3; 4].

Definition usable (session : Session) (all_sessions : list Session)
  (day hour : Z) : bool :=
  negb (existsb
          (fun other =>
             negb (String.eqb (id other) (id session))
             && blocks session day hour other)
          all_sessions).

Definition alternative_times (session : Session) (all_sessions : list Session)
  : list string :=
  firstn 5
    (flat_map
       (fun day =>
          map (time_str day)
            (List.filter
               (fun hour =>
                  negb ((day =? day_of_week session) && (hour =? start_hour session))
                  && usable session all_sessions day hour)
               hours))
       days).
End Documented.

(** ** Notions used in the statements *)

(** [c] occurs in [s]. *)
Fixpoint occurs (c : ascii) (s : string) : bool :=
  match s with
  | EmptyString => false
  | String a rest => Ascii.eqb a c || occurs c rest
  end.

(** The set stored under [who] in a bookings dictionary, empty when [who] has
    no entry. *)
Definition booked (b : gmap string (gset string)) (who : string) : gset string :=
  default ∅ (b !! who).

(** The pairs that the two scans of [_validate_hard_constraints] look up. *)
Definition venue_slot (s : Session) : string * string :=
  (ScheduledSessionModel.venue_id s, CSPSolver.time_key s).

Definition lecturer_slot (s : Session) : string * string :=
  (ScheduledSessionModel.lecturer_id s, CSPSolver.time_key s).

(** Loop invariant of [_validate_hard_constraints] after the sessions [pre]. *)
Record hard_inv (pre : list Session) (st : CSPSolver.hard_state) : Prop := {
  inv_venue : forall v k,
    k ∈ booked (CSPSolver.venue_bookings st) v <-> In (v, k) (map venue_slot pre);
  inv_lecturer : forall l k,
    k ∈ booked (CSPSolver.lecturer_bookings st) l <-> In (l, k) (map lecturer_slot pre);
  inv_total : CSPSolver.total_checks st = 2 * Z.of_nat (length pre);
  inv_passed :
    CSPSolver.passed_checks st + Z.of_nat (length (CSPSolver.violations st))
    = CSPSolver.total_checks st;
  inv_nonneg : 0 <= CSPSolver.passed_checks st;
  inv_clean :
    CSPSolver.violations st = []
    <-> NoDup (map venue_slot pre) /\ NoDup (map lecturer_slot pre)
}.

(** A record of one of the two kinds that the validator emits. *)
Definition is_double_booking (c : PyDict) : Prop :=
  dict_get "type" c = Some (PStr "venue_double_booking")
  \/ dict_get "type" c = Some (PStr "lecturer_double_booking").

(** An insertion-ordered dictionary [d] built by [upsert] over the keys [P]:
    its keys are distinct, and the size [m] of the value under a key is the
    number of times the key occurs in [P]. *)
Definition measured {V : Type} (m : V -> Z) (d : list (string * V))
  (P : list string) : Prop :=
  NoDup (map fst d)
  /\ forall k n, (exists v, In (k, v) d /\ m v = n)
                 <-> (n = Z.of_nat (count_occ String.string_dec P k) /\ 0 < n).

(** How often a conflict kind occurs in the conflict list. *)
Definition kind_count (conflicts : list Conflict.t) (kind : string) : Z :=
  Z.of_nat (count_occ String.string_dec
              (map ConflictAnalyzer.type_or_unknown conflicts) kind).

(** How often an entity is listed among the affected entities. *)
Definition entity_mentions (conflicts : list Conflict.t) (entity : string) : Z :=
  Z.of_nat (count_occ String.string_dec
              (flat_map Conflict.affected_entities conflicts) entity).


(** The slots that [_find_alternative_times] visits, in visiting order. *)
Definition visited_slots : list (Z * Z) :=
  flat_map (fun day => map (fun hour => (day, hour)) ConflictAnalyzer.possible_hours)
    ConflictAnalyzer.possible_days.

(** A visited slot is kept when it is not the current slot of the session
    and the scan of [all_sessions] finds it free. *)
Definition slot_kept (session : Session) (all_sessions : list Session)
  (slot : Z * Z) : bool :=
  negb ((fst slot =? ScheduledSessionModel.day_of_week session)
        && (snd slot =? ScheduledSessionModel.start_hour session))
  && ConflictAnalyzer.time_slot_free session all_sessions (fst slot) (snd slot).

(** ** Sample inputs *)

Definition session_of (id course_id lecturer_id venue_id : string)
  (student_groups : list string) (day_of_week start_hour : Z) : Session :=
  {| ScheduledSessionModel.id := id;
     ScheduledSessionModel.course_id := course_id;
     ScheduledSessionModel.lecturer_id := lecturer_id;
     ScheduledSessionModel.venue_id := venue_id;
     ScheduledSessionModel.student_groups := student_groups;
     ScheduledSessionModel.start_hour := start_hour;
     ScheduledSessionModel.day_of_week := day_of_week |}.

Definition schedule_of (sessions : list Session) (is_feasible : bool)
  : SolutionModel.t :=
  {| SolutionModel.sessions := sessions;
     SolutionModel.score := 0;
     SolutionModel.is_feasible := is_feasible;
     SolutionModel.conflicts := [];
     SolutionModel.metadata := [] |}.

(** Two sessions of one course, Monday 09:00, in different rooms with
    different lecturers, both attended by group [g1] of 50 students. *)
Definition crowded_a : Session := session_of "s1" "c1" "l1" "small" ["g1"] 0 9.
Definition crowded_b : Session := session_of "s2" "c1" "l2" "lab" ["g1"] 0 9.

Definition crowded_entities : Entities.t :=
  {| Entities.venues :=
       [ {| Venue.id := "small"; Venue.name := "Small room";
            Venue.capacity := 10; Venue.equipment := [] |};
         {| Venue.id := "lab"; Venue.name := "Lab";
            Venue.capacity := 20; Venue.equipment := ["projector"] |} ];
     Entities.lecturers :=
       [ {| Lecturer.id := "l1"; Lecturer.subjects := [];
            Lecturer.availability := [("1", [(9, 17)])];
            Lecturer.max_hours_per_week := 40 |};
         {| Lecturer.id := "l2"; Lecturer.subjects := [];
            Lecturer.availability := [("0", [(9, 17)])];
            Lecturer.max_hours_per_week := 40 |} ];
     Entities.courses :=
       [ {| Course.id := "c1"; Course.required_equipment := ["projector"];
            Course.student_groups := ["g1"]; Course.lecturer_id := "l1" |} ];
     Entities.student_groups :=
       [ {| StudentGroup.id := "g1"; StudentGroup.size := 50 |} ] |}.

(** Six halls, each large enough and equipped for the sessions above. *)
Definition six_halls : list Venue.t :=
  map (fun n => {| Venue.id := "hall" +:+ str_int n; Venue.name := "Hall";
                   Venue.capacity := 100 + n; Venue.equipment := ["projector"] |})
      (range 0 6).

Definition suggestion_of (resolution_id : string) (score : Q)
  (effort_level : string) : ResolutionSuggestion.t :=
  ResolutionSuggestion.make resolution_id "Reschedule the session" "reschedule"
    ["s1"]
    {| ResolutionSuggestion.new_venue_id := None;
       ResolutionSuggestion.new_lecturer_id := None |}
    score effort_level "Changes session timing".

Definition sample_suggestions : list ResolutionSuggestion.t :=
  [suggestion_of "r1" (7#10) "medium"; suggestion_of "r2" (8#10) "high";
   suggestion_of "r3" (8#10) "low"].

(** A strategy generator that proposes the same three suggestions whatever
    it is given. *)
Definition sample_generator (conflicts : list Conflict.t)
  (solution : SolutionModel.t) (entities : Entities.t)
  : list ResolutionSuggestion.t :=
  sample_suggestions.

Definition sample_conflict : Conflict.t :=
  {| Conflict.type_ := Some "student_group_overlap";
     Conflict.severity := Some "high";
     Conflict.affected_entities := ["g1"];
     Conflict.session_ids := ["s1"; "s2"] |}.

(** A stand-in engine with no state, as a mocked test environment provides:
    every step returns at once. *)
Definition mock_clock : unit -> Q * unit := fun w => (0%Q, w).

Definition mock_step : CSPSolver.M (World := unit) unit :=
  fun w => (CSPSolver.Returns tt, w).

Definition mock_type_error : CSPSolver.M (World := unit) unit :=
  fun w => (CSPSolver.Raises
              {| CSPSolver.exn_class := CSPSolver.TypeError;
                 CSPSolver.exn_str := "unsupported operand type(s)" |}, w).

Definition mock_search (status : CSPSolver.CpStatus)
  : CSPSolver.M (World := unit) CSPSolver.CpStatus :=
  fun w => (CSPSolver.Returns status, w).

Definition mock_extract : CSPSolver.M (World := unit) SolutionModel.t :=
  fun w => (CSPSolver.Returns (schedule_of [crowded_a] true), w).

(** [solve] run against the stand-in engine; [soft] is the behaviour of
    [_add_soft_constraints] and [status] the result of the search. *)
Definition mock_solve (soft : CSPSolver.M (World := unit) unit)
  (status : CSPSolver.CpStatus) : CSPSolver.outcome SolutionModel.t * unit :=
  CSPSolver.solve (EncodedConstraints := unit) (OptimizationParameters := unit)
    mock_clock (fun _ => mock_step) (fun _ => mock_step) (fun _ => mock_step)
    (fun _ _ => soft) (fun _ => mock_step) (mock_search status)
    (fun _ => mock_extract) tt tt tt.
(** ** Further notions used in the statements *)

(** The double bookings of the sessions [rest] of a schedule whose earlier
    sessions are [earlier], found by comparing every session with the ones
    before it: a session whose venue is taken at its slot by an earlier
    session gives a venue record, one whose lecturer is taken gives a
    lecturer record, the venue record first. *)
Fixpoint double_bookings (earlier rest : list Session) : list PyDict :=
  match rest with
  | [] => []
  | session :: rest =>
      (if existsb (Invariants.venue_clash session) earlier
       then [CSPSolver.venue_violation session] else [])
      ++ (if existsb (Invariants.lecturer_clash session) earlier
          then [CSPSolver.lecturer_violation session] else [])
      ++ double_bookings (earlier ++ [session]) rest
  end.

(** The number of distinct (venue, day, hour) bookings of a schedule, and of
    distinct (lecturer, day, hour) bookings. *)
Definition distinct_venue_bookings (sessions : list Session) : Z :=
  Z.of_nat (size (list_to_set (map Invariants.venue_booking sessions)
                  : gset (string * Z * Z))).

Definition distinct_lecturer_bookings (sessions : list Session) : Z :=
  Z.of_nat (size (list_to_set (map Invariants.lecturer_booking sessions)
                  : gset (string * Z * Z))).

(** The attendances of a schedule: one (group, day, hour) for every group
    that a session lists. *)
Definition attendances (sessions : list Session) : list (string * Z * Z) :=
  flat_map
    (fun session =>
       map (fun group => (group, ScheduledSessionModel.day_of_week session,
                          ScheduledSessionModel.start_hour session))
         (ScheduledSessionModel.student_groups session))
    sessions.

(** The number of sessions of a schedule that [who] (the venue, or the
    lecturer, of a session) assigns to [k]. *)
Definition load (who : Session -> string) (sessions : list Session) (k : string) : Z :=
  Z.of_nat (count_occ String.string_dec (map who sessions) k).

(** The number of distinct (day, hour) slots that a schedule uses. *)
Definition distinct_slots (sessions : list Session) : Z :=
  Z.of_nat (size (list_to_set
                    (map (fun session => (ScheduledSessionModel.day_of_week session,
                                          ScheduledSessionModel.start_hour session))
                       sessions) : gset (Z * Z))).

(** Seven sessions in seven rooms with seven lecturers, all on Monday at
    09:00 and all attended by group [g1]. *)
Definition simultaneous : list Session :=
  map (fun n => session_of ("s" +:+ str_int n) "c1" ("l" +:+ str_int n)
                  ("room" +:+ str_int n) ["g1"] 0 9)
      (range 0 7).

(** A table of group schedules all of whose hours are attendances of
    [seen], none recorded twice. *)
Definition clean_schedules (gs : list (string * list (Z * list Z)))
  (seen : list (string * Z * Z)) : Prop :=
  forall g days d hours,
    In (g, days) gs -> In (d, hours) days ->
    NoDup hours /\ forall h, In h hours -> In (g, d, h) seen.

(** The kinds of a conflict list, each once, in order of first
    occurrence. *)
Definition kinds_in_order (conflicts : list Conflict.t) : list string :=
  fold_left
    (fun seen conflict =>
       if str_in (ConflictAnalyzer.type_or_unknown conflict) seen then seen
       else seen ++ [ConflictAnalyzer.type_or_unknown conflict])
    conflicts [].

(** The conflicts of one kind, in their order. *)
Definition of_kind (kind : string) (conflicts : list Conflict.t) : list Conflict.t :=
  List.filter (fun conflict => String.eqb (ConflictAnalyzer.type_or_unknown conflict) kind)
    conflicts.

(** Two suggestions with the same sort key: equal scores and equal effort
    ranks. *)
Definition same_rank (s1 s2 : ResolutionSuggestion.t) : bool :=
  Qeq_bool (ResolutionSuggestion.score s1) (ResolutionSuggestion.score s2)
  && (ConflictAnalyzer.effort_order (ResolutionSuggestion.effort_level s1)
      =? ConflictAnalyzer.effort_order (ResolutionSuggestion.effort_level s2)).

(** The four conditions that [_assess_suggestion_risk] examines. *)
Definition effort_is_high (suggestion : ResolutionSuggestion.t) : bool :=
  String.eqb (ResolutionSuggestion.effort_level suggestion) "high".

Definition many_sessions (suggestion : ResolutionSuggestion.t) : bool :=
  (3 <? length (ResolutionSuggestion.affected_sessions suggestion))%nat.

Definition low_confidence (suggestion : ResolutionSuggestion.t) : bool :=
  negb (Qle_bool (6#10) (ResolutionSuggestion.confidence suggestion)).

Definition complex_type (suggestion : ResolutionSuggestion.t) : bool :=
  str_in (ResolutionSuggestion.resolution_type suggestion)
    ["split_group"; "reassign_lecturer"].

(** A conflict dictionary as the analyzer reads it.  The result is [None]
    for a dictionary in which one of the four keys holds a value of another
    type than the analyzer's record has for it. *)
Definition read_str (key : string) (d : PyDict) : option (option string) :=
  match dict_get key d with
  | None => Some None
  | Some (PStr s) => Some (Some s)
  | Some _ => None
  end.

Definition read_list (key : string) (d : PyDict) : option (list string) :=
  match dict_get key d with
  | None => Some []
  | Some (PList l) => Some l
  | Some _ => None
  end.

Definition read_conflict (d : PyDict) : option Conflict.t :=
  match read_str "type" d, read_str "severity" d,
        read_list "affected_entities" d, read_list "session_ids" d with
  | Some type_, Some severity, Some affected_entities, Some session_ids =>
      Some {| Conflict.type_ := type_;
              Conflict.severity := severity;
              Conflict.affected_entities := affected_entities;
              Conflict.session_ids := session_ids |}
  | _, _, _, _ => None
  end.

(** The conflict that the analyzer reads from a double-booking record of
    the validator: the record has no ['session_ids'] and no
    ['affected_entities'] key. *)
Definition reported (kind : string) : Conflict.t :=
  {| Conflict.type_ := Some kind;
     Conflict.severity := None;
     Conflict.affected_entities := [];
     Conflict.session_ids := [] |}.

(** The number of conflicts that [_calculate_impact_score] counts as
    resolved by a suggestion: those naming one of its affected sessions. *)
Definition conflicts_resolved (suggestion : ResolutionSuggestion.t)
  (conflicts : list Conflict.t) : Z :=
  Z.of_nat (length (List.filter
                      (ConflictAnalyzer.touches
                         (ResolutionSuggestion.affected_sessions suggestion))
                      conflicts)).

(** The pairs (course id, session index) for which [_create_variables]
    makes variables, in creation order. *)
Definition planned_sessions (courses : list (Course.t * Z)) : list (string * Z) :=
  flat_map (fun c => map (fun session_idx => (Course.id (fst c), session_idx))
                       (range 0 (snd c)))
    courses.

(** Two courses, the first taught twice a week; one room, one lecturer and
    three Monday slots. *)
Definition small_problem : CSPSolver.encoded_constraints :=
  {| CSPSolver.enc_venues :=
       [ {| Venue.id := "lab"; Venue.name := "Lab"; Venue.capacity := 20;
            Venue.equipment := ["projector"] |} ];
     CSPSolver.enc_lecturers :=
       [ {| Lecturer.id := "l1"; Lecturer.subjects := [];
            Lecturer.availability := [("0", [(9, 17)])];
            Lecturer.max_hours_per_week := 40 |} ];
     CSPSolver.enc_courses :=
       [ ({| Course.id := "c1"; Course.required_equipment := [];
             Course.student_groups := ["g1"]; Course.lecturer_id := "l1" |}, 2);
         ({| Course.id := "c2"; Course.required_equipment := [];
             Course.student_groups := ["g1"]; Course.lecturer_id := "l1" |}, 1) ];
     CSPSolver.enc_time_slots :=
       map (fun hour =>
              {| CSPSolver.slot_id := "slot_0_" +:+ str_int hour;
                 CSPSolver.slot_day_of_week := 0;
                 CSPSolver.slot_hour := hour;
                 CSPSolver.slot_day_name := "Monday";
                 CSPSolver.slot_time_display := fmt02d hour +:+ ":00" |})
           (range 9 12) |}.

(** An assignment that puts the session of index [i] in slot [i]. *)
Definition small_assignment (session_key : string) : Z * Z * Z :=
  if String.eqb session_key "c1_session_1" then (0, 0, 1)
  else if String.eqb session_key "c2_session_0" then (0, 0, 2)
  else (0, 0, 0).

(** [d.get(k)] on an insertion-ordered dictionary. *)
Definition assoc_get {V : Type} (k : string) (d : list (string * V)) : option V :=
  match find (fun kv => String.eqb (fst kv) k) d with
  | Some kv => Some (snd kv)
  | None => None
  end.

(** [availability.get(str(day), [])]: the slots of a day in a normalized
    availability dictionary. *)
Definition slots_on (availability : list (string * list (Z * Z))) (day : Z)
  : list (Z * Z) :=
  default [] (assoc_get (str_int day) availability).

(** The last entry of a raw availability dictionary whose key is read as
    [day]. *)
Definition last_entry_for (day : Z)
  (availability : list (string * ConstraintEncoder.DayAvailability))
  : option (string * ConstraintEncoder.DayAvailability) :=
  find (fun kv => ConstraintEncoder._parse_day_key (fst kv) =? day) (rev availability).
(** * Proofs *)

(** ** Rendering of integers and the slot key *)

Section StrFacts.
Lemma occurs_uint (u : Decimal.uint) :
occurs "_"%char (NilEmpty.string_of_uint u) = false.
Proof. induction u; simpl; auto. Qed.

Lemma occurs_str_int (z : Z) : occurs "_"%char (str_int z) = false.
Proof.
unfold str_int, NilZero.string_of_int, NilZero.string_of_uint.
destruct (Z.to_int z) as [u|u]; destruct u; simpl; auto using occurs_uint;
try apply (occurs_uint (Decimal.D0 _)); rewrite ?occurs_uint; auto.
Qed.

Lemma str_int_inj (z1 z2 : Z) : str_int z1 = str_int z2 -> z1 = z2.
Proof.
unfold str_int. intros H.
assert (Hn : forall z, Z.to_int z <> Decimal.Pos Decimal.Nil /\ Z.to_int z <> Decimal.Neg Decimal.Nil).
{ intros [|p|p]; simpl; split; try discriminate;
    intros E; injection E; apply Unsigned.to_uint_nonnil. }
assert (E : Some (Z.to_int z1) = Some (Z.to_int z2)).
{ rewrite <- (NilZero.isi (Z.to_int z1)) by apply Hn.
  rewrite <- (NilZero.isi (Z.to_int z2)) by apply Hn.
  now rewrite H. }
injection E as E.
rewrite <- (DecimalZ.of_to z1), <- (DecimalZ.of_to z2). now rewrite E.
Qed.

Lemma append_sep_inj (c : ascii) (a a' b b' : string) :
occurs c a = false -> occurs c a' = false ->
a +:+ String c b = a' +:+ String c b' -> a = a' /\ b = b'.
Proof.
revert a'. induction a as [|x a IH]; intros [|x' a'] Ha Ha' E; simpl in *.
- injection E as E. auto.
- injection E as E1 E2. subst x'. rewrite Ascii.eqb_refl in Ha'. discriminate.
- injection E as E1 E2. subst x. rewrite Ascii.eqb_refl in Ha. discriminate.
- injection E as E1 E2. subst x'.
  apply orb_false_iff in Ha as [_ Ha]. apply orb_false_iff in Ha' as [_ Ha'].
  destruct (IH a' Ha Ha' E2) as [-> ->]. auto.
Qed.
Import CSPSolver ScheduledSessionModel.

Lemma time_key_inj (s1 s2 : Session) :
time_key s1 = time_key s2 ->
day_of_week s1 = day_of_week s2 /\ start_hour s1 = start_hour s2.
Proof.
unfold time_key. intros E.
apply (append_sep_inj "_"%char) in E; try apply occurs_str_int.
destruct E as [E1 E2]. split; now apply str_int_inj.
Qed.
End StrFacts.

(** ** The validator's scan for double bookings *)

Section HardLoop.
Import CSPSolver ScheduledSessionModel.

Lemma booked_ensure who b x : booked (ensure_key who b) x = booked b x.
Proof.
  unfold booked, ensure_key. destruct (b !! who) eqn:E; [done|].
  destruct (decide (who = x)) as [->|Hne].
  - by rewrite lookup_insert_eq, E.
  - by rewrite lookup_insert_ne.
Qed.

Lemma booked_insert who S b x :
  booked (<[who := S]> b) x = if decide (who = x) then S else booked b x.
Proof.
  unfold booked. destruct (decide (who = x)) as [->|Hne].
  - by rewrite lookup_insert_eq.
  - by rewrite lookup_insert_ne.
Qed.

Lemma hard_inv_init : hard_inv [] hard_init.
Proof.
  split; simpl.
  - intros v k. unfold booked. rewrite lookup_empty. simpl. set_solver.
  - intros v k. unfold booked. rewrite lookup_empty. simpl. set_solver.
  - reflexivity.
  - reflexivity.
  - reflexivity.
  - split; [intros _; split; constructor | done].
Qed.

Lemma NoDup_snoc {A} (l : list A) (x : A) :
  NoDup (l ++ [x]) <-> NoDup l /\ ~ In x l.
Proof.
  rewrite NoDup_app. split.
  - intros (H1 & H2 & _). split; [done|]. intros Hin.
    apply (H2 x); [by apply list_elem_of_In | set_solver].
  - intros [H1 H2]. split; [done|]. split; [|apply NoDup_singleton].
    intros y Hy Hy'. apply list_elem_of_singleton in Hy'. subst.
    apply H2. by apply list_elem_of_In.
Qed.

Lemma book_spec (b : gmap string (gset string)) who key (P : list (string * string)) :
  (forall v k, k ∈ booked b v <-> In (v, k) P) ->
  (key ∈ default ∅ (ensure_key who b !! who) <-> In (who, key) P)
  /\ (forall v k, k ∈ booked (ensure_key who b) v <-> In (v, k) P)
  /\ (forall v k,
        k ∈ booked (<[who := {[key]} ∪ default ∅ (ensure_key who b !! who)]>
                      (ensure_key who b)) v
        <-> In (v, k) (P ++ [(who, key)])).
Proof.
  intros Hb.
  assert (He : forall v k, k ∈ booked (ensure_key who b) v <-> In (v, k) P).
  { intros v k. rewrite booked_ensure. apply Hb. }
  split; [apply (He who key)|]. split; [exact He|].
  intros v k. rewrite booked_insert, in_app_iff. simpl.
  destruct (decide (who = v)) as [<-|Hne].
  - rewrite elem_of_union, elem_of_singleton.
    change (default ∅ (ensure_key who b !! who)) with (booked (ensure_key who b) who).
    rewrite He. split.
    + intros [->|H]; auto.
    + intros [H|[H|[]]]; auto. injection H as ->. auto.
  - rewrite He. split; [auto|]. intros [H|[H|[]]]; auto. congruence.
Qed.

Lemma hard_inv_step pre st s :
  hard_inv pre st -> hard_inv (pre ++ [s]) (hard_step st s).
Proof.
  intros [Hv Hl Ht Hp Hn Hc].
  destruct (book_spec _ (venue_id s) (time_key s) _ Hv) as (Hv1 & Hv2 & Hv3).
  destruct (book_spec _ (lecturer_id s) (time_key s) _ Hl) as (Hl1 & Hl2 & Hl3).
  unfold hard_step. cbv zeta.
  destruct (bool_decide (time_key s ∈ default ∅ (ensure_key (venue_id s) (venue_bookings st) !! venue_id s))) eqn:Ev;
    [apply bool_decide_eq_true in Ev | apply bool_decide_eq_false in Ev];
    rewrite Hv1 in Ev;
    cbn [venue_bookings lecturer_bookings violations total_checks passed_checks];
    (destruct (bool_decide (time_key s ∈ default ∅ (ensure_key (lecturer_id s) (lecturer_bookings st) !! lecturer_id s))) eqn:El;
      [apply bool_decide_eq_true in El | apply bool_decide_eq_false in El]);
    rewrite Hl1 in El.
  all: constructor; cbn [venue_bookings lecturer_bookings violations total_checks passed_checks];
    rewrite ?map_app, ?length_app; simpl map; simpl length;
    rewrite ?NoDup_snoc; fold (venue_slot s) (lecturer_slot s);
    try lia.
  all: try (intros v k; rewrite ?Hv2, ?Hl2, ?Hv3, ?Hl3, ?in_app_iff; simpl;
            unfold venue_slot, lecturer_slot in *;
            intuition (try congruence);
            match goal with
            | H : (_, _) = (_, _) |- _ => injection H as <- <-; assumption
            end).
  all: unfold venue_slot, lecturer_slot in *.
  all: split;
    [ intros H; try (exfalso; repeat (apply app_eq_nil in H as [H ?]); discriminate)
    | intros [[? ?] [? ?]]; try contradiction ].
  - apply Hc in H. tauto.
  - apply Hc. tauto.
Qed.

Lemma hard_loop_inv_gen sessions pre st :
  hard_inv pre st -> hard_inv (pre ++ sessions) (fold_left hard_step sessions st).
Proof.
  revert pre st. induction sessions as [|s rest IH]; intros pre st H; simpl.
  - by rewrite app_nil_r.
  - replace (pre ++ s :: rest) with ((pre ++ [s]) ++ rest) by (by rewrite <- app_assoc).
    apply IH. by apply hard_inv_step.
Qed.

Lemma hard_loop_inv sessions : hard_inv sessions (hard_loop sessions).
Proof. apply (hard_loop_inv_gen sessions [] hard_init), hard_inv_init. Qed.
End HardLoop.

Section ValidatorFacts.
Import CSPSolver ScheduledSessionModel Invariants.

Lemma hard_step_violation_types st s :
  Forall is_double_booking (violations st) ->
  Forall is_double_booking (violations (hard_step st s)).
Proof.
  intros H. unfold hard_step. cbv zeta.
  repeat (match goal with |- context [bool_decide ?P] => destruct (bool_decide P) end;
          cbn [venue_bookings lecturer_bookings violations total_checks passed_checks]);
    rewrite ?Forall_app; repeat split; auto;
    (constructor; [ (left; reflexivity) || (right; reflexivity) | constructor ]).
Qed.

Lemma hard_loop_violation_types sessions :
  Forall is_double_booking (violations (hard_loop sessions)).
Proof.
  unfold hard_loop.
  assert (G : forall st, Forall is_double_booking (violations st) ->
              Forall is_double_booking (violations (fold_left hard_step sessions st))).
  { induction sessions as [|s rest IH]; intros st H; simpl; auto.
    apply IH, hard_step_violation_types, H. }
  apply G. constructor.
Qed.

Lemma NoDup_map_equiv {A B C} (f : A -> B) (g : A -> C) (l : list A) :
  (forall a b, f a = f b <-> g a = g b) ->
  NoDup (map f l) <-> NoDup (map g l).
Proof.
  intros Hfg. induction l as [|x l IH]; simpl.
  - split; constructor.
  - rewrite !NoDup_cons, IH, !list_elem_of_In, !in_map_iff.
    assert (E : (exists y, f y = f x /\ In y l) <-> (exists y, g y = g x /\ In y l)).
    { split; intros (y & Hy & Hin); exists y; split; auto; by apply Hfg. }
    tauto.
Qed.

Lemma venue_slot_booking a b :
  venue_slot a = venue_slot b <-> venue_booking a = venue_booking b.
Proof.
  unfold venue_slot, venue_booking. split; intros H.
  - injection H as Hv Hk. apply time_key_inj in Hk as [-> ->]. by rewrite Hv.
  - injection H as Hv Hd Hh. unfold time_key. by rewrite Hv, Hd, Hh.
Qed.

Lemma lecturer_slot_booking a b :
  lecturer_slot a = lecturer_slot b <-> lecturer_booking a = lecturer_booking b.
Proof.
  unfold lecturer_slot, lecturer_booking. split; intros H.
  - injection H as Hv Hk. apply time_key_inj in Hk as [-> ->]. by rewrite Hv.
  - injection H as Hv Hd Hh. unfold time_key. by rewrite Hv, Hd, Hh.
Qed.

Lemma violations_nil_iff sessions :
  violations (hard_loop sessions) = []
  <-> NoDup (map venue_booking sessions) /\ NoDup (map lecturer_booking sessions).
Proof.
  rewrite (inv_clean _ _ (hard_loop_inv sessions)).
  rewrite (NoDup_map_equiv venue_slot venue_booking) by apply venue_slot_booking.
  by rewrite (NoDup_map_equiv lecturer_slot lecturer_booking)
    by apply lecturer_slot_booking.
Qed.

(** The hard score is below one exactly when a violation was recorded. *)
Lemma hard_score_lt_1 sessions :
  Qle_bool 1 (hard_score_of (hard_loop sessions))
  = match violations (hard_loop sessions) with [] => true | _ => false end.
Proof.
  pose proof (hard_loop_inv sessions) as [_ _ Ht Hp Hn _].
  unfold hard_score_of.
  destruct (0 <? total_checks (hard_loop sessions)) eqn:E.
  - apply Z.ltb_lt in E.
    assert (Ht0 : (0 < inject_Z (total_checks (hard_loop sessions)))%Q).
    { rewrite (Zlt_Qlt 0) in E. exact E. }
    destruct (violations (hard_loop sessions)) as [|c cs]; simpl length in Hp.
    + apply Qle_bool_iff. apply Qle_shift_div_l; [exact Ht0|].
      rewrite Qmult_1_l. rewrite <- Zle_Qle. lia.
    + apply not_true_is_false. intros H. apply Qle_bool_iff in H.
      apply (Qmult_le_r _ _ _ Ht0) in H.
      rewrite Qmult_1_l in H.
      unfold Qdiv in H. rewrite <- Qmult_assoc, (Qmult_comm (/ _)), Qmult_inv_r, Qmult_1_r in H.
      * rewrite <- Zle_Qle in H. lia.
      * intros Hz. rewrite Hz in Ht0. by apply Qlt_irrefl in Ht0.
  - apply Z.ltb_ge in E.
    destruct (violations (hard_loop sessions)) as [|c cs]; simpl length in Hp; [done|lia].
Qed.

Lemma validate_conflicts solution :
  ValidationResult.conflicts (validate_solution solution)
  = violations (hard_loop (SolutionModel.sessions solution))
  /\ ValidationResult.constraint_violations (validate_solution solution)
     = violations (hard_loop (SolutionModel.sessions solution)).
Proof.
  unfold validate_solution, _validate_hard_constraints.
  cbn [ValidationResult.conflicts ValidationResult.constraint_violations].
  rewrite hard_score_lt_1.
  destruct (violations (hard_loop (SolutionModel.sessions solution))); auto.
Qed.
End ValidatorFacts.

(** ** The schedule validator: claims C1, C2 and C3 *)

Section ValidatorTheorems.
Import CSPSolver ScheduledSessionModel Invariants.

(** C1, as amended.  For a solution whose session list is empty,
    [validate_solution] returns an empty conflicts list and
    [is_valid = true]; its score is [0.75] when the solution is flagged
    feasible (hard score 1, lecturer satisfaction 1 and student convenience
    1 are counted, venue utilization and efficiency are 0) and [0.4]
    otherwise (only the hard score is counted).  It is never 0. *)
Theorem validate_empty_schedule (solution : SolutionModel.t) :
  SolutionModel.sessions solution = [] ->
  ValidationResult.conflicts (validate_solution solution) = []
  /\ ValidationResult.is_valid (validate_solution solution) = true
  /\ (ValidationResult.score (validate_solution solution)
      == if SolutionModel.is_feasible solution then 3#4 else 4#10)%Q.
Proof.
  destruct solution as [sessions score feasible conflicts metadata].
  simpl. intros ->. destruct feasible; vm_compute; auto.
Qed.

(** The theorem applied to the empty schedule that is not flagged
    feasible. *)
Lemma validate_empty_schedule_witness :
  ValidationResult.conflicts (validate_solution (schedule_of [] false)) = []
  /\ ValidationResult.is_valid (validate_solution (schedule_of [] false)) = true
  /\ (ValidationResult.score (validate_solution (schedule_of [] false)) == 4#10)%Q.
Proof. apply (validate_empty_schedule (schedule_of [] false)). reflexivity. Defined.

(** C1 as stated fails: the score of the empty schedule is not 0, whether
    the schedule is flagged feasible or not. *)
Lemma empty_schedule_score_not_zero :
  ~ (ValidationResult.score (validate_solution (schedule_of [] true)) == 0)%Q
  /\ ~ (ValidationResult.score (validate_solution (schedule_of [] false)) == 0)%Q.
Proof. split; vm_compute; discriminate. Qed.

(** C2, as amended.  [validate_solution] reads the schedule only: it
    declares it valid exactly when no two sessions share a venue at one
    (day, hour) and no two sessions share a lecturer at one (day, hour);
    its conflicts are its constraint violations, and each of them is a
    [venue_double_booking] or a [lecturer_double_booking] record.  Group
    overlap, capacity, equipment and availability are not examined. *)
Theorem validate_checks_double_booking_only (solution : SolutionModel.t) :
  (ValidationResult.is_valid (validate_solution solution) = true
   <-> NoDup (map venue_booking (SolutionModel.sessions solution))
       /\ NoDup (map lecturer_booking (SolutionModel.sessions solution)))
  /\ ValidationResult.conflicts (validate_solution solution)
     = ValidationResult.constraint_violations (validate_solution solution)
  /\ Forall is_double_booking
       (ValidationResult.conflicts (validate_solution solution)).
Proof.
  destruct (validate_conflicts solution) as [Hc Hv].
  split; [|split].
  - rewrite <- violations_nil_iff, <- Hc.
    unfold validate_solution, _validate_hard_constraints.
    cbn [ValidationResult.is_valid ValidationResult.conflicts].
    match goal with |- context [length ?l] => destruct l end; simpl; split; done.
  - by rewrite Hc, Hv.
  - rewrite Hc. apply hard_loop_violation_types.
Qed.

(** C2 as stated fails: a schedule in which one student group attends two
    sessions at once, in a venue too small for it and without the required
    equipment, taught by a lecturer who is not available, is declared valid
    with no conflict. *)
Lemma validator_accepts_rule_violations :
  ValidationResult.is_valid
    (validate_solution (schedule_of [crowded_a; crowded_b] true)) = true
  /\ ValidationResult.conflicts
       (validate_solution (schedule_of [crowded_a; crowded_b] true)) = []
  /\ group_clash crowded_a crowded_b = true
  /\ capacity_ok crowded_entities crowded_a = false
  /\ equipment_ok crowded_entities crowded_a = false
  /\ availability_ok crowded_entities crowded_a = false.
Proof. vm_compute. repeat split. Qed.

End ValidatorTheorems.

(** ** Stable insertion sort *)

Section SortFacts.
Context {A : Type} (leb : A -> A -> bool).

Lemma insert_by_perm x l : Permutation (insert_by leb x l) (x :: l).
Proof.
  induction l as [|y l IH]; simpl; [done|].
  destruct (leb x y); [done|].
  rewrite IH. apply perm_swap.
Qed.

Lemma sorted_by_perm l : Permutation (sorted_by leb l) l.
Proof.
  induction l as [|x l IH]; simpl; [done|].
  unfold sorted_by in *. simpl. rewrite insert_by_perm. by constructor.
Qed.

Lemma sorted_by_In x l : In x (sorted_by leb l) <-> In x l.
Proof.
  split; apply Permutation_in; [|symmetry]; apply sorted_by_perm.
Qed.

Lemma sorted_by_length l : length (sorted_by leb l) = length l.
Proof. apply Permutation_length, sorted_by_perm. Qed.

Hypothesis leb_total : forall x y, leb x y = false -> leb y x = true.
Hypothesis leb_trans : forall x y z, leb x y = true -> leb y z = true -> leb x z = true.

Lemma insert_by_sorted x l :
  StronglySorted (fun a b => leb a b = true) l ->
  StronglySorted (fun a b => leb a b = true) (insert_by leb x l).
Proof.
  induction 1 as [|y l Hs IH Hall]; simpl.
  - constructor; constructor.
  - destruct (leb x y) eqn:E.
    + constructor; [by constructor|].
      constructor; [done|].
      eapply Forall_impl; [exact Hall|]. intros z Hz. by eapply leb_trans.
    + constructor; [done|].
      apply (Forall_forall (fun b => leb y b = true)). intros z Hz.
      apply list_elem_of_In, (Permutation_in _ (insert_by_perm x l)) in Hz.
      destruct Hz as [<-|Hz]; [by apply leb_total|].
      rewrite Forall_forall in Hall. by apply Hall, list_elem_of_In.
Qed.

Lemma sorted_by_sorted l :
  StronglySorted (fun a b => leb a b = true) (sorted_by leb l).
Proof.
  induction l as [|x l IH]; simpl; [constructor|].
  by apply insert_by_sorted.
Qed.
End SortFacts.

Lemma StronglySorted_nth {A} (R : A -> A -> Prop) (l : list A) :
  StronglySorted R l ->
  forall i j a b, (i < j)%nat -> nth_error l i = Some a -> nth_error l j = Some b -> R a b.
Proof.
  induction 1 as [|x l Hs IH Hall]; intros i j a b Hij Ha Hb.
  - destruct i; discriminate.
  - destruct j as [|j]; [lia|]. simpl in Hb.
    destruct i as [|i]; simpl in Ha.
    + injection Ha as <-. rewrite Forall_forall in Hall.
      apply Hall, list_elem_of_In. eapply nth_error_In; eauto.
    + apply (IH i j); auto. lia.
Qed.

Lemma StronglySorted_weaken {A} (R S : A -> A -> Prop) (l : list A) :
  (forall a b, R a b -> S a b) -> StronglySorted R l -> StronglySorted S l.
Proof.
  intros HRS. induction 1 as [|x l Hs IH Hall]; constructor; auto.
  eapply Forall_impl; [exact Hall|]. intros y. apply HRS.
Qed.

(** ** Ranking of suggestions: claim C6 *)

Section RankingFacts.
Import ConflictAnalyzer.

Lemma Qle_bool_false (a b : Q) : Qle_bool a b = false <-> (b < a)%Q.
Proof.
  split.
  - intros H. apply Qnot_le_lt. intros Hle. apply Qle_bool_iff in Hle. congruence.
  - intros H. apply not_true_is_false. intros Hle. apply Qle_bool_iff in Hle.
    by apply Qlt_not_le in H.
Qed.

Lemma rank_leb_iff s1 s2 :
  rank_leb s1 s2 = true
  <-> (ResolutionSuggestion.score s2 < ResolutionSuggestion.score s1)%Q
      \/ ((ResolutionSuggestion.score s1 == ResolutionSuggestion.score s2)%Q
          /\ effort_order (ResolutionSuggestion.effort_level s1)
             <= effort_order (ResolutionSuggestion.effort_level s2)).
Proof.
  unfold rank_leb. cbv zeta.
  rewrite orb_true_iff, andb_true_iff, negb_true_iff, Qle_bool_false,
    Qeq_bool_iff, Z.leb_le.
  split; (intros [H|[H1 H2]]; [left|right; split]); try lra; auto.
Qed.

Lemma rank_leb_total s1 s2 : rank_leb s1 s2 = false -> rank_leb s2 s1 = true.
Proof.
  intros H. apply rank_leb_iff.
  destruct (Qlt_le_dec (ResolutionSuggestion.score s1) (ResolutionSuggestion.score s2))
    as [Hlt|Hle]; [by left|].
  destruct (Qlt_le_dec (ResolutionSuggestion.score s2) (ResolutionSuggestion.score s1))
    as [Hlt'|Hle'].
  - assert (rank_leb s1 s2 = true) by (apply rank_leb_iff; by left). congruence.
  - right. split; [lra|].
    destruct (Z_le_gt_dec (effort_order (ResolutionSuggestion.effort_level s1))
                (effort_order (ResolutionSuggestion.effort_level s2))) as [Hz|Hz]; [|lia].
    assert (rank_leb s1 s2 = true) by (apply rank_leb_iff; right; split; [lra|lia]).
    congruence.
Qed.

Lemma rank_leb_trans s1 s2 s3 :
  rank_leb s1 s2 = true -> rank_leb s2 s3 = true -> rank_leb s1 s3 = true.
Proof.
  rewrite !rank_leb_iff.
  intros [H1|[H1 H1']] [H2|[H2 H2']]; [left|left|left|right; split]; try lra; lia.
Qed.

Lemma slice_to_nonneg {A} (l : list A) (n : Z) :
  0 <= n -> slice_to l n = firstn (Z.to_nat n) l.
Proof.
  intros H. unfold slice_to. destruct (Z.ltb_spec n 0); [lia|done].
Qed.

(** C6.  [_rank_suggestions] permutes its input so that scores descend and,
    among equal scores, the effort rank (low, then medium, then high)
    ascends: of two suggestions with equal score, the one with the lower
    effort stands earlier.  For a non-negative [max_suggestions],
    [generate_resolution_suggestions] returns the first [max_suggestions]
    of the ranked suggestions, so at most that many. *)
Theorem ranking_and_top_suggestions
  (g_venue g_lecturer g_group g_capacity g_equipment g_availability g_generic :
     list Conflict.t -> SolutionModel.t -> Entities.t -> list ResolutionSuggestion.t)
  (suggestions : list ResolutionSuggestion.t)
  (conflicts : list Conflict.t) (solution : SolutionModel.t)
  (entities : Entities.t) (max_suggestions : Z) :
  0 <= max_suggestions ->
  Permutation (_rank_suggestions suggestions conflicts solution) suggestions
  /\ (forall i j a b,
        (i < j)%nat ->
        nth_error (_rank_suggestions suggestions conflicts solution) i = Some a ->
        nth_error (_rank_suggestions suggestions conflicts solution) j = Some b ->
        (ResolutionSuggestion.score b <= ResolutionSuggestion.score a)%Q
        /\ ((ResolutionSuggestion.score a == ResolutionSuggestion.score b)%Q ->
            effort_order (ResolutionSuggestion.effort_level a)
            <= effort_order (ResolutionSuggestion.effort_level b)))
  /\ (forall i j a b,
        nth_error (_rank_suggestions suggestions conflicts solution) i = Some a ->
        nth_error (_rank_suggestions suggestions conflicts solution) j = Some b ->
        (ResolutionSuggestion.score a == ResolutionSuggestion.score b)%Q ->
        effort_order (ResolutionSuggestion.effort_level a)
        < effort_order (ResolutionSuggestion.effort_level b) ->
        (i < j)%nat)
  /\ effort_order "low" < effort_order "medium" < effort_order "high"
  /\ generate_resolution_suggestions g_venue g_lecturer g_group g_capacity
       g_equipment g_availability g_generic conflicts solution entities
       max_suggestions
     = firstn (Z.to_nat max_suggestions)
         (_rank_suggestions
            (all_suggestions g_venue g_lecturer g_group g_capacity g_equipment
               g_availability g_generic conflicts solution entities)
            conflicts solution)
  /\ Z.of_nat (length (generate_resolution_suggestions g_venue g_lecturer g_group
                         g_capacity g_equipment g_availability g_generic
                         conflicts solution entities max_suggestions))
     <= max_suggestions.
Proof.
  intros Hmax.
  assert (Hsorted : forall i j a b, (i < j)%nat ->
            nth_error (_rank_suggestions suggestions conflicts solution) i = Some a ->
            nth_error (_rank_suggestions suggestions conflicts solution) j = Some b ->
            rank_leb a b = true).
  { intros i j a b. apply (StronglySorted_nth (fun a b => rank_leb a b = true)).
    apply sorted_by_sorted; [apply rank_leb_total | apply rank_leb_trans]. }
  split; [apply sorted_by_perm|].
  split.
  { intros i j a b Hij Ha Hb.
    pose proof (Hsorted i j a b Hij Ha Hb) as H. apply rank_leb_iff in H.
    destruct H as [H|[H1 H2]]; split; try lra; auto. }
  split.
  { intros i j a b Ha Hb Heq Hlt.
    destruct (Nat.lt_trichotomy i j) as [H|[H|H]]; [done| |].
    - subst j. rewrite Ha in Hb. injection Hb as <-. lia.
    - pose proof (Hsorted j i b a H Hb Ha) as H'. apply rank_leb_iff in H'.
      destruct H' as [H'|[H1 H2]]; [lra|lia]. }
  split; [by vm_compute|].
  unfold generate_resolution_suggestions. cbv zeta.
  rewrite slice_to_nonneg by done.
  split; [done|].
  rewrite length_firstn. lia.
Qed.

(** The theorem applied to three sample suggestions and the default
    [max_suggestions = 5]. *)
Lemma ranking_and_top_suggestions_witness :
  Permutation (_rank_suggestions sample_suggestions [sample_conflict]
                 (schedule_of [crowded_a; crowded_b] true))
    sample_suggestions
  /\ (forall i j a b,
        (i < j)%nat ->
        nth_error (_rank_suggestions sample_suggestions [sample_conflict]
                     (schedule_of [crowded_a; crowded_b] true)) i = Some a ->
        nth_error (_rank_suggestions sample_suggestions [sample_conflict]
                     (schedule_of [crowded_a; crowded_b] true)) j = Some b ->
        (ResolutionSuggestion.score b <= ResolutionSuggestion.score a)%Q
        /\ ((ResolutionSuggestion.score a == ResolutionSuggestion.score b)%Q ->
            effort_order (ResolutionSuggestion.effort_level a)
            <= effort_order (ResolutionSuggestion.effort_level b)))
  /\ (forall i j a b,
        nth_error (_rank_suggestions sample_suggestions [sample_conflict]
                     (schedule_of [crowded_a; crowded_b] true)) i = Some a ->
        nth_error (_rank_suggestions sample_suggestions [sample_conflict]
                     (schedule_of [crowded_a; crowded_b] true)) j = Some b ->
        (ResolutionSuggestion.score a == ResolutionSuggestion.score b)%Q ->
        effort_order (ResolutionSuggestion.effort_level a)
        < effort_order (ResolutionSuggestion.effort_level b) ->
        (i < j)%nat)
  /\ effort_order "low" < effort_order "medium" < effort_order "high"
  /\ generate_resolution_suggestions sample_generator sample_generator
       sample_generator sample_generator sample_generator sample_generator
       sample_generator [sample_conflict]
       (schedule_of [crowded_a; crowded_b] true) crowded_entities
       default_max_suggestions
     = firstn (Z.to_nat default_max_suggestions)
         (_rank_suggestions
            (all_suggestions sample_generator sample_generator sample_generator
               sample_generator sample_generator sample_generator
               sample_generator [sample_conflict]
               (schedule_of [crowded_a; crowded_b] true) crowded_entities)
            [sample_conflict] (schedule_of [crowded_a; crowded_b] true))
  /\ Z.of_nat (length (generate_resolution_suggestions sample_generator
                         sample_generator sample_generator sample_generator
                         sample_generator sample_generator sample_generator
                         [sample_conflict]
                         (schedule_of [crowded_a; crowded_b] true)
                         crowded_entities default_max_suggestions))
     <= default_max_suggestions.
Proof.
  apply (ranking_and_top_suggestions sample_generator sample_generator
           sample_generator sample_generator sample_generator sample_generator
           sample_generator sample_suggestions [sample_conflict]
           (schedule_of [crowded_a; crowded_b] true) crowded_entities
           default_max_suggestions).
  vm_compute. discriminate.
Defined.
End RankingFacts.

(** ** Dictionaries built by repeated update *)

Section UpsertFacts.
Context {V : Type} (m : V -> Z).

Lemma upsert_keys k (f : option V -> V) d :
  forall k', In k' (map fst (upsert k f d)) <-> k' = k \/ In k' (map fst d).
Proof.
  induction d as [|[k0 v0] d IH]; intros k'; simpl.
  - intuition.
  - destruct (String.eqb_spec k0 k) as [->|Hne]; simpl; [intuition|].
    rewrite IH. intuition.
Qed.

Lemma upsert_NoDup k (f : option V -> V) d :
  NoDup (map fst d) -> NoDup (map fst (upsert k f d)).
Proof.
  induction d as [|[k0 v0] d IH]; simpl; intros H.
  - constructor; [set_solver|constructor].
  - apply NoDup_cons in H as [Hnin H].
    destruct (String.eqb_spec k0 k) as [->|Hne]; simpl.
    + by apply NoDup_cons.
    + apply NoDup_cons. split; [|by apply IH].
      rewrite list_elem_of_In, upsert_keys. rewrite list_elem_of_In in Hnin.
      intros [E|E]; [congruence|done].
Qed.

Lemma upsert_In k (f : option V -> V) d k' v' :
  NoDup (map fst d) ->
  In (k', v') (upsert k f d)
  <-> (k' <> k /\ In (k', v') d)
      \/ (k' = k /\ ((exists v, In (k, v) d /\ v' = f (Some v))
                     \/ ((forall v, ~ In (k, v) d) /\ v' = f None))).
Proof.
  induction d as [|[k0 v0] d IH]; simpl; intros Hnd.
  - split.
    + intros [E|[]]. injection E as <- <-. right. split; [done|]. right. auto.
    + intros [[_ []]|[-> [(v & [] & _)|[_ ->]]]]. by left.
  - apply NoDup_cons in Hnd as [Hnin Hnd]. rewrite list_elem_of_In in Hnin.
    destruct (String.eqb_spec k0 k) as [->|Hne]; simpl.
    + split.
      * intros [E|Hin].
        -- injection E as <- <-. right. split; [done|]. left. exists v0. auto.
        -- left. split; [|by right]. intros ->. apply Hnin.
           apply in_map_iff. by exists (k, v').
      * intros [[Hne [E|Hin]]|[-> [(v & [E|Hin] & ->)|[Hno ->]]]].
        -- injection E as <- <-. done.
        -- by right.
        -- injection E as <-. by left.
        -- exfalso. apply Hnin. apply in_map_iff. by exists (k, v).
        -- exfalso. apply (Hno v0). by left.
    + rewrite (IH Hnd). split.
      * intros [E|[[Hne' Hin]|[-> [(v & Hin & ->)|[Hno ->]]]]].
        -- injection E as <- <-. left. split; [done|by left].
        -- left. split; [done|by right].
        -- right. split; [done|]. left. exists v. split; [by right|done].
        -- right. split; [done|]. right. split; [|done].
           intros v [E|Hin]; [congruence|by apply (Hno v)].
      * intros [[Hne' [E|Hin]]|[-> [(v & [E|Hin] & ->)|[Hno ->]]]].
        -- by left.
        -- right. left. auto.
        -- congruence.
        -- right. right. split; [done|]. left. by exists v.
        -- right. right. split; [done|]. right. split; [|done].
           intros v Hin. apply (Hno v). by right.
Qed.

Lemma count_occ_snoc (P : list string) (k k' : string) :
  count_occ String.string_dec (P ++ [k]) k'
  = (count_occ String.string_dec P k' + if String.eqb k k' then 1 else 0)%nat.
Proof.
  rewrite count_occ_app. simpl.
  destruct (String.string_dec k k') as [->|Hne].
  - by rewrite String.eqb_refl.
  - apply String.eqb_neq in Hne. by rewrite Hne.
Qed.

Lemma measured_nil : measured m [] [].
Proof.
  split; [constructor|]. intros k n. simpl. split.
  - intros (v & [] & _).
  - intros [-> H]. lia.
Qed.

Lemma measured_upsert k (f : option V -> V) d P :
  m (f None) = 1 -> (forall v, m (f (Some v)) = m v + 1) ->
  measured m d P -> measured m (upsert k f d) (P ++ [k]).
Proof.
  intros Hnone Hsome [Hnd Hd]. split; [by apply upsert_NoDup|].
  intros k' n. rewrite count_occ_snoc.
  destruct (String.eqb_spec k k') as [<-|Hne].
  - split.
    + intros (v' & Hin & <-). apply (upsert_In _ _ _ _ _ Hnd) in Hin.
      destruct Hin as [[Hne _]|[_ [(v & Hin & ->)|[Hno ->]]]]; [done| |].
      * rewrite Hsome. destruct (proj1 (Hd k (m v))) as [E Hpos]; [by exists v|]. lia.
      * rewrite Hnone.
        destruct (count_occ String.string_dec P k) as [|c] eqn:Ec; [lia|].
        destruct (proj2 (Hd k (Z.of_nat (S c)))) as (v & Hin & _); [lia|].
        by destruct (Hno v).
    + intros [-> _].
      destruct (count_occ String.string_dec P k) as [|c] eqn:Ec.
      * exists (f None). split; [|rewrite Hnone; lia].
        apply (upsert_In _ _ _ _ _ Hnd). right. split; [done|]. right. split; [|done].
        intros v Hin. destruct (proj1 (Hd k (m v))) as [E Hpos]; [by exists v|]. lia.
      * destruct (proj2 (Hd k (Z.of_nat (S c)))) as (v & Hin & Hv); [lia|].
        exists (f (Some v)). split; [|rewrite Hsome; lia].
        apply (upsert_In _ _ _ _ _ Hnd). right. split; [done|]. left. by exists v.
  - rewrite Nat.add_0_r, <- Hd. split.
    + intros (v & Hin & <-). apply (upsert_In _ _ _ _ _ Hnd) in Hin.
      destruct Hin as [[_ Hin]|[-> _]]; [by exists v|done].
    + intros (v & Hin & <-). exists v. split; [|done].
      apply (upsert_In _ _ _ _ _ Hnd). left. split; [congruence|done].
Qed.
End UpsertFacts.

(** ** Pattern mining: claim C7 *)

Section PatternFacts.
Import ConflictAnalyzer.

Lemma type_counts_measured conflicts :
  measured (fun n : Z => n) (type_counts conflicts) (map type_or_unknown conflicts).
Proof.
  unfold type_counts.
  assert (G : forall d P, measured (fun n : Z => n) d P ->
            measured (fun n : Z => n)
              (fold_left (fun d conflict => count_into d (type_or_unknown conflict))
                 conflicts d)
              (P ++ map type_or_unknown conflicts)).
  { induction conflicts as [|c cs IH]; intros d P H; simpl.
    - by rewrite app_nil_r.
    - replace (P ++ type_or_unknown c :: map type_or_unknown cs)
        with ((P ++ [type_or_unknown c]) ++ map type_or_unknown cs)
        by (by rewrite <- app_assoc).
      apply IH. unfold count_into. apply measured_upsert; auto; intros; lia. }
  apply (G [] []), measured_nil.
Qed.

Lemma entity_conflicts_measured conflicts :
  measured (fun l : list Conflict.t => Z.of_nat (length l))
    (entity_conflicts conflicts) (flat_map Conflict.affected_entities conflicts).
Proof.
  unfold entity_conflicts.
  set (M := measured (fun l : list Conflict.t => Z.of_nat (length l))).
  assert (Inner : forall c es d P, M d P ->
            M (fold_left (fun d entity => upsert entity (fun o => default [] o ++ [c]) d)
                 es d) (P ++ es)).
  { intros c. induction es as [|e es IH]; intros d P H; simpl.
    - by rewrite app_nil_r.
    - replace (P ++ e :: es) with ((P ++ [e]) ++ es) by (by rewrite <- app_assoc).
      apply IH. apply measured_upsert; auto.
      intros v. simpl. rewrite length_app. simpl. lia. }
  assert (G : forall d P, M d P ->
            M (fold_left
                 (fun d conflict =>
                    fold_left
                      (fun d entity =>
                         upsert entity (fun o => default [] o ++ [conflict]) d)
                      (Conflict.affected_entities conflict) d)
                 conflicts d)
              (P ++ flat_map Conflict.affected_entities conflicts)).
  { induction conflicts as [|c cs IH]; intros d P H; simpl.
    - by rewrite app_nil_r.
    - rewrite app_assoc. apply IH, Inner, H. }
  apply (G [] []), measured_nil.
Qed.

Lemma type_patterns_In conflicts p :
  In p (type_patterns conflicts)
  <-> exists kind,
        2 <= kind_count conflicts kind
        /\ p = ConflictPattern.make kind (kind_count conflicts kind)
                 (involved_entities kind conflicts).
Proof.
  destruct (type_counts_measured conflicts) as [_ Hm].
  unfold type_patterns. rewrite in_flat_map. split.
  - intros ([kind n] & Hin & Hp).
    destruct (proj1 (Hm kind n)) as [-> _]; [by exists n|].
    fold (kind_count conflicts kind) in *.
    destruct (Z.leb_spec 2 (kind_count conflicts kind)); [|done].
    destruct Hp as [<-|[]]. by exists kind.
  - intros (kind & Hge & ->).
    destruct (proj2 (Hm kind (kind_count conflicts kind))) as (v & Hin & ->);
      [split; [done|lia]|].
    exists (kind, kind_count conflicts kind). split; [done|].
    destruct (Z.leb_spec 2 (kind_count conflicts kind)); [by left|lia].
Qed.

Lemma entity_patterns_In conflicts p :
  In p (entity_patterns conflicts)
  <-> exists entity,
        3 <= entity_mentions conflicts entity
        /\ p = ConflictPattern.make ("entity_hotspot_" +:+ entity)
                 (entity_mentions conflicts entity) [entity].
Proof.
  destruct (entity_conflicts_measured conflicts) as [_ Hm].
  unfold entity_patterns. rewrite in_flat_map. split.
  - intros ([entity lst] & Hin & Hp).
    destruct (proj1 (Hm entity (Z.of_nat (length lst)))) as [E _]; [by exists lst|].
    fold (entity_mentions conflicts entity) in E. rewrite E in Hp.
    destruct (Z.leb_spec 3 (entity_mentions conflicts entity)); [|done].
    destruct Hp as [<-|[]]. by exists entity.
  - intros (entity & Hge & ->).
    destruct (proj2 (Hm entity (entity_mentions conflicts entity))) as (lst & Hin & E);
      [split; [done|lia]|].
    exists (entity, lst). split; [done|]. rewrite E.
    destruct (Z.leb_spec 3 (entity_mentions conflicts entity)); [by left|lia].
Qed.


Lemma severity_formula frequency entities :
  (ConflictPattern._calculate_severity frequency entities
   == Qmin 1 (inject_Z frequency / 10
              + inject_Z (Z.of_nat (length entities)) / 20))%Q.
Proof.
  unfold ConflictPattern._calculate_severity. cbv zeta.
  assert (He : (0 <= inject_Z (Z.of_nat (length entities)) / 20)%Q).
  { apply Qle_shift_div_l; [reflexivity|]. rewrite Qmult_0_l.
    rewrite <- (Zle_Qle 0). lia. }
  set (e := (inject_Z (Z.of_nat (length entities)) / 20)%Q) in *.
  set (f := (inject_Z frequency / 10)%Q).
  pose proof (Q.min_spec f 1) as S1. set (a := Qmin f 1) in *.
  pose proof (Q.min_spec (a + e) 1) as S2. set (b := Qmin (a + e) 1) in *.
  pose proof (Q.min_spec 1 (f + e)) as S3. set (c := Qmin 1 (f + e)) in *.
  destruct S1 as [[? ?]|[? ?]], S2 as [[? ?]|[? ?]], S3 as [[? ?]|[? ?]]; lra.
Qed.

End PatternFacts.

(** ** Alternative venues: claim C8 *)

Section FinderFacts.
Import ConflictAnalyzer ScheduledSessionModel.

Lemma str_in_In x l : str_in x l = true <-> In x l.
Proof.
  unfold str_in. rewrite existsb_exists. split.
  - intros (y & Hy & E). apply String.eqb_eq in E. by subst.
  - intros H. exists x. split; [done|apply String.eqb_refl].
Qed.

Lemma venue_suitable_iff session required_capacity required_equipment venue :
  venue_suitable session required_capacity required_equipment venue = true
  <-> Venue.id venue <> venue_id session
      /\ required_capacity <= Venue.capacity venue
      /\ (forall eq, In eq required_equipment -> In eq (Venue.equipment venue)).
Proof.
  unfold venue_suitable.
  destruct (String.eqb_spec (Venue.id venue) (venue_id session)) as [E|E];
    [intuition congruence|].
  destruct (Z.ltb_spec (Venue.capacity venue) required_capacity) as [Hc|Hc];
    [intuition (try congruence; lia)|].
  destruct (forallb (fun eq => str_in eq (Venue.equipment venue)) required_equipment) eqn:F;
    simpl.
  - rewrite forallb_forall in F. split; [|done]. intros _. repeat split; auto.
    intros eq Hin. by apply str_in_In, F.
  - split; [done|]. intros (_ & _ & H). apply not_true_iff_false in F. destruct F.
    apply forallb_forall. intros eq Hin. by apply str_in_In, H.
Qed.

Lemma capacity_leb_total v1 v2 : capacity_leb v1 v2 = false -> capacity_leb v2 v1 = true.
Proof. unfold capacity_leb. rewrite Z.leb_gt, Z.leb_le. lia. Qed.

Lemma capacity_leb_trans v1 v2 v3 :
  capacity_leb v1 v2 = true -> capacity_leb v2 v3 = true -> capacity_leb v1 v3 = true.
Proof. unfold capacity_leb. rewrite !Z.leb_le. lia. Qed.

(** C8, as amended.  [_find_alternative_venues] returns exactly the venues
    other than the session's current venue whose capacity is at least the
    sum of the sizes of the attending groups and whose equipment contains
    every equipment tag required by the session's course, each as often as
    it is given, sorted by capacity ascending.  All of them are returned:
    the result is not cut to five. *)
Theorem find_alternative_venues_spec (session : Session) (venues : list Venue.t)
  (entities : Entities.t) :
  (forall venue,
      In venue (_find_alternative_venues session venues entities)
      <-> In venue venues
          /\ Venue.id venue <> venue_id session
          /\ required_capacity_of session entities <= Venue.capacity venue
          /\ (forall eq, In eq (required_equipment_of session entities) ->
                         In eq (Venue.equipment venue)))
  /\ Permutation (_find_alternative_venues session venues entities)
       (List.filter (venue_suitable session (required_capacity_of session entities)
                       (required_equipment_of session entities)) venues)
  /\ StronglySorted (fun v1 v2 => Venue.capacity v1 <= Venue.capacity v2)
       (_find_alternative_venues session venues entities).
Proof.
  unfold _find_alternative_venues. cbv zeta. split; [|split].
  - intros venue. rewrite sorted_by_In, filter_In, venue_suitable_iff. tauto.
  - apply sorted_by_perm.
  - eapply StronglySorted_weaken;
      [|apply sorted_by_sorted; [apply capacity_leb_total | apply capacity_leb_trans]].
    intros v1 v2. unfold capacity_leb. by rewrite Z.leb_le.
Qed.

(** C8 as stated fails: with six suitable halls the finder returns six
    venues. *)
Lemma alternative_venues_not_capped :
  length (_find_alternative_venues crowded_a six_halls crowded_entities) = 6%nat
  /\ ~ (length (_find_alternative_venues crowded_a six_halls crowded_entities) <= 5)%nat.
Proof. vm_compute. split; [done|lia]. Qed.
End FinderFacts.

(** ** Alternative time slots: claim C4 *)

Section TimesFacts.
Import ConflictAnalyzer ScheduledSessionModel.

Lemma In_range a b x : In x (range a b) <-> a <= x < b.
Proof.
  unfold range. rewrite in_map_iff. split.
  - intros (i & <- & Hi). apply in_seq in Hi. lia.
  - intros H. exists (Z.to_nat (x - a)). split; [lia|]. apply in_seq. lia.
Qed.

Lemma visited_slots_In day hour :
  In (day, hour) visited_slots <-> 0 <= day < 5 /\ 9 <= hour < 17.
Proof.
  unfold visited_slots, possible_days, possible_hours. rewrite in_flat_map. split.
  - intros (d & Hd & Hin). apply in_map_iff in Hin as (h & E & Hh).
    injection E as <- <-. by rewrite <- !In_range.
  - intros [Hd Hh]. exists day. rewrite In_range. split; [done|].
    apply in_map_iff. exists hour. by rewrite In_range.
Qed.

Lemma firstn_full {A} (l1 l2 : list A) n :
  length l1 = n -> firstn n (l1 ++ l2) = l1.
Proof.
  intros <-. rewrite firstn_app, Nat.sub_diag, firstn_all. simpl. apply app_nil_r.
Qed.

Lemma hours_loop_spec session all_sessions day hours :
  forall alternative_times,
    (length alternative_times < 5)%nat ->
    hours_loop session all_sessions day hours alternative_times
    = firstn 5 (alternative_times
                ++ map (time_str day)
                     (List.filter (fun hour => slot_kept session all_sessions (day, hour))
                        hours)).
Proof.
  induction hours as [|hour rest IH]; intros acc Hacc.
  - simpl. rewrite app_nil_r, firstn_all2; [done|lia].
  - cbn [hours_loop List.filter]. unfold slot_kept at 1. cbn [fst snd].
    destruct ((day =? day_of_week session) && (hour =? start_hour session));
      cbn [negb andb].
    { by apply IH. }
    destruct (time_slot_free session all_sessions day hour).
    2: { by apply IH. }
    cbn [map].
    replace (acc ++ time_str day hour :: map (time_str day)
               (List.filter (fun hour0 => slot_kept session all_sessions (day, hour0)) rest))
      with ((acc ++ [time_str day hour]) ++ map (time_str day)
               (List.filter (fun hour0 => slot_kept session all_sessions (day, hour0)) rest))
      by (by rewrite <- app_assoc).
    destruct (Nat.leb_spec 5 (length (acc ++ [time_str day hour]))) as [H5|H5].
    + rewrite firstn_full; [reflexivity|]. rewrite length_app in *. simpl in *. lia.
    + by rewrite IH.
Qed.

Lemma days_loop_spec session all_sessions days :
  forall alternative_times,
    (length alternative_times < 5)%nat ->
    days_loop session all_sessions days alternative_times
    = firstn 5 (alternative_times
                ++ flat_map
                     (fun day =>
                        map (time_str day)
                          (List.filter
                             (fun hour => slot_kept session all_sessions (day, hour))
                             possible_hours))
                     days).
Proof.
  induction days as [|day rest IH]; intros acc Hacc.
  - simpl. rewrite app_nil_r, firstn_all2; [done|lia].
  - cbn [days_loop flat_map]. rewrite hours_loop_spec by done.
    set (today := map (time_str day)
                    (List.filter (fun hour => slot_kept session all_sessions (day, hour))
                       possible_hours)).
    rewrite app_assoc.
    destruct (Nat.leb_spec 5 (length (firstn 5 (acc ++ today)))) as [H5|H5].
    + rewrite length_firstn in H5.
      rewrite (firstn_app 5 (acc ++ today)).
      replace (5 - length (acc ++ today))%nat with 0%nat by lia.
      by rewrite firstn_O, app_nil_r.
    + rewrite length_firstn in H5.
      rewrite (firstn_all2 (acc ++ today)) by lia.
      apply IH. lia.
Qed.

Lemma kept_slots_flat session all_sessions days hours :
  flat_map
    (fun day =>
       map (time_str day)
         (List.filter (fun hour => slot_kept session all_sessions (day, hour)) hours))
    days
  = map (fun slot => time_str (fst slot) (snd slot))
      (List.filter (slot_kept session all_sessions)
         (flat_map (fun day => map (fun hour => (day, hour)) hours) days)).
Proof.
  induction days as [|day rest IH]; simpl; [done|].
  rewrite List.filter_app, map_app, IH. f_equal.
  clear IH. induction hours as [|hour hs IHh]; simpl; [done|].
  destruct (slot_kept session all_sessions (day, hour)); simpl; by rewrite IHh.
Qed.

Lemma blocks_iff session day hour other :
  blocks session day hour other = true
  <-> day_of_week other = day /\ start_hour other = hour
      /\ (venue_id other = venue_id session
          \/ lecturer_id other = lecturer_id session
          \/ exists group, In group (student_groups session)
                           /\ In group (student_groups other)).
Proof.
  unfold blocks.
  rewrite !andb_true_iff, !orb_true_iff, !Z.eqb_eq, !String.eqb_eq, existsb_exists.
  setoid_rewrite str_in_In. tauto.
Qed.

Lemma slot_kept_iff session all_sessions day hour :
  slot_kept session all_sessions (day, hour) = true
  <-> (day, hour) <> (day_of_week session, start_hour session)
      /\ forall other, In other all_sessions ->
           ~ (day_of_week other = day /\ start_hour other = hour
              /\ (venue_id other = venue_id session
                  \/ lecturer_id other = lecturer_id session
                  \/ exists group, In group (student_groups session)
                                   /\ In group (student_groups other))).
Proof.
  unfold slot_kept, time_slot_free. simpl fst. simpl snd.
  rewrite andb_true_iff, !negb_true_iff, andb_false_iff, !Z.eqb_neq.
  rewrite <- not_true_iff_false, existsb_exists.
  setoid_rewrite blocks_iff. split.
  - intros [Hcur Hfree]. split.
    + intros E. injection E as -> ->. tauto.
    + intros other Hin Hb. apply Hfree. by exists other.
  - intros [Hcur Hfree]. split.
    + destruct (Z.eq_dec day (day_of_week session)) as [->|]; [|by left].
      right. intros ->. by apply Hcur.
    + intros (other & Hin & Hb). by apply (Hfree other).
Qed.

(** C4, as amended.  [_find_alternative_times] visits the days Monday to
    Friday and, within a day, the hours 9 to 16 (hour 12 included, hours 8
    and 17 not), and returns, formatted, the first five visited slots that
    are kept, or all of them when there are fewer.  A slot is kept exactly
    when it is not the session's current slot and no session of the
    schedule at that (day, hour) shares the venue, the lecturer or a
    student group with the session. *)
Theorem find_alternative_times_spec (session : Session) (all_sessions : list Session) :
  _find_alternative_times session all_sessions
  = map (fun slot => time_str (fst slot) (snd slot))
      (firstn 5 (List.filter (slot_kept session all_sessions) visited_slots))
  /\ (length (_find_alternative_times session all_sessions) <= 5)%nat
  /\ (forall day hour,
        In (day, hour) visited_slots <-> 0 <= day < 5 /\ 9 <= hour < 17)
  /\ (forall day hour,
        slot_kept session all_sessions (day, hour) = true
        <-> (day, hour) <> (day_of_week session, start_hour session)
            /\ forall other, In other all_sessions ->
                 ~ (day_of_week other = day /\ start_hour other = hour
                    /\ (venue_id other = venue_id session
                        \/ lecturer_id other = lecturer_id session
                        \/ exists group, In group (student_groups session)
                                         /\ In group (student_groups other)))).
Proof.
  assert (E : _find_alternative_times session all_sessions
              = map (fun slot => time_str (fst slot) (snd slot))
                  (firstn 5 (List.filter (slot_kept session all_sessions) visited_slots))).
  { unfold _find_alternative_times. rewrite days_loop_spec by (simpl; lia).
    rewrite app_nil_l, kept_slots_flat. by rewrite firstn_map. }
  split; [exact E|]. split; [|split].
  - rewrite E, length_map, length_firstn. lia.
  - apply visited_slots_In.
  - apply slot_kept_iff.
Qed.

(** C4 as stated fails: for a session on Monday 09:00 that is alone in the
    schedule the code proposes Monday 12:00 and does not propose Monday
    08:00; the finder worded as the claim has it returns another list. *)
Lemma alternative_times_not_as_documented :
  _find_alternative_times crowded_a [crowded_a]
  = ["Monday 10:00"; "Monday 11:00"; "Monday 12:00"; "Monday 13:00"; "Monday 14:00"]
  /\ Documented.alternative_times crowded_a [crowded_a]
     = ["Monday 08:00"; "Monday 10:00"; "Monday 11:00"; "Monday 13:00"; "Monday 14:00"]
  /\ _find_alternative_times crowded_a [crowded_a]
     <> Documented.alternative_times crowded_a [crowded_a].
Proof. vm_compute. repeat split. discriminate. Qed.
End TimesFacts.

(** ** The suggestion evaluator: claim C5 *)

Section EvaluatorFacts.
Import ConflictAnalyzer.

Lemma clamp01_bounds q : (0 <= clamp01 q <= 1)%Q.
Proof.
  unfold clamp01.
  pose proof (Q.max_spec 0 q) as S1. set (a := Qmax 0 q) in *.
  pose proof (Q.min_spec 1 a) as S2. set (b := Qmin 1 a) in *.
  destruct S1 as [[? ?]|[? ?]], S2 as [[? ?]|[? ?]]; lra.
Qed.

Lemma clamp01_id q : (0 <= q <= 1)%Q -> (clamp01 q == q)%Q.
Proof.
  intros H. unfold clamp01.
  pose proof (Q.max_spec 0 q) as S1. set (a := Qmax 0 q) in *.
  pose proof (Q.min_spec 1 a) as S2. set (b := Qmin 1 a) in *.
  destruct S1 as [[? ?]|[? ?]], S2 as [[? ?]|[? ?]]; lra.
Qed.


Lemma effort_score_bounds effort_level :
  (3#10 <= effort_score_of effort_level <= 9#10)%Q.
Proof.
  unfold effort_score_of.
  repeat match goal with |- context [String.eqb ?a ?b] => destruct (String.eqb a b) end;
    lra.
Qed.

End EvaluatorFacts.

(** ** The search driver: claims C9 and C10 *)

Section SolveFacts.
Import CSPSolver.
Context {World EncodedConstraints OptimizationParameters : Type}.
Variable time_time : World -> Q * World.
Variable new_model : OptimizationParameters -> M (World := World) unit.
Variable _create_variables : EncodedConstraints -> M (World := World) unit.
Variable _add_hard_constraints : EncodedConstraints -> M (World := World) unit.
Variable _add_soft_constraints :
  EncodedConstraints -> OptimizationParameters -> M (World := World) unit.
Variable _set_objective : OptimizationParameters -> M (World := World) unit.
Variable solver_Solve : M (World := World) CpStatus.
Variable _extract_solution : EncodedConstraints -> M (World := World) SolutionModel.t.

Local Abbreviation build :=
  (build_model new_model _create_variables _add_hard_constraints
     _add_soft_constraints _set_objective).
Local Abbreviation body :=
  (solve_body time_time new_model _create_variables _add_hard_constraints
     _add_soft_constraints _set_objective solver_Solve _extract_solution).
Local Abbreviation run :=
  (solve time_time new_model _create_variables _add_hard_constraints
     _add_soft_constraints _set_objective solver_Solve _extract_solution).
Local Abbreviation escapes :=
  (raises_in_try time_time new_model _create_variables _add_hard_constraints
     _add_soft_constraints _set_objective solver_Solve _extract_solution).

Lemma solve_unfold encoded_constraints parameters w :
  run encoded_constraints parameters w
  = match body (fst (time_time w)) encoded_constraints parameters (snd (time_time w)) with
    | (Returns solution, w') => (Returns solution, w')
    | (Raises e, w') =>
        (Returns (error_solution e (fst (time_time w') - fst (time_time w))%Q),
         snd (time_time w'))
    end.
Proof.
  unfold solve, bind, try_except, now, ret, is_exception.
  destruct (time_time w) as [t0 w0]. simpl.
  destruct (body t0 encoded_constraints parameters w0) as [[solution|e] w']; [done|].
  by destruct (time_time w') as [t1 w1].
Qed.

Lemma body_unfold start_time encoded_constraints parameters w0 :
  body start_time encoded_constraints parameters w0
  = match build encoded_constraints parameters w0 with
    | (Raises e, w') => (Raises e, w')
    | (Returns _, w1) =>
        match solver_Solve w1 with
        | (Raises e, w') => (Raises e, w')
        | (Returns status, w2) =>
            if is_solved status then
              match _extract_solution encoded_constraints (snd (time_time w2)) with
              | (Raises e, w') => (Raises e, w')
              | (Returns solution, w') =>
                  (Returns (with_status solution
                              (fst (time_time w2) - start_time)%Q status), w')
              end
            else (Returns (infeasible_solution (fst (time_time w2) - start_time)%Q),
                  snd (time_time w2))
        end
    end.
Proof.
  unfold solve_body, bind, now, ret.
  destruct (build encoded_constraints parameters w0) as [[[]|e] w1]; [|done].
  destruct (solver_Solve w1) as [[status|e] w2]; [|done].
  destruct (time_time w2) as [t w3]. simpl.
  destruct (is_solved status); [|done].
  by destruct (_extract_solution encoded_constraints w3) as [[solution|e] w4].
Qed.

Lemma build_raises_iff encoded_constraints parameters w0 e w' :
  build encoded_constraints parameters w0 = (Raises e, w')
  <-> new_model parameters w0 = (Raises e, w')
      \/ (exists w1, new_model parameters w0 = (Returns tt, w1)
            /\ _create_variables encoded_constraints w1 = (Raises e, w'))
      \/ (exists w1 w2, new_model parameters w0 = (Returns tt, w1)
            /\ _create_variables encoded_constraints w1 = (Returns tt, w2)
            /\ _add_hard_constraints encoded_constraints w2 = (Raises e, w'))
      \/ (exists w1 w2 w3, new_model parameters w0 = (Returns tt, w1)
            /\ _create_variables encoded_constraints w1 = (Returns tt, w2)
            /\ _add_hard_constraints encoded_constraints w2 = (Returns tt, w3)
            /\ _add_soft_constraints encoded_constraints parameters w3 = (Raises e, w')
            /\ is_mock_error e = false)
      \/ (exists w1 w2 w3 w4, new_model parameters w0 = (Returns tt, w1)
            /\ _create_variables encoded_constraints w1 = (Returns tt, w2)
            /\ _add_hard_constraints encoded_constraints w2 = (Returns tt, w3)
            /\ passes (_add_soft_constraints encoded_constraints parameters) w3 w4
            /\ _set_objective parameters w4 = (Raises e, w')
            /\ is_mock_error e = false).
Proof.
  unfold build_model, bind, try_except, ret, passes.
  destruct (new_model parameters w0) as [[[]|e1] w1] eqn:E1.
  2: { split; [intros H; by left|].
       intros [H|[(? & H & _)|[(? & ? & H & _)|[(? & ? & ? & H & _)
                                               |(? & ? & ? & ? & H & _)]]]];
         congruence. }
  destruct (_create_variables encoded_constraints w1) as [[[]|e2] w2] eqn:E2.
  2: { split; [intros H; injection H as <- <-; right; left; by exists w1|].
       intros [H|[(? & H & H')|[(? & ? & H & H' & _)|[(? & ? & ? & H & H' & _)
                                                     |(? & ? & ? & ? & H & H' & _)]]]];
         congruence. }
  destruct (_add_hard_constraints encoded_constraints w2) as [[[]|e3] w3] eqn:E3.
  2: { split; [intros H; injection H as <- <-; right; right; left; by exists w1, w2|].
       intros [H|[(? & H & H')|[(? & ? & H & H' & H'')
                               |[(? & ? & ? & H & H' & H'' & _)
                                |(? & ? & ? & ? & H & H' & H'' & _)]]]];
         congruence. }
  split.
  - intros H. right. right. right.
    destruct (_add_soft_constraints encoded_constraints parameters w3)
      as [[[]|e4] w4] eqn:E4.
    + right. exists w1, w2, w3, w4.
      destruct (_set_objective parameters w4) as [[[]|e5] w5] eqn:E5; [done|].
      destruct (is_mock_error e5) eqn:M5; [done|].
      injection H as <- <-. repeat split; auto.
    + destruct (is_mock_error e4) eqn:M4.
      * right. exists w1, w2, w3, w4.
        destruct (_set_objective parameters w4) as [[[]|e5] w5] eqn:E5; [done|].
        destruct (is_mock_error e5) eqn:M5; [done|].
        injection H as <- <-. repeat split; eauto.
      * left. exists w1, w2, w3. injection H as <- <-. repeat split; auto.
  - intros [H|[(? & H & H')|[(? & ? & H & H' & H'')
                            |[(x1 & x2 & x3 & H & H' & H'' & Hs & Hm)
                             |(x1 & x2 & x3 & x4 & H & H' & H'' & Hp & Ho & Hm)]]]];
      try congruence.
    + assert (x3 = w3) as -> by congruence. by rewrite Hs, Hm.
    + assert (x3 = w3) as -> by congruence.
      destruct Hp as [Hp|(e4 & Hp & M4)]; rewrite Hp; [|rewrite M4];
        by rewrite Ho, Hm.
Qed.

Lemma raises_in_try_iff start_time encoded_constraints parameters w0 e w' :
  escapes encoded_constraints parameters w0 e w'
  <-> body start_time encoded_constraints parameters w0 = (Raises e, w').
Proof.
  rewrite body_unfold. split.
  - intros H.
    assert (Hb : forall w1, build encoded_constraints parameters w0 = (Returns tt, w1) ->
               match solver_Solve w1 with
               | (Raises e0, w'0) => (Raises e0, w'0)
               | (Returns status, w2) =>
                   if is_solved status
                   then match _extract_solution encoded_constraints (snd (time_time w2)) with
                        | (Returns solution, w'0) =>
                            (Returns (with_status solution
                                        (fst (time_time w2) - start_time)%Q status), w'0)
                        | (Raises e0, w'0) => (Raises e0, w'0)
                        end
                   else (Returns (infeasible_solution
                                    (fst (time_time w2) - start_time)%Q),
                         snd (time_time w2))
               end = (Raises e, w') ->
               match build encoded_constraints parameters w0 with
               | (Returns _, w1) =>
                   match solver_Solve w1 with
                   | (Raises e0, w'0) => (Raises e0, w'0)
                   | (Returns status, w2) =>
                       if is_solved status
                       then match _extract_solution encoded_constraints
                                    (snd (time_time w2)) with
                            | (Returns solution, w'0) =>
                                (Returns (with_status solution
                                            (fst (time_time w2) - start_time)%Q status),
                                 w'0)
                            | (Raises e0, w'0) => (Raises e0, w'0)
                            end
                       else (Returns (infeasible_solution
                                        (fst (time_time w2) - start_time)%Q),
                             snd (time_time w2))
                   end
               | (Raises e0, w'0) => (Raises e0, w'0)
               end = (Raises e, w')).
    { intros w1 ->. done. }
    destruct H as [H|w1 H1 H|w1 w2 H1 H2 H|w1 w2 w3 H1 H2 H3 H Hm
                  |w1 w2 w3 w4 H1 H2 H3 Hp H Hm|w1 Hbuild H|w1 status w2 Hbuild Hs Hok H].
    1-5: (assert (Hr : build encoded_constraints parameters w0 = (Raises e, w'));
          [apply build_raises_iff | by rewrite Hr]).
    + by left.
    + right. left. by exists w1.
    + right. right. left. by exists w1, w2.
    + right. right. right. left. by exists w1, w2, w3.
    + right. right. right. right. by exists w1, w2, w3, w4.
    + apply (Hb w1 Hbuild). by rewrite H.
    + apply (Hb w1 Hbuild). by rewrite Hs, Hok, H.
  - destruct (build encoded_constraints parameters w0) as [[[]|e1] w1] eqn:Eb.
    2: { intros H. injection H as -> ->. apply build_raises_iff in Eb.
         destruct Eb as [H|[(x1 & H1 & H)|[(x1 & x2 & H1 & H2 & H)
                        |[(x1 & x2 & x3 & H1 & H2 & H3 & H & Hm)
                         |(x1 & x2 & x3 & x4 & H1 & H2 & H3 & Hp & H & Hm)]]]].
         - by apply raise_new_model.
         - by eapply raise_create_variables.
         - by eapply raise_hard_constraints.
         - by eapply raise_soft_constraints.
         - by eapply raise_objective. }
    destruct (solver_Solve w1) as [[status|e2] w2] eqn:Es.
    2: { intros H. injection H as -> ->. by eapply raise_search. }
    destruct (is_solved status) eqn:Eok; [|done].
    destruct (_extract_solution encoded_constraints (snd (time_time w2)))
      as [[solution|e3] w3] eqn:Ee; [done|].
    intros H. injection H as -> ->. by eapply raise_extract.
Qed.

(** C9.  When the model is built and the search returns a status that is
    neither OPTIMAL nor FEASIBLE, [solve] returns the infeasible result: no
    sessions, [is_feasible = false], and a conflicts list holding a record
    of type [infeasible_problem] whose [suggestion] field advises to relax
    constraints or add resources. *)
Theorem solve_reports_infeasibility encoded_constraints parameters w w1 status w2 :
  build_model new_model _create_variables _add_hard_constraints
  _add_soft_constraints _set_objective
  encoded_constraints parameters (snd (time_time w)) = (Returns tt, w1) ->
  solver_Solve w1 = (Returns status, w2) ->
  status <> OPTIMAL ->
  status <> FEASIBLE ->
  exists solution,
    fst (solve time_time new_model _create_variables _add_hard_constraints
       _add_soft_constraints _set_objective solver_Solve _extract_solution
       encoded_constraints parameters w) = Returns solution
    /\ solution = infeasible_solution (fst (time_time w2) - fst (time_time w))%Q
    /\ SolutionModel.sessions solution = []
    /\ SolutionModel.is_feasible solution = false
    /\ exists record,
         In record (SolutionModel.conflicts solution)
         /\ dict_get "type" record = Some (PStr "infeasible_problem")
         /\ dict_get "suggestion" record
            = Some (PStr "Consider relaxing some constraints or adding more resources").
Proof.
  intros Hbuild Hsearch Hopt Hfeas.
  exists (infeasible_solution (fst (time_time w2) - fst (time_time w))%Q).
  split.
  - rewrite solve_unfold, body_unfold, Hbuild, Hsearch.
    by destruct status.
  - repeat split; auto. eexists. split; [by left|]. by split.
Qed.

(** C10, as amended.  [solve] always returns a [SolutionModel] and never
    propagates an exception.  Whenever an exception leaves its [try] block
    (raised by any statement of the block, except a [TypeError] or
    [AttributeError] raised while adding the soft constraints or setting
    the objective, which [solve] skips), the result has no sessions, score
    0, [is_feasible = false] and the single conflict
    [{type: solver_error, message: str(e)}]; otherwise the result is the
    one the block computed. *)
Theorem solve_never_raises encoded_constraints parameters w :
  (exists solution w',
      solve time_time new_model _create_variables _add_hard_constraints
    _add_soft_constraints _set_objective solver_Solve _extract_solution
    encoded_constraints parameters w = (Returns solution, w'))
  /\ (forall e w',
        raises_in_try time_time new_model _create_variables _add_hard_constraints
    _add_soft_constraints _set_objective solver_Solve _extract_solution
    encoded_constraints parameters (snd (time_time w)) e w' ->
        exists solution,
          fst (solve time_time new_model _create_variables _add_hard_constraints
       _add_soft_constraints _set_objective solver_Solve _extract_solution
       encoded_constraints parameters w) = Returns solution
          /\ SolutionModel.sessions solution = []
          /\ (SolutionModel.score solution == 0)%Q
          /\ SolutionModel.is_feasible solution = false
          /\ SolutionModel.conflicts solution
             = [[("type", PStr "solver_error"); ("message", PStr (exn_str e))]])
  /\ (forall solution w',
        solve_body time_time new_model _create_variables _add_hard_constraints
    _add_soft_constraints _set_objective solver_Solve _extract_solution
    (fst (time_time w)) encoded_constraints parameters (snd (time_time w))
        = (Returns solution, w') ->
        solve time_time new_model _create_variables _add_hard_constraints
    _add_soft_constraints _set_objective solver_Solve _extract_solution
    encoded_constraints parameters w = (Returns solution, w')).
Proof.
  split; [|split].
  - rewrite solve_unfold.
    destruct (body _ _ _ _) as [[solution|e] w']; eauto.
  - intros e w' H.
    apply (raises_in_try_iff (fst (time_time w))) in H.
    rewrite solve_unfold, H. eexists. split; [reflexivity|]. by repeat split.
  - intros solution w' H. by rewrite solve_unfold, H.
Qed.
End SolveFacts.

Section SolveWitnesses.
Import CSPSolver.

(** The theorem applied to the stand-in engine whose search reports
    INFEASIBLE. *)
Lemma solve_reports_infeasibility_witness :
  exists solution,
    fst (mock_solve mock_step INFEASIBLE) = Returns solution
    /\ solution = infeasible_solution (0 - 0)%Q
    /\ SolutionModel.sessions solution = []
    /\ SolutionModel.is_feasible solution = false
    /\ exists record,
         In record (SolutionModel.conflicts solution)
         /\ dict_get "type" record = Some (PStr "infeasible_problem")
         /\ dict_get "suggestion" record
            = Some (PStr "Consider relaxing some constraints or adding more resources").
Proof.
  apply (solve_reports_infeasibility mock_clock (fun _ => mock_step)
           (fun _ => mock_step) (fun _ => mock_step) (fun _ _ => mock_step)
           (fun _ => mock_step) (mock_search INFEASIBLE) (fun _ => mock_extract)
           tt tt tt tt INFEASIBLE tt);
    [reflexivity | reflexivity | discriminate | discriminate].
Defined.

(** C10 as stated fails: when [_add_soft_constraints] raises a [TypeError]
    the exception is skipped, the search goes on, and [solve] returns the
    extracted feasible solution rather than a [solver_error] result. *)
Lemma skipped_soft_constraint_error :
  mock_type_error tt
  = (Raises {| exn_class := TypeError; exn_str := "unsupported operand type(s)" |}, tt)
  /\ exists solution,
       fst (mock_solve mock_type_error OPTIMAL) = Returns solution
       /\ SolutionModel.sessions solution = [crowded_a]
       /\ SolutionModel.is_feasible solution = true
       /\ SolutionModel.conflicts solution = [].
Proof. split; [reflexivity|]. eexists. split; [reflexivity|]. by repeat split. Qed.
End SolveWitnesses.

(** ** More on the validator's scan *)

Section ScanFacts.
Import CSPSolver ScheduledSessionModel Invariants.

Lemma taken_venue_iff pre s :
  existsb (venue_clash s) pre = true <-> In (venue_slot s) (map venue_slot pre).
Proof.
  rewrite existsb_exists, in_map_iff. split.
  - intros (p & Hin & H). exists p. split; [|done].
    apply venue_slot_booking. unfold venue_clash, same_slot in H.
    apply andb_true_iff in H as [H Hv]. apply andb_true_iff in H as [Hd Hh].
    apply Z.eqb_eq in Hd, Hh. apply String.eqb_eq in Hv.
    unfold venue_booking. by rewrite Hd, Hh, Hv.
  - intros (p & H & Hin). exists p. split; [done|].
    apply venue_slot_booking in H. unfold venue_booking in H.
    injection H as Hv Hd Hh. unfold venue_clash, same_slot.
    rewrite Hv, Hd, Hh, !Z.eqb_refl, String.eqb_refl. done.
Qed.

Lemma taken_lecturer_iff pre s :
  existsb (lecturer_clash s) pre = true <-> In (lecturer_slot s) (map lecturer_slot pre).
Proof.
  rewrite existsb_exists, in_map_iff. split.
  - intros (p & Hin & H). exists p. split; [|done].
    apply lecturer_slot_booking. unfold lecturer_clash, same_slot in H.
    apply andb_true_iff in H as [H Hv]. apply andb_true_iff in H as [Hd Hh].
    apply Z.eqb_eq in Hd, Hh. apply String.eqb_eq in Hv.
    unfold lecturer_booking. by rewrite Hd, Hh, Hv.
  - intros (p & H & Hin). exists p. split; [done|].
    apply lecturer_slot_booking in H. unfold lecturer_booking in H.
    injection H as Hv Hd Hh. unfold lecturer_clash, same_slot.
    rewrite Hv, Hd, Hh, !Z.eqb_refl, String.eqb_refl. done.
Qed.

(** What one iteration of the scan adds. *)
Lemma hard_step_effect pre st s :
  hard_inv pre st ->
  violations (hard_step st s)
  = violations st
    ++ (if existsb (venue_clash s) pre then [venue_violation s] else [])
    ++ (if existsb (lecturer_clash s) pre then [lecturer_violation s] else [])
  /\ passed_checks (hard_step st s)
     = passed_checks st
       + (if existsb (venue_clash s) pre then 0 else 1)
       + (if existsb (lecturer_clash s) pre then 0 else 1).
Proof.
  intros [Hv Hl Ht Hp Hn Hc].
  destruct (book_spec _ (venue_id s) (time_key s) _ Hv) as (Hv1 & Hv2 & Hv3).
  destruct (book_spec _ (lecturer_id s) (time_key s) _ Hl) as (Hl1 & Hl2 & Hl3).
  fold (venue_slot s) in Hv1. fold (lecturer_slot s) in Hl1.
  rewrite <- taken_venue_iff in Hv1. rewrite <- taken_lecturer_iff in Hl1.
  unfold hard_step. cbv zeta.
  destruct (bool_decide (time_key s ∈ default ∅ (ensure_key (venue_id s) (venue_bookings st) !! venue_id s))) eqn:Ev;
    [apply bool_decide_eq_true in Ev | apply bool_decide_eq_false in Ev];
    rewrite Hv1 in Ev;
    cbn [venue_bookings lecturer_bookings violations total_checks passed_checks];
    (destruct (bool_decide (time_key s ∈ default ∅ (ensure_key (lecturer_id s) (lecturer_bookings st) !! lecturer_id s))) eqn:El;
      [apply bool_decide_eq_true in El | apply bool_decide_eq_false in El]);
    rewrite Hl1 in El;
    cbn [venue_bookings lecturer_bookings violations total_checks passed_checks].
  all: try apply not_true_is_false in Ev; try apply not_true_is_false in El.
  all: rewrite Ev, El; simpl; rewrite <- ?app_assoc, ?app_nil_r; split; try done; lia.
Qed.

Lemma hard_loop_effect rest : forall pre st,
  hard_inv pre st ->
  violations (fold_left hard_step rest st) = violations st ++ double_bookings pre rest.
Proof.
  induction rest as [|s rest IH]; intros pre st H; simpl.
  - by rewrite app_nil_r.
  - rewrite (IH (pre ++ [s])) by (by apply hard_inv_step).
    destruct (hard_step_effect pre st s H) as [-> _].
    by rewrite <- !app_assoc.
Qed.

Lemma size_list_to_set_snoc `{Countable A} (l : list A) (x : A) :
  Z.of_nat (size (list_to_set (l ++ [x]) : gset A))
  = Z.of_nat (size (list_to_set l : gset A)) + (if decide (x ∈ l) then 0 else 1).
Proof.
  rewrite list_to_set_app_L. simpl. rewrite union_empty_r_L.
  destruct (decide (x ∈ l)) as [Hin|Hin].
  - replace (list_to_set l ∪ {[x]}) with (list_to_set l : gset A); [lia|].
    apply leibniz_equiv. intros y.
    rewrite elem_of_union, elem_of_singleton, elem_of_list_to_set.
    split; [auto|]. by intros [?| ->].
  - rewrite size_union, size_singleton; [lia|].
    intros y Hy Hy'. apply elem_of_singleton in Hy'. subst.
    by apply elem_of_list_to_set in Hy.
Qed.

Lemma In_map_equiv {A B C} (f : A -> B) (g : A -> C) (l : list A) x :
  (forall a b, f a = f b <-> g a = g b) ->
  In (f x) (map f l) <-> In (g x) (map g l).
Proof.
  intros Hfg. rewrite !in_map_iff.
  split; intros (y & Hy & Hin); exists y; split; auto; by apply Hfg.
Qed.

(** Every passed check is the first use of a booking. *)
Lemma passed_checks_distinct sessions :
  passed_checks (hard_loop sessions)
  = distinct_venue_bookings sessions + distinct_lecturer_bookings sessions.
Proof.
  unfold hard_loop.
  assert (G : forall rest pre st,
             hard_inv pre st ->
             passed_checks st = distinct_venue_bookings pre + distinct_lecturer_bookings pre ->
             passed_checks (fold_left hard_step rest st)
             = distinct_venue_bookings (pre ++ rest) + distinct_lecturer_bookings (pre ++ rest)).
  { induction rest as [|s rest IH]; intros pre st Hinv Hp; simpl.
    - by rewrite app_nil_r.
    - replace (pre ++ s :: rest) with ((pre ++ [s]) ++ rest) by (by rewrite <- app_assoc).
      apply IH; [by apply hard_inv_step|].
      destruct (hard_step_effect pre st s Hinv) as [_ ->]. rewrite Hp.
      unfold distinct_venue_bookings, distinct_lecturer_bookings.
      rewrite !map_app. simpl map. rewrite !size_list_to_set_snoc.
      assert (Ev : (if existsb (venue_clash s) pre then 0 else 1)
                   = if decide (venue_booking s ∈ map venue_booking pre) then 0 else 1).
      { destruct (decide (venue_booking s ∈ map venue_booking pre)) as [Hin|Hin];
          rewrite list_elem_of_In in Hin;
          rewrite (In_map_equiv venue_booking venue_slot) in Hin
            by (intros; symmetry; apply venue_slot_booking);
          rewrite <- taken_venue_iff in Hin.
        - by rewrite Hin.
        - apply not_true_is_false in Hin. by rewrite Hin. }
      assert (El : (if existsb (lecturer_clash s) pre then 0 else 1)
                   = if decide (lecturer_booking s ∈ map lecturer_booking pre) then 0 else 1).
      { destruct (decide (lecturer_booking s ∈ map lecturer_booking pre)) as [Hin|Hin];
          rewrite list_elem_of_In in Hin;
          rewrite (In_map_equiv lecturer_booking lecturer_slot) in Hin
            by (intros; symmetry; apply lecturer_slot_booking);
          rewrite <- taken_lecturer_iff in Hin.
        - by rewrite Hin.
        - apply not_true_is_false in Hin. by rewrite Hin. }
      rewrite Ev, El. lia. }
  apply (G sessions [] hard_init); [apply hard_inv_init|reflexivity].
Qed.

Lemma hard_score_bounds sessions :
  (0 <= hard_score_of (hard_loop sessions) <= 1)%Q.
Proof.
  pose proof (hard_loop_inv sessions) as [_ _ Ht Hp Hn _].
  unfold hard_score_of.
  destruct (0 <? total_checks (hard_loop sessions)) eqn:E; [|split; discriminate].
  apply Z.ltb_lt in E.
  assert (Ht0 : (0 < inject_Z (total_checks (hard_loop sessions)))%Q).
  { rewrite (Zlt_Qlt 0) in E. exact E. }
  split.
  - apply Qle_shift_div_l; [exact Ht0|]. rewrite Qmult_0_l.
    rewrite (Zle_Qle 0) in Hn. exact Hn.
  - apply Qle_shift_div_r; [exact Ht0|]. rewrite Qmult_1_l.
    rewrite <- Zle_Qle. lia.
Qed.
End ScanFacts.

Section ValidatorMore.
Import CSPSolver ScheduledSessionModel Invariants.

Lemma is_valid_iff solution :
  ValidationResult.is_valid (validate_solution solution) = true
  <-> violations (hard_loop (SolutionModel.sessions solution)) = [].
Proof.
  destruct (validate_conflicts solution) as [Hc _]. rewrite <- Hc.
  unfold validate_solution, _validate_hard_constraints.
  cbn [ValidationResult.is_valid ValidationResult.conflicts].
  match goal with |- context [length ?l] => destruct l end; simpl; split; done.
Qed.

(** X1.  The hard-constraint score lies between 0 and 1, and a schedule is
    declared valid exactly when that score is 1. *)
Theorem hard_score_range_and_validity (solution : SolutionModel.t) :
  (0 <= fst (_validate_hard_constraints solution) <= 1)%Q
  /\ (ValidationResult.is_valid (validate_solution solution) = true
      <-> (fst (_validate_hard_constraints solution) == 1)%Q).
Proof.
  unfold _validate_hard_constraints. cbn [fst].
  pose proof (hard_score_bounds (SolutionModel.sessions solution)) as [H0 H1].
  split; [done|]. rewrite is_valid_iff.
  pose proof (hard_score_lt_1 (SolutionModel.sessions solution)) as H.
  split.
  - intros E. rewrite E in H. apply Qle_bool_iff in H. by apply Qle_antisym.
  - intros E. destruct (violations _); [done|].
    apply not_true_iff_false in H. exfalso. apply H, Qle_bool_iff.
    rewrite E. apply Qle_refl.
Qed.

(** X2.  The conflicts reported for a schedule are exactly its double bookings
    in session order: a record for each session whose venue, or whose
    lecturer, is already taken at its slot by an earlier session, naming
    the later session only. *)
Theorem validator_conflicts_exact (solution : SolutionModel.t) :
  ValidationResult.conflicts (validate_solution solution)
  = double_bookings [] (SolutionModel.sessions solution)
  /\ ValidationResult.constraint_violations (validate_solution solution)
     = double_bookings [] (SolutionModel.sessions solution).
Proof.
  destruct (validate_conflicts solution) as [-> ->].
  unfold hard_loop. by rewrite (hard_loop_effect _ [] hard_init hard_inv_init).
Qed.

(** X3.  The checks passed are the distinct bookings: with [n] sessions, the
    number of conflicts is [2n] minus the number of distinct venue bookings
    minus the number of distinct lecturer bookings. *)
Theorem validator_counts_distinct_bookings (solution : SolutionModel.t) :
  passed_checks (hard_loop (SolutionModel.sessions solution))
  = distinct_venue_bookings (SolutionModel.sessions solution)
    + distinct_lecturer_bookings (SolutionModel.sessions solution)
  /\ Z.of_nat (length (ValidationResult.conflicts (validate_solution solution)))
     = 2 * Z.of_nat (length (SolutionModel.sessions solution))
       - distinct_venue_bookings (SolutionModel.sessions solution)
       - distinct_lecturer_bookings (SolutionModel.sessions solution)
  /\ (SolutionModel.sessions solution <> [] ->
      (fst (_validate_hard_constraints solution)
       == inject_Z (distinct_venue_bookings (SolutionModel.sessions solution)
                    + distinct_lecturer_bookings (SolutionModel.sessions solution))
          / inject_Z (2 * Z.of_nat (length (SolutionModel.sessions solution))))%Q).
Proof.
  destruct (validate_conflicts solution) as [-> _].
  pose proof (hard_loop_inv (SolutionModel.sessions solution)) as [_ _ Ht Hp _ _].
  pose proof (passed_checks_distinct (SolutionModel.sessions solution)) as Hd.
  split; [done|]. split; [lia|].
  intros Hne. unfold _validate_hard_constraints, hard_score_of. cbn [fst].
  rewrite Ht, Hd.
  destruct (SolutionModel.sessions solution) as [|s l]; [done|].
  replace (0 <? 2 * Z.of_nat (length (s :: l))) with true; [reflexivity|].
  symmetry. apply Z.ltb_lt. simpl length. lia.
Qed.




End ValidatorMore.

(** ** The soft scores *)

Section SoftScoreFacts.
Import CSPSolver ScheduledSessionModel.

Lemma Qdiv_nonneg (a b : Q) : (0 <= a -> 0 < b -> 0 <= a / b)%Q.
Proof.
  intros Ha Hb. apply Qle_shift_div_l; [exact Hb|]. by rewrite Qmult_0_l.
Qed.

Lemma Qdiv_zero_iff (a b : Q) : (0 < b)%Q -> (a / b == 0 <-> a == 0)%Q.
Proof.
  intros Hb. assert (Hb' : ~ (b == 0)%Q) by (intros E; rewrite E in Hb; by apply Qlt_irrefl in Hb).
  split; intros E.
  - rewrite <- (Qmult_div_r a b Hb'), E. ring.
  - rewrite E. unfold Qdiv. ring.
Qed.

Lemma Qmax0_bounds (x : Q) : (x <= 1 -> 0 <= Qmax0 x <= 1)%Q.
Proof.
  intros Hx. unfold Qmax0. split; [apply Q.le_max_l|].
  apply Q.max_lub; [discriminate|exact Hx].
Qed.

Lemma Qmax0_nonneg (x : Q) : (0 <= Qmax0 x)%Q.
Proof. apply Q.le_max_l. Qed.

Lemma Qmax0_one_iff (x : Q) : (x <= 1)%Q -> (Qmax0 x == 1 <-> x == 1)%Q.
Proof.
  intros Hx. unfold Qmax0.
  destruct (Q.max_spec 0 x) as [[H E]|[H E]]; rewrite E.
  - reflexivity.
  - split; intros E1.
    + discriminate E1.
    + rewrite E1 in H. exfalso. revert H. apply Qlt_not_le. reflexivity.
Qed.

Lemma Qsum_nonneg (l : list Q) : Forall (fun q => 0 <= q)%Q l -> (0 <= Qsum l)%Q.
Proof.
  induction 1 as [|q l Hq _ IH]; simpl; [apply Qle_refl|].
  change 0%Q with (0 + 0)%Q. by apply Qplus_le_compat.
Qed.

Lemma Qsum_zero_iff (l : list Q) :
  Forall (fun q => 0 <= q)%Q l -> (Qsum l == 0)%Q <-> Forall (fun q => q == 0)%Q l.
Proof.
  induction 1 as [|q l Hq Hl IH]; simpl.
  - split; [constructor|reflexivity].
  - pose proof (Qsum_nonneg l Hl) as Hs. split.
    + intros E. constructor; [lra|]. apply IH. lra.
    + intros HF. inversion HF as [|? ? E1 E2]; subst. apply IH in E2. lra.
Qed.

Lemma Qsum_inject (l : list Z) : (Qsum (map inject_Z l) == inject_Z (Zsum l))%Q.
Proof.
  induction l as [|z l IH]; simpl; [reflexivity|].
  by rewrite IH, inject_Z_plus.
Qed.

Lemma Qabs_zero_iff (q : Q) : (Qabs q == 0 <-> q == 0)%Q.
Proof.
  split; intros E.
  - revert E. apply Qabs_case; intros H E; lra.
  - rewrite E. reflexivity.
Qed.

Lemma usage_by_measured who sessions :
  measured (fun n : Z => n) (usage_by who sessions) (map who sessions).
Proof.
  unfold usage_by.
  assert (G : forall l d P, measured (fun n : Z => n) d P ->
              measured (fun n : Z => n)
                (fold_left (fun d session => count_into d (who session)) l d)
                (P ++ map who l)).
  { induction l as [|s l IH]; intros d P H; simpl.
    - by rewrite app_nil_r.
    - replace (P ++ who s :: map who l) with ((P ++ [who s]) ++ map who l)
        by (by rewrite <- app_assoc).
      apply IH. apply measured_upsert; auto. }
  apply (G sessions [] []), measured_nil.
Qed.

Lemma count_into_sum d k : Zsum (map snd (count_into d k)) = Zsum (map snd d) + 1.
Proof.
  unfold count_into. induction d as [|[k' v] d IH]; simpl; [lia|].
  destruct (String.eqb k' k); simpl; lia.
Qed.

Lemma usage_by_sum who sessions :
  Zsum (map snd (usage_by who sessions)) = Z.of_nat (length sessions).
Proof.
  unfold usage_by.
  assert (G : forall l d,
              Zsum (map snd (fold_left (fun d session => count_into d (who session)) l d))
              = Zsum (map snd d) + Z.of_nat (length l)).
  { induction l as [|s l IH]; intros d; simpl length; simpl fold_left; [lia|].
    rewrite IH, count_into_sum. lia. }
  rewrite G. simpl. lia.
Qed.

Lemma usage_by_load who sessions k c :
  In (k, c) (usage_by who sessions) <-> c = load who sessions k /\ 0 < c.
Proof.
  destruct (usage_by_measured who sessions) as [_ H]. specialize (H k c).
  unfold load. rewrite <- H. split.
  - intros Hin. by exists c.
  - by intros (v & Hin & ->).
Qed.

Lemma Zsum_const (l : list Z) (c : Z) :
  Forall (fun x => x = c) l -> Zsum l = Z.of_nat (length l) * c.
Proof.
  induction 1 as [|x l -> _ IH]; simpl length; simpl Zsum; [lia|].
  rewrite IH. lia.
Qed.

(** The balance score shared by the venue and the lecturer measure, for a
    non-empty usage table [U] with positive counts. *)
Lemma balance_score (U : list (string * Z)) (ideal maxv : Q) :
  U <> [] -> (forall kv, In kv U -> 0 < snd kv) ->
  (ideal == inject_Z (Zsum (map snd U)) / inject_Z (Z.of_nat (length U)))%Q ->
  (maxv == ideal)%Q ->
  (0 <= Qmax0 (1 - (Qsum (map (fun kv => Qabs (inject_Z (snd kv) - ideal)) U)
                    / inject_Z (Z.of_nat (length U))) / maxv) <= 1)%Q
  /\ ((Qmax0 (1 - (Qsum (map (fun kv => Qabs (inject_Z (snd kv) - ideal)) U)
                   / inject_Z (Z.of_nat (length U))) / maxv) == 1)%Q
      <-> forall kv kv', In kv U -> In kv' U -> snd kv = snd kv').
Proof.
  intros Hne Hpos Hideal Hmax.
  set (n := Z.of_nat (length U)) in *.
  assert (Hn : 0 < n) by (destruct U; [done|unfold n; simpl length; lia]).
  assert (HnQ : (0 < inject_Z n)%Q) by (by rewrite (Zlt_Qlt 0) in Hn).
  assert (Hsum : 0 < Zsum (map snd U)).
  { destruct U as [|kv U]; [done|]. simpl.
    assert (0 < snd kv) by (apply Hpos; by left).
    assert (G : forall l : list (string * Z), (forall kv, In kv l -> 0 < snd kv) ->
                0 <= Zsum (map snd l)).
    { induction l as [|x l IH]; intros Hl; simpl; [lia|].
      assert (0 < snd x) by (apply Hl; by left).
      assert (0 <= Zsum (map snd l)) by (apply IH; intros ? ?; apply Hl; by right). lia. }
    assert (0 <= Zsum (map snd U)) by (apply G; intros ? ?; apply Hpos; by right). lia. }
  assert (HsumQ : (0 < inject_Z (Zsum (map snd U)))%Q) by (by rewrite (Zlt_Qlt 0) in Hsum).
  assert (Hi : (0 < ideal)%Q).
  { rewrite Hideal. apply Qlt_shift_div_l; [exact HnQ|]. by rewrite Qmult_0_l. }
  assert (Hm : (0 < maxv)%Q) by (by rewrite Hmax).
  set (S := Qsum (map (fun kv => Qabs (inject_Z (snd kv) - ideal)) U)).
  assert (HF : Forall (fun q => 0 <= q)%Q
                 (map (fun kv => Qabs (inject_Z (snd kv) - ideal)) U)).
  { apply List.Forall_forall. intros q Hq. apply in_map_iff in Hq as (kv & <- & _).
    apply Qabs_nonneg. }
  assert (HS : (0 <= S)%Q) by (by apply Qsum_nonneg).
  assert (Hv : (0 <= S / inject_Z n)%Q) by (by apply Qdiv_nonneg).
  assert (Hy : (0 <= S / inject_Z n / maxv)%Q) by (by apply Qdiv_nonneg).
  assert (Hx : (1 - S / inject_Z n / maxv <= 1)%Q).
  { revert Hy. set (y := (S / inject_Z n / maxv)%Q). intros Hy. lra. }
  split; [by apply Qmax0_bounds|].
  rewrite (Qmax0_one_iff _ Hx).
  assert (E1 : (1 - S / inject_Z n / maxv == 1 <-> S == 0)%Q).
  { rewrite <- (Qdiv_zero_iff S (inject_Z n) HnQ).
    rewrite <- (Qdiv_zero_iff (S / inject_Z n) maxv Hm).
    set (y := (S / inject_Z n / maxv)%Q). split; intros E; lra. }
  rewrite E1. unfold S. rewrite (Qsum_zero_iff _ HF).
  rewrite List.Forall_forall. split.
  - intros H.
    assert (Hall : forall kv, In kv U -> (inject_Z (snd kv) == ideal)%Q).
    { intros kv Hin.
      assert (Ha : (Qabs (inject_Z (snd kv) - ideal) == 0)%Q).
      { apply H. apply in_map_iff. by exists kv. }
      apply (proj1 (Qabs_zero_iff _)) in Ha. clear -Ha.
      set (c := inject_Z (snd kv)) in *. lra. }
    intros kv kv' Hin Hin'. apply Hall in Hin, Hin'.
    rewrite <- Hin' in Hin. by apply (proj1 (inject_Z_injective _ _)) in Hin.
  - intros Heq q Hq. apply in_map_iff in Hq as (kv & <- & Hin).
    apply Qabs_zero_iff.
    assert (Hc : Zsum (map snd U) = n * snd kv).
    { unfold n. rewrite <- (length_map snd U).
      apply Zsum_const. apply List.Forall_forall. intros x Hx'.
      apply in_map_iff in Hx' as (kv' & <- & Hin'). by apply Heq. }
    rewrite Hideal, Hc, inject_Z_mult. field.
    intros E. rewrite E in HnQ. by apply Qlt_irrefl in HnQ.
Qed.

Lemma load_pos who sessions a : In a sessions -> 0 < load who sessions (who a).
Proof.
  intros Hin. unfold load.
  assert (In (who a) (map who sessions)) as H by (by apply in_map).
  apply (count_occ_In String.string_dec) in H. lia.
Qed.

Lemma usage_balanced_iff who sessions :
  (forall kv kv', In kv (usage_by who sessions) -> In kv' (usage_by who sessions) ->
                  snd kv = snd kv')
  <-> (forall a b, In a sessions -> In b sessions ->
                   load who sessions (who a) = load who sessions (who b)).
Proof.
  split.
  - intros H a b Ha Hb.
    apply (H (who a, load who sessions (who a)) (who b, load who sessions (who b)));
      apply usage_by_load; split; auto using load_pos.
  - intros H [k c] [k' c'] Hin Hin'. simpl.
    apply usage_by_load in Hin as [-> Hc], Hin' as [-> Hc'].
    assert (G : forall k, 0 < load who sessions k -> exists a, In a sessions /\ who a = k).
    { intros x Hx. unfold load in Hx.
      assert (In x (map who sessions)) as Hi
        by (apply (count_occ_In String.string_dec); lia).
      apply in_map_iff in Hi as (a & <- & Ha). by exists a. }
    destruct (G k Hc) as (a & Ha & <-), (G k' Hc') as (b & Hb & <-). by apply H.
Qed.

Lemma usage_by_nonempty who s l : usage_by who (s :: l) <> [].
Proof.
  intros E. pose proof (usage_by_sum who (s :: l)) as H. rewrite E in H.
  simpl in H. lia.
Qed.

Lemma usage_by_pos who sessions kv : In kv (usage_by who sessions) -> 0 < snd kv.
Proof. destruct kv as [k c]. intros H. by apply usage_by_load in H as [_ H]. Qed.
End SoftScoreFacts.

Section SoftScores.
Import CSPSolver ScheduledSessionModel.

Lemma venue_utilization_facts (solution : SolutionModel.t) :
  (0 <= _calculate_venue_utilization_score solution <= 1)%Q
  /\ (SolutionModel.sessions solution <> [] ->
      ((_calculate_venue_utilization_score solution == 1)%Q
       <-> forall kv kv',
             In kv (usage_by venue_id (SolutionModel.sessions solution)) ->
             In kv' (usage_by venue_id (SolutionModel.sessions solution)) ->
             snd kv = snd kv')).
Proof.
  unfold _calculate_venue_utilization_score.
  destruct (SolutionModel.sessions solution) as [|s l] eqn:Es.
  - split; [split; discriminate|done].
  - cbv zeta.
    pose proof (usage_by_nonempty venue_id s l) as Hne.
    pose proof (usage_by_sum venue_id (s :: l)) as Hsum.
    pose proof (usage_by_pos venue_id (s :: l)) as Hpos.
    set (U := usage_by venue_id (s :: l)) in *.
    replace (Z.of_nat (length U) =? 0) with false
      by (symmetry; apply Z.eqb_neq; destruct U; [done|simpl length; lia]).
    destruct (balance_score U
                (inject_Z (Z.of_nat (length (s :: l))) / inject_Z (Z.of_nat (length U)))%Q
                (inject_Z (Z.of_nat (length (s :: l))) / inject_Z (Z.of_nat (length U)))%Q)
      as [Hb Hi]; auto.
    + by rewrite Hsum.
    + reflexivity.
Qed.

Lemma lecturer_satisfaction_facts (solution : SolutionModel.t) :
  (0 <= _calculate_lecturer_satisfaction_score solution <= 1)%Q
  /\ ((_calculate_lecturer_satisfaction_score solution == 1)%Q
      <-> forall kv kv',
            In kv (usage_by lecturer_id (SolutionModel.sessions solution)) ->
            In kv' (usage_by lecturer_id (SolutionModel.sessions solution)) ->
            snd kv = snd kv').
Proof.
  unfold _calculate_lecturer_satisfaction_score.
  destruct (SolutionModel.sessions solution) as [|s l] eqn:Es.
  - split; [split; discriminate|]. split; [by intros _ kv kv' []|reflexivity].
  - cbv zeta.
    pose proof (usage_by_nonempty lecturer_id s l) as Hne.
    pose proof (usage_by_sum lecturer_id (s :: l)) as Hsum.
    pose proof (usage_by_pos lecturer_id (s :: l)) as Hpos.
    set (U := usage_by lecturer_id (s :: l)) in *.
    destruct U as [|kv0 U0] eqn:EU; [done|]. rewrite <- EU in *.
    rewrite map_map, length_map.
    set (avg := (Qsum (map (fun kv => inject_Z (snd kv)) U)
                 / inject_Z (Z.of_nat (length U)))%Q).
    assert (Havg : (avg == inject_Z (Zsum (map snd U)) / inject_Z (Z.of_nat (length U)))%Q).
    { unfold avg. rewrite <- Qsum_inject, map_map. reflexivity. }
    assert (Hn : (0 < inject_Z (Z.of_nat (length U)))%Q).
    { rewrite <- (Zlt_Qlt 0). rewrite EU. simpl length. lia. }
    assert (Hpos_avg : (0 < avg)%Q).
    { rewrite Havg, Hsum. apply Qlt_shift_div_l; [exact Hn|]. rewrite Qmult_0_l.
      rewrite <- (Zlt_Qlt 0). simpl length. lia. }
    destruct (Qlt_le_dec 0 avg) as [_|Hle];
      [|exfalso; revert Hle; by apply Qlt_not_le].
    by destruct (balance_score U avg avg) as [Hb Hi].
Qed.

(** X6.  Venue utilization lies between 0 and 1; for a non-empty schedule it is
    1 exactly when all venues in use host the same number of sessions. *)
Theorem venue_utilization_balance (solution : SolutionModel.t) :
  (0 <= _calculate_venue_utilization_score solution <= 1)%Q
  /\ (SolutionModel.sessions solution <> [] ->
      ((_calculate_venue_utilization_score solution == 1)%Q
       <-> forall a b,
             In a (SolutionModel.sessions solution) ->
             In b (SolutionModel.sessions solution) ->
             load venue_id (SolutionModel.sessions solution) (venue_id a)
             = load venue_id (SolutionModel.sessions solution) (venue_id b))).
Proof.
  destruct (venue_utilization_facts solution) as [Hb Hi]. split; [exact Hb|].
  intros Hne. rewrite <- usage_balanced_iff. by apply Hi.
Qed.

(** X7.  Lecturer satisfaction lies between 0 and 1, and it is 1 exactly when
    all lecturers of the schedule teach the same number of sessions. *)
Theorem lecturer_satisfaction_balance (solution : SolutionModel.t) :
  (0 <= _calculate_lecturer_satisfaction_score solution <= 1)%Q
  /\ ((_calculate_lecturer_satisfaction_score solution == 1)%Q
      <-> forall a b,
            In a (SolutionModel.sessions solution) ->
            In b (SolutionModel.sessions solution) ->
            load lecturer_id (SolutionModel.sessions solution) (lecturer_id a)
            = load lecturer_id (SolutionModel.sessions solution) (lecturer_id b)).
Proof.
  destruct (lecturer_satisfaction_facts solution) as [Hb Hi]. split; [exact Hb|].
  by rewrite <- usage_balanced_iff.
Qed.
End SoftScores.

Section EfficiencyFacts.
Import CSPSolver ScheduledSessionModel.

Lemma used_slots_list sessions :
  used_slots_of sessions = list_to_set (map time_key sessions).
Proof.
  unfold used_slots_of.
  assert (G : forall l (acc : gset string),
              fold_left (fun used session => {[time_key session]} ∪ used) l acc
              = list_to_set (map time_key l) ∪ acc).
  { induction l as [|s l IH]; intros acc; simpl.
    - by rewrite union_empty_l_L.
    - rewrite IH. apply set_eq. intros x. rewrite !elem_of_union. tauto. }
  rewrite G. by rewrite union_empty_r_L.
Qed.

Lemma size_map_equiv `{Countable B} `{Countable C} {A} (f : A -> B) (g : A -> C)
  (l : list A) :
  (forall a b, f a = f b <-> g a = g b) ->
  Z.of_nat (size (list_to_set (map f l) : gset B))
  = Z.of_nat (size (list_to_set (map g l) : gset C)).
Proof.
  intros Hfg. induction l as [|x l IH] using rev_ind; [done|].
  rewrite !map_app. simpl map. rewrite !size_list_to_set_snoc, IH.
  destruct (decide (f x ∈ map f l)) as [Hin|Hin];
    rewrite list_elem_of_In, (In_map_equiv f g) in Hin by done;
    rewrite <- list_elem_of_In in Hin.
  - by rewrite decide_True.
  - by rewrite decide_False.
Qed.

Lemma used_slots_size sessions :
  Z.of_nat (size (used_slots_of sessions)) = distinct_slots sessions.
Proof.
  rewrite used_slots_list. unfold distinct_slots.
  apply size_map_equiv. intros a b. split.
  - intros E. apply time_key_inj in E as [-> ->]. reflexivity.
  - intros E. injection E as Hd Hh. unfold time_key. by rewrite Hd, Hh.
Qed.

Lemma distinct_slots_pos s l : 0 < distinct_slots (s :: l).
Proof.
  unfold distinct_slots. simpl map. rewrite list_to_set_cons.
  assert (size ({[(day_of_week s, start_hour s)]} : gset (Z * Z))
          <= size ({[(day_of_week s, start_hour s)]}
                   ∪ list_to_set (map (fun session => (day_of_week session, start_hour session)) l)
                   : gset (Z * Z)))%nat as H.
  { apply subseteq_size. apply union_subseteq_l. }
  rewrite size_singleton in H. lia.
Qed.
End EfficiencyFacts.

Section Efficiency.
Import CSPSolver ScheduledSessionModel.

Lemma efficiency_score_facts (solution : SolutionModel.t) :
  (0 <= _calculate_efficiency_score solution <= 1)%Q
  /\ (SolutionModel.sessions solution <> [] ->
      ((_calculate_efficiency_score solution == 1)%Q
       <-> 30 <= Z.of_nat (size (used_slots_of (SolutionModel.sessions solution))) <= 40)
      /\ ((_calculate_efficiency_score solution == 0)%Q
          <-> 50 <= Z.of_nat (size (used_slots_of (SolutionModel.sessions solution))))
      /\ (Z.of_nat (size (used_slots_of (SolutionModel.sessions solution))) < 30 ->
          (_calculate_efficiency_score solution
           == inject_Z (Z.of_nat (size (used_slots_of (SolutionModel.sessions solution))))
              / 30)%Q)).
Proof.
  unfold _calculate_efficiency_score.
  destruct (SolutionModel.sessions solution) as [|s l] eqn:Es.
  - split; [split; discriminate|done].
  - cbv zeta.
    pose proof (distinct_slots_pos s l) as Hpos. rewrite <- used_slots_size in Hpos.
    set (n := Z.of_nat (size (used_slots_of (s :: l)))) in *.
    assert (HposQ : (0 < inject_Z n)%Q) by (by rewrite (Zlt_Qlt 0) in Hpos).
    set (q := inject_Z n) in *.
    assert (H30 : 30 <= n <-> (30 <= q)%Q) by (unfold q; by rewrite (Zle_Qle 30)).
    assert (H40 : n <= 40 <-> (q <= 40)%Q) by (unfold q; by rewrite (Zle_Qle _ 40)).
    assert (H50 : 50 <= n <-> (50 <= q)%Q) by (unfold q; by rewrite (Zle_Qle 50)).
    assert (L30 : n < 30 <-> (q < 30)%Q) by (unfold q; by rewrite (Zlt_Qlt _ 30)).
    clearbody q. unfold Qdiv.
    change (/ 50)%Q with (1 # 50)%Q. change (/ (2 # 10))%Q with (10 # 2)%Q.
    change (/ (6 # 10))%Q with (10 # 6)%Q. change (/ 30)%Q with (1 # 30)%Q.
    destruct (Qle_bool (6 # 10) (q * (1 # 50))) eqn:E6;
      [apply Qle_bool_iff in E6 | apply Qle_bool_false in E6];
      (destruct (Qle_bool (q * (1 # 50)) (8 # 10)) eqn:E8;
        [apply Qle_bool_iff in E8 | apply Qle_bool_false in E8]);
      cbn [andb negb].
    + split; [split; discriminate|]. intros _. split; [|split].
      * split; [intros _|reflexivity]. rewrite H30, H40. split; lra.
      * split; [discriminate|]. rewrite H50. intros. exfalso. lra.
      * rewrite L30. intros. exfalso. lra.
    + unfold Qmax0.
      destruct (Q.max_spec 0 (1 - (q * (1 # 50) - (8 # 10)) * (10 # 2))) as [[Hlt E]|[Hle E]];
        rewrite E.
      * split; [split; lra|]. intros _. split; [|split].
        -- rewrite H30, H40. split; intros; exfalso; lra.
        -- rewrite H50. split; intros; exfalso; lra.
        -- rewrite L30. intros. exfalso. lra.
      * split; [split; [apply Qle_refl|discriminate]|]. intros _. split; [|split].
        -- rewrite H30, H40. split; [discriminate|]. intros. exfalso. lra.
        -- rewrite H50. split; [intros _; lra|reflexivity].
        -- rewrite L30. intros. exfalso. lra.
    + split; [split; lra|]. intros _. split; [|split].
      * rewrite H30, H40. split; intros; exfalso; lra.
      * rewrite H50. split; intros; exfalso; lra.
      * intros _. ring.
    + exfalso. lra.
Qed.

End Efficiency.

Section ConvenienceFacts.
Import CSPSolver ScheduledSessionModel.

Lemma upsert_In_cases {V} k (f : option V -> V) d k' v' :
  In (k', v') (upsert k f d) ->
  In (k', v') d
  \/ (k' = k /\ (v' = f None \/ exists v, In (k, v) d /\ v' = f (Some v))).
Proof.
  induction d as [|[k0 v0] d IH]; simpl.
  - intros [E|[]]. injection E as <- <-. right. auto.
  - destruct (String.eqb_spec k0 k) as [->|Hne]; simpl.
    + intros [E|Hin]; [|auto]. injection E as <- <-. right. split; [done|].
      right. exists v0. auto.
    + intros [E|Hin]; [auto|]. destruct (IH Hin) as [H|(-> & [H|(v & H & E)])]; auto.
      right. split; [done|]. right. exists v. auto.
Qed.

Lemma upsertZ_In_cases {V} k (f : option V -> V) d k' v' :
  In (k', v') (upsertZ k f d) ->
  In (k', v') d
  \/ (k' = k /\ (v' = f None \/ exists v, In (k, v) d /\ v' = f (Some v))).
Proof.
  induction d as [|[k0 v0] d IH]; simpl.
  - intros [E|[]]. injection E as <- <-. right. auto.
  - destruct (Z.eqb_spec k0 k) as [->|Hne]; simpl.
    + intros [E|Hin]; [|auto]. injection E as <- <-. right. split; [done|].
      right. exists v0. auto.
    + intros [E|Hin]; [auto|]. destruct (IH Hin) as [H|(-> & [H|(v & H & E)])]; auto.
      right. split; [done|]. right. exists v. auto.
Qed.

Lemma add_group_hour_clean gs seen g d h :
  clean_schedules gs seen -> ~ In (g, d, h) seen ->
  clean_schedules (add_group_hour d h gs g) (seen ++ [(g, d, h)]).
Proof.
  intros Hc Hnew g' days' d' hours' Hg Hd.
  assert (Hold : forall days, In (g', days) gs -> In (d', hours') days ->
                 NoDup hours' /\ forall x, In x hours' -> In (g', d', x) (seen ++ [(g, d, h)])).
  { intros days H1 H2. destruct (Hc _ _ _ _ H1 H2) as [Hn Hs]. split; [done|].
    intros x Hx. apply in_app_iff. left. by apply Hs. }
  assert (Hnewday : forall days0,
            (forall d0 hours0, In (d0, hours0) days0 ->
               NoDup hours0 /\ forall x, In x hours0 -> In (g, d0, x) seen) ->
            In (d', hours') (upsertZ d (fun oh => default [] oh ++ [h]) days0) ->
            NoDup hours' /\ forall x, In x hours' -> In (g, d', x) (seen ++ [(g, d, h)])).
  { intros days0 H0 Hin.
    apply upsertZ_In_cases in Hin as [Hin|(-> & [->|(hs & Hin & ->)])].
    - destruct (H0 _ _ Hin) as [Hn Hs]. split; [done|].
      intros x Hx. apply in_app_iff. left. by apply Hs.
    - simpl. split; [apply NoDup_singleton|].
      intros x [<-|[]]. apply in_app_iff. right. by left.
    - destruct (H0 _ _ Hin) as [Hn Hs]. simpl. split.
      + apply NoDup_snoc. split; [done|]. intros Hh. apply Hnew. by apply Hs.
      + intros x Hx. apply in_app_iff in Hx as [Hx|[<-|[]]]; apply in_app_iff.
        * left. by apply Hs.
        * right. by left. }
  unfold add_group_hour in Hg.
  apply upsert_In_cases in Hg as [Hg|(-> & [->|(days0 & Hg & ->)])].
  - by apply (Hold days').
  - simpl in Hd. apply (Hnewday []); [intros ? ? []|exact Hd].
  - simpl in Hd. apply (Hnewday days0); [|exact Hd].
    intros d0 hours0 H0. by apply (Hc g days0).
Qed.

Lemma fold_left_flat_map {A B C} (f : A -> C -> A) (g : B -> list C) l a :
  fold_left f (flat_map g l) a = fold_left (fun a x => fold_left f (g x) a) l a.
Proof.
  revert a. induction l as [|x l IH]; intros a; simpl; [done|].
  by rewrite fold_left_app, IH.
Qed.

Lemma fold_left_map {A B C} (f : A -> C -> A) (g : B -> C) l a :
  fold_left f (map g l) a = fold_left (fun a x => f a (g x)) l a.
Proof. revert a. induction l as [|x l IH]; intros a; simpl; [done|]. by rewrite IH. Qed.

Lemma fold_left_ext {A B} (f g : A -> B -> A) l a :
  (forall a x, f a x = g a x) -> fold_left f l a = fold_left g l a.
Proof.
  intros H. revert a. induction l as [|x l IH]; intros a; simpl; [done|].
  by rewrite H, IH.
Qed.

Lemma group_schedules_attendances sessions :
  group_schedules_of sessions
  = fold_left (fun gs '(g, d, h) => add_group_hour d h gs g) (attendances sessions) [].
Proof.
  unfold group_schedules_of, attendances. rewrite fold_left_flat_map.
  apply fold_left_ext. intros gs s. by rewrite fold_left_map.
Qed.

Lemma group_schedules_clean sessions :
  NoDup (attendances sessions) ->
  clean_schedules (group_schedules_of sessions) (attendances sessions).
Proof.
  rewrite group_schedules_attendances.
  assert (G : forall items seen gs,
              clean_schedules gs seen -> NoDup (seen ++ items) ->
              clean_schedules
                (fold_left (fun gs '(g, d, h) => add_group_hour d h gs g) items gs)
                (seen ++ items)).
  { induction items as [|[[g d] h] items IH]; intros seen gs Hc Hn; simpl.
    - by rewrite app_nil_r.
    - replace (seen ++ (g, d, h) :: items) with ((seen ++ [(g, d, h)]) ++ items) in *
        by (by rewrite <- app_assoc).
      apply IH; [|done]. apply add_group_hour_clean; [done|].
      apply NoDup_app in Hn as (Hn & _ & _). apply NoDup_snoc in Hn. tauto. }
  intros Hn. apply (G (attendances sessions) [] []); [|done].
  intros ? ? ? ? [].
Qed.

Lemma gaps_of_nonneg hours :
  StronglySorted Z.le hours -> NoDup hours -> 0 <= gaps_of hours.
Proof.
  induction hours as [|h0 [|h1 rest] IH]; intros Hs Hn; simpl; try lia.
  apply StronglySorted_inv in Hs as [Hs Hall].
  apply NoDup_cons in Hn as [Hnot Hn].
  specialize (IH Hs Hn). simpl in IH.
  apply Forall_cons_iff in Hall as [Hle _].
  assert (h0 <> h1) by (intros ->; apply Hnot; by left). lia.
Qed.

Lemma day_gap_penalty_nonneg hours : NoDup hours -> 0 <= day_gap_penalty hours.
Proof.
  intros Hn. unfold day_gap_penalty.
  destruct (1 <? Z.of_nat (length hours)); [|lia].
  apply gaps_of_nonneg.
  - apply (StronglySorted_weaken (fun a b => Z.leb a b = true)).
    + intros a b. apply Z.leb_le.
    + apply sorted_by_sorted.
      * intros x y H. apply Z.leb_gt in H. apply Z.leb_le. lia.
      * intros x y z H1 H2. apply Z.leb_le in H1, H2. apply Z.leb_le. lia.
  - by rewrite sorted_by_perm.
Qed.

Lemma Zsum_nonneg (l : list Z) : Forall (fun z => 0 <= z) l -> 0 <= Zsum l.
Proof. induction 1; simpl; lia. Qed.
End ConvenienceFacts.

Section Convenience.
Import CSPSolver ScheduledSessionModel.

Lemma student_convenience_nonneg (solution : SolutionModel.t) :
  (0 <= _calculate_student_convenience_score solution)%Q.
Proof.
  unfold _calculate_student_convenience_score.
  destruct (SolutionModel.sessions solution); [discriminate|]. cbv zeta.
  match goal with |- context [if ?b then _ else _] => destruct b end;
    [discriminate|apply Qmax0_nonneg].
Qed.

Lemma student_convenience_le_1 (solution : SolutionModel.t) :
  NoDup (attendances (SolutionModel.sessions solution)) ->
  (_calculate_student_convenience_score solution <= 1)%Q.
Proof.
  intros Hn. pose proof (group_schedules_clean _ Hn) as Hc.
  unfold _calculate_student_convenience_score.
  destruct (SolutionModel.sessions solution) as [|s l]; [apply Qle_refl|]. cbv zeta.
  set (entries := concat (map snd (group_schedules_of (s :: l)))) in *.
  destruct (Z.of_nat (length entries) =? 0) eqn:E0; [apply Qle_refl|].
  apply Z.eqb_neq in E0.
  assert (Hpen : 0 <= Zsum (map (fun dh => day_gap_penalty (snd dh)) entries)).
  { apply Zsum_nonneg, List.Forall_forall. intros z Hz.
    apply in_map_iff in Hz as ([d hours] & <- & Hin). simpl.
    apply day_gap_penalty_nonneg.
    unfold entries in Hin. apply in_concat in Hin as (days & Hdays & Hin).
    apply in_map_iff in Hdays as ([g days'] & <- & Hg). simpl in Hin.
    by destruct (Hc g days' d hours Hg Hin). }
  apply Qmax0_bounds.
  assert (Hlen : (0 < inject_Z (Z.of_nat (length entries)))%Q)
    by (rewrite <- (Zlt_Qlt 0); lia).
  assert (Havg : (0 <= inject_Z (Zsum (map (fun dh => day_gap_penalty (snd dh)) entries))
                       / inject_Z (Z.of_nat (length entries)))%Q).
  { apply Qdiv_nonneg; [|done]. by rewrite <- (Zle_Qle 0). }
  revert Havg.
  set (avg := (inject_Z (Zsum (map (fun dh => day_gap_penalty (snd dh)) entries))
               / inject_Z (Z.of_nat (length entries)))%Q).
  intros Havg. unfold Qdiv. change (/ 8)%Q with (1 # 8)%Q. lra.
Qed.

(** X9.  Student convenience is never negative.  It is at most 1 when no
    student group is listed twice at one (day, hour) - by two sessions or
    twice by one session; without that condition it can exceed 1, as it
    does for two simultaneous sessions of one group. *)
Theorem student_convenience_range (solution : SolutionModel.t) :
  (0 <= _calculate_student_convenience_score solution)%Q
  /\ (NoDup (attendances (SolutionModel.sessions solution)) ->
      (_calculate_student_convenience_score solution <= 1)%Q)
  /\ (1 < _calculate_student_convenience_score (schedule_of [crowded_a; crowded_b] true))%Q.
Proof.
  split; [apply student_convenience_nonneg|].
  split; [apply student_convenience_le_1|reflexivity].
Qed.

Lemma scores_of_hard solution :
  hard_constraints (scores_of solution)
  = hard_score_of (hard_loop (SolutionModel.sessions solution)).
Proof.
  unfold scores_of, _validate_hard_constraints.
  by destruct (SolutionModel.is_feasible solution).
Qed.

Lemma validate_score_eq solution :
  ValidationResult.score (validate_solution solution)
  = overall_score_of (scores_of solution).
Proof. reflexivity. Qed.

(** X10.  The validator's score is never negative; it is at most 0.4 for a
    solution that is not flagged feasible, and at most 1 when no student
    group is listed twice at one (day, hour).  A schedule without any
    double booking in which one group attends seven simultaneous sessions
    is valid and scores above 1. *)
Theorem validation_score_range (solution : SolutionModel.t) :
  (0 <= ValidationResult.score (validate_solution solution))%Q
  /\ (SolutionModel.is_feasible solution = false ->
      (ValidationResult.score (validate_solution solution) <= 4 # 10)%Q)
  /\ (NoDup (attendances (SolutionModel.sessions solution)) ->
      (ValidationResult.score (validate_solution solution) <= 1)%Q)
  /\ ValidationResult.is_valid (validate_solution (schedule_of simultaneous true)) = true
  /\ (1 < ValidationResult.score (validate_solution (schedule_of simultaneous true)))%Q.
Proof.
  rewrite validate_score_eq. unfold overall_score_of.
  pose proof (hard_score_bounds (SolutionModel.sessions solution)) as [Hh0 Hh1].
  rewrite <- scores_of_hard in Hh0, Hh1.
  destruct (venue_utilization_facts solution) as [[Hv0 Hv1] _].
  destruct (lecturer_satisfaction_facts solution) as [[Hl0 Hl1] _].
  destruct (efficiency_score_facts solution) as [[He0 He1] _].
  pose proof (student_convenience_nonneg solution) as Hs0.
  pose proof (student_convenience_le_1 solution) as Hs1.
  split; [|split; [|split; [|split]]].
  - unfold scores_of in *. destruct (_validate_hard_constraints solution) as [h v].
    destruct (SolutionModel.is_feasible solution);
      cbn [hard_constraints venue_utilization lecturer_satisfaction student_convenience
           overall_efficiency] in *; lra.
  - intros E. unfold scores_of in *. destruct (_validate_hard_constraints solution) as [h v].
    rewrite E in *.
    cbn [hard_constraints venue_utilization lecturer_satisfaction student_convenience
         overall_efficiency] in *; lra.
  - intros Hn. specialize (Hs1 Hn).
    unfold scores_of in *. destruct (_validate_hard_constraints solution) as [h v].
    destruct (SolutionModel.is_feasible solution);
      cbn [hard_constraints venue_utilization lecturer_satisfaction student_convenience
           overall_efficiency] in *; lra.
  - vm_compute. reflexivity.
  - vm_compute. reflexivity.
Qed.
End Convenience.

(** ** More on pattern mining *)

Section PatternOrder.
Import ConflictAnalyzer.

Lemma severity_desc_total p1 p2 : severity_desc p1 p2 = false -> severity_desc p2 p1 = true.
Proof.
  unfold severity_desc. intros H. apply Qle_bool_false in H.
  apply Qle_bool_iff. by apply Qlt_le_weak.
Qed.

Lemma severity_desc_trans p1 p2 p3 :
  severity_desc p1 p2 = true -> severity_desc p2 p3 = true -> severity_desc p1 p3 = true.
Proof.
  unfold severity_desc. rewrite !Qle_bool_iff. intros H1 H2. by apply (Qle_trans _ _ _ H2).
Qed.

Lemma severity_as_min frequency entities :
  (ConflictPattern._calculate_severity frequency entities
   == Qmin 1 (inject_Z (2 * frequency + Z.of_nat (length entities)) * (1 # 20)))%Q.
Proof.
  rewrite severity_formula. apply Q.min_compat; [reflexivity|].
  rewrite inject_Z_plus, inject_Z_mult. field.
Qed.

(** X11.  The severity of a pattern grows with its frequency and with the number
    of entities involved, never exceeds 1, is not negative for a
    non-negative frequency, and reaches 1 exactly when twice the frequency
    plus the number of entities is at least 20. *)
Theorem severity_monotone_and_saturating (frequency frequency' : Z)
  (entities entities' : list string) :
  (ConflictPattern._calculate_severity frequency entities <= 1)%Q
  /\ (0 <= frequency -> (0 <= ConflictPattern._calculate_severity frequency entities)%Q)
  /\ (frequency <= frequency' -> (length entities <= length entities')%nat ->
      (ConflictPattern._calculate_severity frequency entities
       <= ConflictPattern._calculate_severity frequency' entities')%Q)
  /\ ((ConflictPattern._calculate_severity frequency entities == 1)%Q
      <-> 20 <= 2 * frequency + Z.of_nat (length entities)).
Proof.
  rewrite !severity_as_min.
  set (k := 2 * frequency + Z.of_nat (length entities)).
  set (k' := 2 * frequency' + Z.of_nat (length entities')).
  assert (Hk : 20 <= k <-> (20 <= inject_Z k)%Q) by (by rewrite (Zle_Qle 20)).
  assert (H0 : 0 <= frequency -> (0 <= inject_Z k)%Q).
  { intros Hf. rewrite <- (Zle_Qle 0). unfold k. lia. }
  assert (H1 : frequency <= frequency' -> (length entities <= length entities')%nat ->
               (inject_Z k <= inject_Z k')%Q).
  { intros Hf He. rewrite <- Zle_Qle. unfold k, k'. lia. }
  pose proof (Q.min_spec 1 (inject_Z k * (1 # 20))) as S.
  pose proof (Q.min_spec 1 (inject_Z k' * (1 # 20))) as S'.
  set (m := Qmin 1 (inject_Z k * (1 # 20))) in *.
  set (m' := Qmin 1 (inject_Z k' * (1 # 20))) in *.
  set (q := inject_Z k) in *. set (q' := inject_Z k') in *.
  clearbody m m' q q'.
  split; [|split; [|split]].
  - destruct S as [[? ?]|[? ?]]; lra.
  - intros Hf. specialize (H0 Hf). destruct S as [[? ?]|[? ?]]; lra.
  - intros Hf He. specialize (H1 Hf He).
    destruct S as [[? ?]|[? ?]], S' as [[? ?]|[? ?]]; lra.
  - rewrite Hk. destruct S as [[? ?]|[? ?]]; split; intros; lra.
Qed.

(** X12.  The patterns are reported by non-increasing severity, and every
    reported pattern has a severity between 0.2 and 1. *)
Theorem patterns_sorted_by_severity (conflicts : list Conflict.t) :
  StronglySorted
    (fun p1 p2 => (ConflictPattern.severity_score p2 <= ConflictPattern.severity_score p1)%Q)
    (_identify_conflict_patterns conflicts)
  /\ (forall p, In p (_identify_conflict_patterns conflicts) ->
        (2 # 10 <= ConflictPattern.severity_score p <= 1)%Q).
Proof.
  split.
  - eapply StronglySorted_weaken;
      [|apply sorted_by_sorted; [apply severity_desc_total|apply severity_desc_trans]].
    intros a b H. by apply Qle_bool_iff in H.
  - intros p Hp. unfold _identify_conflict_patterns in Hp.
    apply sorted_by_In, in_app_iff in Hp.
    assert (Hf : 2 <= ConflictPattern.frequency p
                 /\ ConflictPattern.severity_score p
                    = ConflictPattern._calculate_severity (ConflictPattern.frequency p)
                        (ConflictPattern.entities p)).
    { destruct Hp as [Hp|Hp].
      - apply type_patterns_In in Hp as (kind & Hk & ->). simpl. split; [lia|done].
      - apply entity_patterns_In in Hp as (entity & He & ->). simpl. split; [lia|done]. }
    destruct Hf as [Hf ->]. rewrite severity_as_min.
    set (k := 2 * ConflictPattern.frequency p
              + Z.of_nat (length (ConflictPattern.entities p))).
    assert (4 <= k) as H0 by (unfold k; lia). rewrite (Zle_Qle 4) in H0.
    change (inject_Z 4) with 4%Q in H0.
    pose proof (Q.min_spec 1 (inject_Z k * (1 # 20))) as S.
    set (m := Qmin 1 (inject_Z k * (1 # 20))) in *.
    set (q := inject_Z k) in *. clearbody m q.
    destruct S as [[? ?]|[? ?]]; lra.
Qed.
End PatternOrder.

(** ** Grouping, dispatch and ranking *)

Section GroupingFacts.
Import ConflictAnalyzer.

Lemma kinds_in_order_snoc l c :
  kinds_in_order (l ++ [c])
  = if str_in (type_or_unknown c) (kinds_in_order l) then kinds_in_order l
    else kinds_in_order l ++ [type_or_unknown c].
Proof. unfold kinds_in_order. by rewrite fold_left_app. Qed.

Lemma kinds_in_order_spec l :
  NoDup (kinds_in_order l)
  /\ forall kind, In kind (kinds_in_order l)
                  <-> exists c, In c l /\ type_or_unknown c = kind.
Proof.
  induction l as [|c l [IHn IHi]] using rev_ind.
  - split; [constructor|]. intros kind. split; [intros []|intros (c & [] & _)].
  - rewrite kinds_in_order_snoc.
    destruct (str_in (type_or_unknown c) (kinds_in_order l)) eqn:E.
    + split; [done|]. intros kind. rewrite IHi. split.
      * intros (c' & Hin & Hk). exists c'. split; [|done]. apply in_app_iff. by left.
      * intros (c' & Hin & Hk). apply in_app_iff in Hin as [Hin|[<-|[]]].
        -- by exists c'.
        -- apply IHi. rewrite <- Hk. by apply str_in_In.
    + assert (Hnot : ~ In (type_or_unknown c) (kinds_in_order l)).
      { intros H. apply str_in_In in H. congruence. }
      split; [by apply NoDup_snoc|]. intros kind. rewrite in_app_iff, IHi. split.
      * intros [(c' & Hin & Hk)|[<-|[]]].
        -- exists c'. split; [|done]. apply in_app_iff. by left.
        -- exists c. split; [|done]. apply in_app_iff. right. by left.
      * intros (c' & Hin & Hk). apply in_app_iff in Hin as [Hin|[<-|[]]].
        -- left. by exists c'.
        -- right. by left.
Qed.

Lemma upsert_table {V} (k : string) (f : option V -> V) (F : string -> V) (D : list string) :
  NoDup D ->
  upsert k f (map (fun k' => (k', F k')) D)
  = if str_in k D
    then map (fun k' => (k', if String.eqb k' k then f (Some (F k')) else F k')) D
    else map (fun k' => (k', F k')) D ++ [(k, f None)].
Proof.
  induction D as [|k0 D IH]; intros Hn; [done|].
  apply NoDup_cons in Hn as [Hk0 Hn]. rewrite list_elem_of_In in Hk0.
  simpl map. cbn [upsert str_in existsb]. fold (str_in k D).
  rewrite (String.eqb_sym k k0).
  destruct (String.eqb_spec k0 k) as [->|Hne]; cbn [orb].
  - f_equal. apply map_ext_in. intros k' Hin.
    destruct (String.eqb_spec k' k) as [->|]; [contradiction|done].
  - rewrite (IH Hn). by destruct (str_in k D).
Qed.

Lemma of_kind_snoc kind l c :
  of_kind kind (l ++ [c])
  = of_kind kind l ++ (if String.eqb (type_or_unknown c) kind then [c] else []).
Proof. unfold of_kind. rewrite List.filter_app. simpl. by destruct (String.eqb _ _). Qed.

Lemma group_conflicts_table conflicts :
  _group_conflicts_by_type conflicts
  = map (fun kind => (kind, of_kind kind conflicts)) (kinds_in_order conflicts).
Proof.
  induction conflicts as [|c l IH] using rev_ind; [done|].
  destruct (kinds_in_order_spec l) as [Hn Hi].
  unfold _group_conflicts_by_type in *. rewrite fold_left_app. simpl. rewrite IH.
  rewrite (upsert_table _ _ (fun kind => of_kind kind l) _ Hn), kinds_in_order_snoc.
  destruct (str_in (type_or_unknown c) (kinds_in_order l)) eqn:E.
  - apply map_ext. intros kind. rewrite of_kind_snoc, (String.eqb_sym kind).
    destruct (String.eqb _ _); simpl; by rewrite ?app_nil_r.
  - rewrite map_app. simpl. f_equal.
    + apply map_ext_in. intros kind Hin. rewrite of_kind_snoc.
      destruct (String.eqb_spec (type_or_unknown c) kind) as [<-|]; [|by rewrite app_nil_r].
      apply str_in_In in Hin. congruence.
    + rewrite of_kind_snoc, String.eqb_refl.
      assert (Hempty : of_kind (type_or_unknown c) l = []).
      { unfold of_kind.
        destruct (List.filter _ l) as [|x rest] eqn:Ef; [done|]. exfalso.
        assert (Hx : In x (List.filter
                             (fun conflict =>
                                String.eqb (type_or_unknown conflict) (type_or_unknown c)) l))
          by (rewrite Ef; by left).
        apply filter_In in Hx as [Hx Hk]. apply String.eqb_eq in Hk.
        assert (In (type_or_unknown c) (kinds_in_order l)) as H by (apply Hi; by exists x).
        apply str_in_In in H. congruence. }
      by rewrite Hempty.
Qed.

Lemma fold_left_app_flat_map {A B} (h : A -> list B) (l : list A) (acc : list B) :
  fold_left (fun acc x => acc ++ h x) l acc = acc ++ flat_map h l.
Proof.
  revert acc. induction l as [|x l IH]; intros acc; simpl.
  - by rewrite app_nil_r.
  - by rewrite IH, <- app_assoc.
Qed.

Lemma flat_map_of_map {A B C} (f : B -> list C) (g : A -> B) (l : list A) :
  flat_map f (map g l) = flat_map (fun x => f (g x)) l.
Proof. induction l as [|x l IH]; simpl; [done|]. by rewrite IH. Qed.

Lemma flat_map_ext_In {A B} (f g : A -> list B) (l : list A) :
  (forall x, In x l -> f x = g x) -> flat_map f l = flat_map g l.
Proof.
  induction l as [|x l IH]; intros H; simpl; [done|].
  rewrite H by (by left). rewrite IH; [done|]. intros y Hy. apply H. by right.
Qed.

(** Adding [c] to the one entry of [k] among distinct keys adds [c] once. *)
Lemma flat_map_one_hit {B} (k : string) (c : B) (F : string -> list B) (D : list string) :
  NoDup D -> In k D ->
  Permutation
    (flat_map (fun k' => (if String.eqb k k' then [c] else []) ++ F k') D)
    (c :: flat_map F D).
Proof.
  induction D as [|k0 D IH]; intros Hn Hin; [destruct Hin|].
  apply NoDup_cons in Hn as [Hk0 Hn]. rewrite list_elem_of_In in Hk0.
  cbn [flat_map]. destruct (String.eqb_spec k k0) as [->|Hne].
  - simpl. apply Permutation_cons; [done|]. apply Permutation_app_head.
    rewrite (flat_map_ext_In _ F); [done|]. intros k' Hk'.
    destruct (String.eqb_spec k0 k') as [->|]; [contradiction|done].
  - destruct Hin as [->|Hin]; [done|]. simpl.
    rewrite (IH Hn Hin). by rewrite Permutation_middle.
Qed.

Lemma same_rank_leb s1 s2 : same_rank s1 s2 = true -> rank_leb s1 s2 = true.
Proof.
  unfold same_rank. intros H. apply andb_true_iff in H as [Hs He].
  apply Qeq_bool_iff in Hs. apply Z.eqb_eq in He.
  apply rank_leb_iff. right. split; [done|lia].
Qed.

Lemma same_rank_trans s1 s2 s3 :
  same_rank s1 s2 = true -> same_rank s2 s3 = true -> same_rank s1 s3 = true.
Proof.
  unfold same_rank. rewrite !andb_true_iff, !Qeq_bool_iff, !Z.eqb_eq.
  intros [H1 H2] [H3 H4]. split; [by rewrite H1|lia].
Qed.

Lemma same_rank_sym s1 s2 : same_rank s1 s2 = true -> same_rank s2 s1 = true.
Proof.
  unfold same_rank. rewrite !andb_true_iff, !Qeq_bool_iff, !Z.eqb_eq.
  intros [H1 H2]. split; [by symmetry|lia].
Qed.

(** A stable insertion keeps the relative order of the members of a class
    whose members do not precede each other strictly. *)
Lemma insert_by_filter {A} (leb : A -> A -> bool) (P : A -> bool) x l :
  (forall y, P x = true -> P y = true -> leb x y = true) ->
  List.filter P (insert_by leb x l) = List.filter P (x :: l).
Proof.
  intros H. induction l as [|y l IH]; [done|].
  cbn [insert_by]. destruct (leb x y) eqn:E; [done|].
  cbn [List.filter] in *. rewrite IH.
  destruct (P x) eqn:Px, (P y) eqn:Py; try done.
  rewrite H in E; done.
Qed.

Lemma sorted_by_filter {A} (leb : A -> A -> bool) (P : A -> bool) l :
  (forall x y, P x = true -> P y = true -> leb x y = true) ->
  List.filter P (sorted_by leb l) = List.filter P l.
Proof.
  intros H. induction l as [|x l IH]; [done|].
  cbn [sorted_by fold_right]. fold (sorted_by leb l).
  rewrite insert_by_filter by (intros; by apply H).
  cbn [List.filter]. by rewrite IH.
Qed.
End GroupingFacts.

Section Grouping.
Import ConflictAnalyzer.

(** X13.  Conflicts are grouped by kind, the kinds in order of first occurrence
    and each group holding the conflicts of its kind in their order; the
    kinds are distinct, and every conflict falls in exactly one group. *)
Theorem group_conflicts_by_type_spec (conflicts : list Conflict.t) :
  _group_conflicts_by_type conflicts
  = map (fun kind => (kind, of_kind kind conflicts)) (kinds_in_order conflicts)
  /\ NoDup (kinds_in_order conflicts)
  /\ (forall kind, In kind (kinds_in_order conflicts)
                   <-> exists c, In c conflicts /\ type_or_unknown c = kind)
  /\ (forall kind group, In (kind, group) (_group_conflicts_by_type conflicts) ->
        group <> [] /\ forall c, In c group <-> In c conflicts /\ type_or_unknown c = kind)
  /\ Permutation (flat_map snd (_group_conflicts_by_type conflicts)) conflicts.
Proof.
  destruct (kinds_in_order_spec conflicts) as [Hn Hi].
  split; [apply group_conflicts_table|]. split; [exact Hn|]. split; [exact Hi|].
  split.
  - rewrite group_conflicts_table. intros kind group Hin.
    apply in_map_iff in Hin as (k & E & Hk). injection E as -> <-.
    assert (Hc : forall c, In c (of_kind kind conflicts)
                           <-> In c conflicts /\ type_or_unknown c = kind).
    { intros c. unfold of_kind. rewrite filter_In, String.eqb_eq. tauto. }
    split; [|exact Hc]. apply Hi in Hk as (c & Hin & Hk).
    intros E. assert (In c (of_kind kind conflicts)) as H by (by apply Hc).
    rewrite E in H. destruct H.
  - rewrite group_conflicts_table.
    assert (G : forall l : list Conflict.t,
              (forall c, In c l -> In (type_or_unknown c) (kinds_in_order conflicts)) ->
              Permutation
                (flat_map snd (map (fun kind => (kind, of_kind kind l))
                                 (kinds_in_order conflicts))) l).
    { intros l Hl. rewrite flat_map_of_map. cbn [snd].
      induction l as [|c l IH].
      - assert (E : forall D : list string,
                    flat_map (fun kind => of_kind kind []) D = [])
          by (induction D; simpl; auto).
        by rewrite E.
      - transitivity (c :: flat_map (fun kind => of_kind kind l) (kinds_in_order conflicts)).
        + rewrite (flat_map_ext_In (fun kind => of_kind kind (c :: l))
                     (fun k' => (if String.eqb (type_or_unknown c) k' then [c] else [])
                                ++ of_kind k' l)).
          * apply flat_map_one_hit; [exact Hn|]. apply Hl. by left.
          * intros kind _. unfold of_kind. cbn [List.filter].
            by destruct (String.eqb _ _).
        + apply Permutation_cons; [done|]. apply IH. intros c' Hc'. apply Hl. by right. }
    apply G. intros c Hc. apply Hi. by exists c.
Qed.
End Grouping.

Section Dispatching.
Import ConflictAnalyzer.

Lemma In_firstn {A} (l : list A) (n : nat) x : In x (firstn n l) -> In x l.
Proof.
  intros H. rewrite <- (firstn_skipn n l). apply in_app_iff. by left.
Qed.

Lemma slice_to_In {A} (l : list A) (n : Z) x : In x (slice_to l n) -> In x l.
Proof. unfold slice_to. destruct (n <? 0); apply In_firstn. Qed.

Lemma all_suggestions_per_kind
  (g_venue g_lecturer g_group g_capacity g_equipment g_availability g_generic :
     list Conflict.t -> SolutionModel.t -> Entities.t -> list ResolutionSuggestion.t)
  (conflicts : list Conflict.t) (solution : SolutionModel.t) (entities : Entities.t) :
  all_suggestions g_venue g_lecturer g_group g_capacity g_equipment g_availability
    g_generic conflicts solution entities
  = flat_map
      (fun kind =>
         dispatch g_venue g_lecturer g_group g_capacity g_equipment g_availability
           g_generic kind (of_kind kind conflicts) solution entities)
      (kinds_in_order conflicts).
Proof.
  unfold all_suggestions. rewrite group_conflicts_table.
  rewrite (fold_left_ext _
             (fun acc x => acc ++ dispatch g_venue g_lecturer g_group g_capacity
                                    g_equipment g_availability g_generic
                                    (fst x) (snd x) solution entities))
    by (by intros acc [k cs]).
  by rewrite fold_left_app_flat_map, flat_map_of_map.
Qed.

(** X14.  Suggestions are generated kind by kind: for each kind of conflict, in
    order of first occurrence, the generator chosen for that kind is run
    once on all conflicts of the kind, and the results are concatenated.
    Every returned suggestion comes from one of these runs, and nothing is
    returned when there is no conflict. *)
Theorem suggestions_generated_per_kind
  (g_venue g_lecturer g_group g_capacity g_equipment g_availability g_generic :
     list Conflict.t -> SolutionModel.t -> Entities.t -> list ResolutionSuggestion.t)
  (conflicts : list Conflict.t) (solution : SolutionModel.t)
  (entities : Entities.t) (max_suggestions : Z) :
  all_suggestions g_venue g_lecturer g_group g_capacity g_equipment g_availability
    g_generic conflicts solution entities
  = flat_map
      (fun kind =>
         dispatch g_venue g_lecturer g_group g_capacity g_equipment g_availability
           g_generic kind (of_kind kind conflicts) solution entities)
      (kinds_in_order conflicts)
  /\ (forall s,
        In s (generate_resolution_suggestions g_venue g_lecturer g_group g_capacity
                g_equipment g_availability g_generic conflicts solution entities
                max_suggestions) ->
        exists kind,
          In kind (kinds_in_order conflicts)
          /\ In s (dispatch g_venue g_lecturer g_group g_capacity g_equipment
                     g_availability g_generic kind (of_kind kind conflicts)
                     solution entities))
  /\ generate_resolution_suggestions g_venue g_lecturer g_group g_capacity
       g_equipment g_availability g_generic [] solution entities max_suggestions
     = [].
Proof.
  pose proof (all_suggestions_per_kind g_venue g_lecturer g_group g_capacity g_equipment
                g_availability g_generic conflicts solution entities) as E.
  split; [exact E|]. split.
  - intros s Hs. unfold generate_resolution_suggestions in Hs.
    apply slice_to_In in Hs. unfold _rank_suggestions in Hs.
    apply sorted_by_In in Hs. rewrite E in Hs.
    apply in_flat_map in Hs as (kind & Hk & Hs). by exists kind.
  - unfold generate_resolution_suggestions, slice_to. simpl.
    destruct (max_suggestions <? 0); by rewrite firstn_nil.
Qed.

(** X15.  The ranking is stable: suggestions with the same score and the same
    effort rank keep the order in which they were generated. *)
Theorem ranking_is_stable (suggestions : list ResolutionSuggestion.t)
  (conflicts : list Conflict.t) (solution : SolutionModel.t)
  (s : ResolutionSuggestion.t) :
  List.filter (same_rank s) (_rank_suggestions suggestions conflicts solution)
  = List.filter (same_rank s) suggestions.
Proof.
  unfold _rank_suggestions. apply sorted_by_filter.
  intros x y Hx Hy. apply same_rank_leb.
  apply (same_rank_trans x s y); [by apply same_rank_sym|done].
Qed.
End Dispatching.

(** ** More on the suggestion evaluator *)

Section EvaluatorMore.
Import ConflictAnalyzer.

(** X16.  The risk level is "high" exactly when two of the three conditions
    high effort, more than three affected sessions and confidence below
    0.6 hold: when all three hold the level is "medium" again.  It is "low"
    exactly when none of these and no complex resolution type is present.
    There is one risk factor for each condition that holds and one
    mitigation for each of the first three. *)
Theorem risk_level_spec (suggestion : ResolutionSuggestion.t)
  (conflicts : list Conflict.t) :
  (level (_assess_suggestion_risk suggestion conflicts) = "high"
   <-> (Nat.b2n (effort_is_high suggestion) + Nat.b2n (many_sessions suggestion)
        + Nat.b2n (low_confidence suggestion) = 2)%nat)
  /\ (level (_assess_suggestion_risk suggestion conflicts) = "low"
      <-> effort_is_high suggestion || many_sessions suggestion
          || low_confidence suggestion || complex_type suggestion = false)
  /\ (level (_assess_suggestion_risk suggestion conflicts) = "high"
      \/ level (_assess_suggestion_risk suggestion conflicts) = "medium"
      \/ level (_assess_suggestion_risk suggestion conflicts) = "low")
  /\ (effort_is_high suggestion && many_sessions suggestion
      && low_confidence suggestion = true ->
      level (_assess_suggestion_risk suggestion conflicts) = "medium")
  /\ length (factors (_assess_suggestion_risk suggestion conflicts))
     = (Nat.b2n (effort_is_high suggestion) + Nat.b2n (many_sessions suggestion)
        + Nat.b2n (low_confidence suggestion) + Nat.b2n (complex_type suggestion))%nat
  /\ length (mitigation_suggestions (_assess_suggestion_risk suggestion conflicts))
     = (Nat.b2n (effort_is_high suggestion) + Nat.b2n (many_sessions suggestion)
        + Nat.b2n (low_confidence suggestion))%nat.
Proof.
  unfold _assess_suggestion_risk, effort_is_high, many_sessions, low_confidence,
    complex_type.
  destruct (String.eqb (ResolutionSuggestion.effort_level suggestion) "high");
    destruct (3 <? length (ResolutionSuggestion.affected_sessions suggestion))%nat;
    destruct (Qle_bool (6 # 10) (ResolutionSuggestion.confidence suggestion));
    destruct (str_in (ResolutionSuggestion.resolution_type suggestion)
                ["split_group"; "reassign_lecturer"]);
    vm_compute; repeat split; intros; try discriminate; try lia; auto.
Qed.

Lemma feasibility_bounds suggestion entities :
  (3#10 <= _calculate_feasibility_score suggestion entities <= 8#10)%Q
  /\ (ResolutionSuggestion.effort_level suggestion = "high" ->
      (_calculate_feasibility_score suggestion entities <= 6#10)%Q).
Proof.
  unfold _calculate_feasibility_score. cbv zeta.
  set (base := if String.eqb (ResolutionSuggestion.resolution_type suggestion) "reassign_venue"
               then _ else _).
  assert (Hb : (5#10 <= base <= 8#10)%Q).
  { unfold base.
    repeat match goal with |- context [if ?b then _ else _] => destruct b end;
      split; lra. }
  clearbody base.
  destruct (String.eqb_spec (ResolutionSuggestion.effort_level suggestion) "low") as [El|El].
  - rewrite clamp01_id by lra. split; [lra|]. rewrite El. discriminate.
  - destruct (String.eqb_spec (ResolutionSuggestion.effort_level suggestion) "medium")
      as [Em|Em].
    + rewrite clamp01_id by lra. split; [lra|]. rewrite Em. discriminate.
    + destruct (String.eqb_spec (ResolutionSuggestion.effort_level suggestion) "high")
        as [Eh|Eh].
      * rewrite clamp01_id by lra. split; [lra|]. intros _. lra.
      * rewrite clamp01_id by lra. split; [lra|]. done.
Qed.

Lemma impact_bounds suggestion conflicts solution :
  (6#10 <= _calculate_impact_score suggestion conflicts solution <= 1)%Q
  /\ (ResolutionSuggestion.effort_level suggestion = "high" ->
      (_calculate_impact_score suggestion conflicts solution <= 9#10)%Q).
Proof.
  unfold _calculate_impact_score. cbv zeta.
  set (k := Z.of_nat (length (List.filter _ conflicts))).
  set (base := if 1 <? k then _ else _).
  assert (Hb : (7#10 <= base <= 1)%Q).
  { unfold base. destruct (1 <? k) eqn:E; [|split; lra].
    apply Z.ltb_lt in E.
    assert (Hk : (2 <= inject_Z k)%Q) by (rewrite <- (Zle_Qle 2); lia).
    pose proof (Q.min_spec (3#10) (inject_Z k * (1#10))) as S.
    set (m := Qmin (3#10) (inject_Z k * (1#10))) in *.
    set (q := inject_Z k) in *. clearbody m q.
    destruct S as [[? ?]|[? ?]]; split; lra. }
  clearbody base.
  destruct (String.eqb_spec (ResolutionSuggestion.effort_level suggestion) "high") as [E|E].
  - rewrite clamp01_id by lra. split; [lra|]. intros _. lra.
  - rewrite clamp01_id by lra. split; [lra|done].
Qed.


(** X17.  The components of an evaluation have fixed ranges: feasibility lies
    between 0.3 and 0.8, impact between 0.6 and 1, the effort score between
    0.3 and 0.9 and the overall score between 0 and 1; the weighted sum
    exceeds 0.4 times the suggestion's score by at least 0.24 and at most
    0.53. *)
Theorem evaluation_component_ranges (suggestion : ResolutionSuggestion.t)
  (conflicts : list Conflict.t) (solution : SolutionModel.t) (entities : Entities.t) :
  (3#10 <= feasibility_score
             (evaluate_suggestion_quality suggestion conflicts solution entities)
   <= 8#10)%Q
  /\ (6#10 <= impact_score
                (evaluate_suggestion_quality suggestion conflicts solution entities)
      <= 1)%Q
  /\ (3#10 <= effort_score
                (evaluate_suggestion_quality suggestion conflicts solution entities)
      <= 9#10)%Q
  /\ (0 <= overall_score
             (evaluate_suggestion_quality suggestion conflicts solution entities)
      <= 1)%Q
  /\ ((4#10) * ResolutionSuggestion.score suggestion + (24#100)
      <= weighted_overall (ResolutionSuggestion.score suggestion)
           (_calculate_feasibility_score suggestion entities)
           (_calculate_impact_score suggestion conflicts solution)
           (effort_score_of (ResolutionSuggestion.effort_level suggestion))
      <= (4#10) * ResolutionSuggestion.score suggestion + (53#100))%Q.
Proof.
  destruct (feasibility_bounds suggestion entities) as [Hf _].
  destruct (impact_bounds suggestion conflicts solution) as [Hi _].
  pose proof (effort_score_bounds (ResolutionSuggestion.effort_level suggestion)) as He.
  unfold evaluate_suggestion_quality.
  cbn [feasibility_score impact_score effort_score overall_score].
  repeat split; try tauto.
  - apply (clamp01_bounds (weighted_overall _ _ _ _)).
  - apply (clamp01_bounds (weighted_overall _ _ _ _)).
  - unfold weighted_overall. lra.
  - unfold weighted_overall. lra.
Qed.



(** X19.  The confidence attached to a suggestion lies between 0 and 1, grows
    with the score, is the score itself for a low-effort suggestion with a
    score between 0 and 1, and is lowered by the effort: "medium" costs
    0.1 and "high" costs 0.2 (for scores up to 1 that are at least the
    cost), and any unknown effort label counts as "high". *)
Theorem confidence_range_and_penalty (score score' : Q) (effort_level : string) :
  (0 <= ResolutionSuggestion._calculate_confidence score effort_level <= 1)%Q
  /\ ((score <= score')%Q ->
      (ResolutionSuggestion._calculate_confidence score effort_level
       <= ResolutionSuggestion._calculate_confidence score' effort_level)%Q)
  /\ ((0 <= score <= 1)%Q ->
      (ResolutionSuggestion._calculate_confidence score "low" == score)%Q)
  /\ (ResolutionSuggestion._calculate_confidence score "high"
      <= ResolutionSuggestion._calculate_confidence score "medium"
      <= ResolutionSuggestion._calculate_confidence score "low")%Q
  /\ ((1#10 <= score <= 1)%Q ->
      (ResolutionSuggestion._calculate_confidence score "medium"
       == score - (1#10))%Q)
  /\ ((2#10 <= score <= 1)%Q ->
      (ResolutionSuggestion._calculate_confidence score "high"
       == score - (2#10))%Q)
  /\ (effort_level <> "low" -> effort_level <> "medium" ->
      (ResolutionSuggestion._calculate_confidence score effort_level
       == ResolutionSuggestion._calculate_confidence score "high")%Q).
Proof.
  assert (G : forall s p,
             let c := Qmax 0 (Qmin 1 (s - p)) in
             (0 <= c <= 1)%Q
             /\ (forall s' p', (s - p <= s' - p')%Q -> (c <= Qmax 0 (Qmin 1 (s' - p')))%Q)
             /\ ((0 <= s - p <= 1)%Q -> (c == s - p)%Q)).
  { intros s p c. unfold c.
    pose proof (Q.min_spec 1 (s - p)) as S1. set (a := Qmin 1 (s - p)) in *.
    pose proof (Q.max_spec 0 a) as S2. set (b := Qmax 0 a) in *.
    split; [|split].
    - destruct S1 as [[? ?]|[? ?]], S2 as [[? ?]|[? ?]]; lra.
    - intros s' p' Hle.
      pose proof (Q.min_spec 1 (s' - p')) as S3. set (a' := Qmin 1 (s' - p')) in *.
      pose proof (Q.max_spec 0 a') as S4. set (b' := Qmax 0 a') in *.
      destruct S1 as [[? ?]|[? ?]], S2 as [[? ?]|[? ?]],
               S3 as [[? ?]|[? ?]], S4 as [[? ?]|[? ?]]; lra.
    - intros H. destruct S1 as [[? ?]|[? ?]], S2 as [[? ?]|[? ?]]; lra. }
  unfold ResolutionSuggestion._calculate_confidence. cbv zeta.
  split; [apply G|]. split; [|split; [|split; [|split; [|split]]]].
  - intros Hle. apply G. lra.
  - intros H. cbn [String.eqb Ascii.eqb Bool.eqb]. rewrite (proj2 (proj2 (G score 0%Q))); lra.
  - cbn [String.eqb Ascii.eqb Bool.eqb]. split; apply G; lra.
  - intros H. cbn [String.eqb Ascii.eqb Bool.eqb].
    rewrite (proj2 (proj2 (G score (1#10)%Q))); lra.
  - intros H. cbn [String.eqb Ascii.eqb Bool.eqb].
    rewrite (proj2 (proj2 (G score (2#10)%Q))); lra.
  - intros Hl Hm. cbn [String.eqb Ascii.eqb Bool.eqb].
    destruct (String.eqb_spec effort_level "low"); [done|].
    destruct (String.eqb_spec effort_level "medium"); [done|].
    destruct (String.eqb_spec effort_level "high"); reflexivity.
Qed.
End EvaluatorMore.

(** ** The strategy generators *)

Section GeneratorFacts.
Import ConflictAnalyzer ScheduledSessionModel.

Lemma values_by_id_In {A} (get_id : A -> string) (l : list A) v :
  In v (values_by_id get_id l) -> In v l.
Proof.
  unfold values_by_id. intros H. apply in_map_iff in H as ([k v'] & <- & H). simpl.
  assert (G : forall l d,
              In (k, v') (fold_left (fun d x => upsert (get_id x) (fun _ => x) d) l d) ->
              In (k, v') d \/ In v' l).
  { clear. induction l as [|x l IH]; intros d H; simpl in *; [by left|].
    apply IH in H as [H|H]; [|by right; right].
    apply upsert_In_cases in H as [H|(_ & [->|(v & _ & ->)])]; auto. }
  apply G in H as [[]|H]. exact H.
Qed.

Lemma alternative_venues_In session venues entities v :
  In v (_find_alternative_venues session venues entities)
  <-> In v venues
      /\ venue_suitable session (required_capacity_of session entities)
           (required_equipment_of session entities) v = true.
Proof. unfold _find_alternative_venues. by rewrite sorted_by_In, filter_In. Qed.

Lemma alternative_venues_head session venues entities v rest :
  _find_alternative_venues session venues entities = v :: rest ->
  forall other, In other (_find_alternative_venues session venues entities) ->
                Venue.capacity v <= Venue.capacity other.
Proof.
  intros E other Hin.
  pose proof (sorted_by_sorted capacity_leb capacity_leb_total capacity_leb_trans
                (List.filter (venue_suitable session (required_capacity_of session entities)
                                (required_equipment_of session entities)) venues)) as Hs.
  fold (_find_alternative_venues session venues entities) in Hs.
  rewrite E in Hs, Hin. apply StronglySorted_inv in Hs as [_ Hall].
  destruct Hin as [<-|Hin]; [lia|].
  rewrite List.Forall_forall in Hall. apply Hall in Hin.
  unfold capacity_leb in Hin. by apply Z.leb_le.
Qed.

Lemma alternative_times_kept session all_sessions time :
  In time (_find_alternative_times session all_sessions) ->
  exists day hour,
    time = time_str day hour
    /\ In (day, hour) visited_slots
    /\ slot_kept session all_sessions (day, hour) = true.
Proof.
  unfold _find_alternative_times.
  rewrite days_loop_spec by (simpl; lia). rewrite app_nil_l, kept_slots_flat.
  intros H. apply In_firstn, in_map_iff in H as ([day hour] & <- & H).
  apply filter_In in H as [Hv Hk]. exists day, hour. auto.
Qed.
End GeneratorFacts.

Section VenueGenerator.
Import ConflictAnalyzer ScheduledSessionModel.

(** X20.  What [_generate_venue_conflict_resolutions] proposes.  A conflict that
    names fewer than two scheduled sessions yields nothing.  Every
    suggestion concerns the first scheduled session [session1] that its
    conflict names, and it is either a move to a venue of the entity list
    other than the current one, large enough for the attending groups,
    with the equipment the course requires and of the smallest capacity
    among such venues, or a rescheduling to a slot (Monday to Friday, 9 to
    16) in which no session shares the venue, the lecturer or a student
    group with [session1]. *)
Theorem venue_conflict_resolutions_spec (conflicts : list Conflict.t)
  (solution : SolutionModel.t) (entities : Entities.t) :
  (forall conflict,
      (length (affected_by conflict solution) < 2)%nat ->
      venue_conflict_suggestions solution entities conflict = [])
  /\ (forall s,
        In s (_generate_venue_conflict_resolutions conflicts solution entities) ->
        exists conflict session1 session2 others,
          In conflict conflicts
          /\ affected_by conflict solution = session1 :: session2 :: others
          /\ ResolutionSuggestion.affected_sessions s = [id session1]
          /\ ((ResolutionSuggestion.resolution_type s = "reassign_venue"
               /\ exists venue,
                    ResolutionSuggestion.new_venue_id (ResolutionSuggestion.parameters s)
                    = Some (Venue.id venue)
                    /\ In venue (Entities.venues entities)
                    /\ Venue.id venue <> venue_id session1
                    /\ required_capacity_of session1 entities <= Venue.capacity venue
                    /\ (forall eq, In eq (required_equipment_of session1 entities) ->
                                   In eq (Venue.equipment venue))
                    /\ (forall other,
                          In other (values_by_id Venue.id (Entities.venues entities)) ->
                          venue_suitable session1 (required_capacity_of session1 entities)
                            (required_equipment_of session1 entities) other = true ->
                          Venue.capacity venue <= Venue.capacity other))
              \/ (ResolutionSuggestion.resolution_type s = "reschedule"
                  /\ exists day hour,
                       ResolutionSuggestion.description s
                       = "Reschedule session " +:+ course_id session1 +:+ " to "
                         +:+ time_str day hour
                       /\ 0 <= day < 5 /\ 9 <= hour < 17
                       /\ slot_kept session1 (SolutionModel.sessions solution) (day, hour)
                          = true))).
Proof.
  split.
  - intros conflict H. unfold venue_conflict_suggestions.
    destruct (affected_by conflict solution) as [|s1 [|s2 rest]]; try done.
    simpl in H. lia.
  - intros s Hs. unfold _generate_venue_conflict_resolutions in Hs.
    apply in_flat_map in Hs as (conflict & Hc & Hs).
    unfold venue_conflict_suggestions in Hs. cbv zeta in Hs.
    destruct (affected_by conflict solution) as [|session1 [|session2 others]] eqn:Ea;
      try done.
    exists conflict, session1, session2, others. split; [done|]. split; [done|].
    apply in_app_iff in Hs as [Hs|Hs].
    + destruct (_find_alternative_venues session1 _ entities) as [|venue rest] eqn:Ev;
        [done|].
      destruct Hs as [<-|[]]. split; [done|]. left. split; [done|].
      exists venue. split; [done|].
      assert (Hin : In venue (_find_alternative_venues session1
                                (values_by_id Venue.id (Entities.venues entities)) entities))
        by (rewrite Ev; by left).
      apply alternative_venues_In in Hin as [Hin Hsuit].
      apply venue_suitable_iff in Hsuit as (Hid & Hcap & Heq).
      split; [by apply values_by_id_In in Hin|]. split; [done|]. split; [done|].
      split; [done|]. intros other Ho Hso.
      apply (alternative_venues_head _ _ _ _ _ Ev). by apply alternative_venues_In.
    + destruct (_find_alternative_times session1 _) as [|time rest] eqn:Et; [done|].
      destruct Hs as [<-|[]]. split; [done|]. right. split; [done|].
      assert (Hin : In time (_find_alternative_times session1
                               (SolutionModel.sessions solution)))
        by (rewrite Et; by left).
      apply alternative_times_kept in Hin as (day & hour & -> & Hv & Hk).
      exists day, hour. apply visited_slots_In in Hv. tauto.
Qed.
End VenueGenerator.

Section ValidatorToAnalyzer.
Import ConflictAnalyzer ScheduledSessionModel CSPSolver.

Lemma double_bookings_read earlier rest :
  Forall (fun d => read_conflict d = Some (reported "venue_double_booking")
                   \/ read_conflict d = Some (reported "lecturer_double_booking"))
    (double_bookings earlier rest).
Proof.
  revert earlier. induction rest as [|s rest IH]; intros earlier; simpl; [constructor|].
  apply Forall_app. split; [|apply Forall_app; split; [|apply IH]].
  - destruct (existsb _ _); constructor; [by left|constructor].
  - destruct (existsb _ _); constructor; [by right|constructor].
Qed.

Lemma affected_by_nil conflict solution :
  Conflict.session_ids conflict = [] -> affected_by conflict solution = [].
Proof.
  intros E. unfold affected_by. rewrite E.
  induction (SolutionModel.sessions solution); simpl; auto.
Qed.

Lemma no_sessions_no_suggestions conflicts solution entities :
  Forall (fun c => Conflict.session_ids c = []) conflicts ->
  _generate_venue_conflict_resolutions conflicts solution entities = []
  /\ _generate_generic_resolutions conflicts solution entities = [].
Proof.
  unfold _generate_venue_conflict_resolutions, _generate_generic_resolutions.
  induction 1 as [|c cs Hc _ [IH1 IH2]]; [done|]. simpl. rewrite IH1, IH2.
  unfold venue_conflict_suggestions, generic_suggestions.
  by rewrite (affected_by_nil _ _ Hc).
Qed.

Lemma flat_map_all_nil {A B} (f : A -> list B) (l : list A) :
  (forall x, In x l -> f x = []) -> flat_map f l = [].
Proof.
  induction l as [|x l IH]; intros H; simpl; [done|].
  rewrite H by (by left). rewrite IH; [done|]. intros y Hy. apply H. by right.
Qed.

(** X21.  The conflicts that [validate_solution] reports cannot be resolved by
    the suggestion engine.  Each of them is read by the analyzer as a
    conflict of kind [venue_double_booking] or [lecturer_double_booking]
    that names no session (the validator stores the session under the key
    ['sessions'], the analyzer reads ['session_ids']); the first kind goes
    to the venue generator and the second, which the dispatcher does not
    know, to the generic generator, and neither proposes anything. *)
Theorem validator_conflicts_get_no_suggestions
  (g_lecturer g_group g_capacity g_equipment g_availability :
     list Conflict.t -> SolutionModel.t -> Entities.t -> list ResolutionSuggestion.t)
  (validated solution : SolutionModel.t) (entities : Entities.t) (max_suggestions : Z) :
  Forall (fun d => read_conflict d = Some (reported "venue_double_booking")
                   \/ read_conflict d = Some (reported "lecturer_double_booking"))
    (ValidationResult.conflicts (validate_solution validated))
  /\ generate_resolution_suggestions _generate_venue_conflict_resolutions g_lecturer
       g_group g_capacity g_equipment g_availability _generate_generic_resolutions
       (omap read_conflict (ValidationResult.conflicts (validate_solution validated)))
       solution entities max_suggestions
     = [].
Proof.
  destruct (validate_conflicts validated) as [-> _].
  unfold hard_loop. rewrite (hard_loop_effect _ [] hard_init hard_inv_init). simpl.
  pose proof (double_bookings_read [] (SolutionModel.sessions validated)) as Hr.
  split; [exact Hr|].
  set (conflicts := omap read_conflict (double_bookings [] (SolutionModel.sessions validated))).
  assert (Hc : forall c, In c conflicts ->
                 c = reported "venue_double_booking"
                 \/ c = reported "lecturer_double_booking").
  { intros c Hin. apply list_elem_of_In, list_elem_of_omap in Hin as (d & Hd & E).
    rewrite List.Forall_forall in Hr. apply list_elem_of_In in Hd.
    destruct (Hr d Hd) as [E'|E']; rewrite E' in E; injection E as <-; auto. }
  unfold generate_resolution_suggestions, _rank_suggestions.
  rewrite all_suggestions_per_kind, flat_map_all_nil.
  - unfold slice_to. simpl. destruct (max_suggestions <? 0); by rewrite firstn_nil.
  - intros kind Hk. apply kinds_in_order_spec in Hk as (c & Hin & <-).
    assert (Hids : Forall (fun c => Conflict.session_ids c = [])
                     (of_kind (type_or_unknown c) conflicts)).
    { apply List.Forall_forall. intros c' Hc'. unfold of_kind in Hc'.
      apply filter_In in Hc' as [Hc' _]. by destruct (Hc c' Hc') as [->| ->]. }
    destruct (no_sessions_no_suggestions _ solution entities Hids) as [Hv Hg].
    by destruct (Hc c Hin) as [->| ->].
Qed.
End ValidatorToAnalyzer.

Section Verdicts.
Import ConflictAnalyzer ScheduledSessionModel.

Lemma impact_when_not_high suggestion conflicts solution :
  ResolutionSuggestion.effort_level suggestion <> "high" ->
  (7#10 <= _calculate_impact_score suggestion conflicts solution <= 1)%Q
  /\ (conflicts_resolved suggestion conflicts <= 1 ->
      (_calculate_impact_score suggestion conflicts solution == 7#10)%Q)
  /\ (2 <= conflicts_resolved suggestion conflicts ->
      (9#10 <= _calculate_impact_score suggestion conflicts solution)%Q).
Proof.
  intros Hne. unfold _calculate_impact_score, conflicts_resolved. cbv zeta.
  set (k := Z.of_nat (length (List.filter _ conflicts))).
  destruct (String.eqb_spec (ResolutionSuggestion.effort_level suggestion) "high");
    [done|].
  destruct (1 <? k) eqn:E; [apply Z.ltb_lt in E|apply Z.ltb_ge in E].
  - assert (Hk : (2 <= inject_Z k)%Q) by (rewrite <- (Zle_Qle 2); lia).
    pose proof (Q.min_spec (3#10) (inject_Z k * (1#10))) as S.
    set (m := Qmin (3#10) (inject_Z k * (1#10))) in *.
    set (q := inject_Z k) in *. clearbody m q.
    assert (Hm : (2#10 <= m <= 3#10)%Q) by (destruct S as [[? ?]|[? ?]]; split; lra).
    rewrite clamp01_id by lra. split; [lra|]. split; [lia|]. intros _. lra.
  - rewrite clamp01_id by lra. split; [lra|]. split; [reflexivity|lia].
Qed.

Lemma known_venue_id entities venue :
  In venue (Entities.venues entities) ->
  known_id (map Venue.id (Entities.venues entities)) (Some (Venue.id venue)) = true.
Proof. intros H. simpl. apply str_in_In. by apply in_map. Qed.

Lemma approve_intro suggestion conflicts solution entities :
  (7#10 <= weighted_overall (ResolutionSuggestion.score suggestion)
             (_calculate_feasibility_score suggestion entities)
             (_calculate_impact_score suggestion conflicts solution)
             (effort_score_of (ResolutionSuggestion.effort_level suggestion)))%Q ->
  level (_assess_suggestion_risk suggestion conflicts) <> "high" ->
  recommendation (evaluate_suggestion_quality suggestion conflicts solution entities)
  = "approve".
Proof.
  intros Hw Hl. unfold evaluate_suggestion_quality. cbn [recommendation].
  apply Qle_bool_iff in Hw. rewrite Hw.
  by destruct (String.eqb_spec (level (_assess_suggestion_risk suggestion conflicts)) "high").
Qed.

Lemma review_intro suggestion conflicts solution entities :
  (weighted_overall (ResolutionSuggestion.score suggestion)
     (_calculate_feasibility_score suggestion entities)
     (_calculate_impact_score suggestion conflicts solution)
     (effort_score_of (ResolutionSuggestion.effort_level suggestion)) < 7#10)%Q ->
  recommendation (evaluate_suggestion_quality suggestion conflicts solution entities)
  = "review".
Proof.
  intros Hw. unfold evaluate_suggestion_quality. cbn [recommendation].
  apply Qle_bool_false in Hw. by rewrite Hw.
Qed.

(** X22.  How the evaluator judges what the generators propose, whatever the
    conflicts and the schedule it is shown.  A generic rescheduling and a
    split of student groups are never approved; a rescheduling for a
    student-group overlap and a move for missing equipment are always
    approved; a move out of a venue conflict is approved when evaluated
    with the entities it was generated from; the rescheduling out of a
    venue conflict is approved exactly when its session is named by at
    least two of the conflicts shown to the evaluator. *)
Theorem generated_suggestions_verdicts (conflicts : list Conflict.t)
  (solution : SolutionModel.t) (entities : Entities.t)
  (seen : list Conflict.t) (current : SolutionModel.t) (known : Entities.t) :
  (forall s, In s (_generate_generic_resolutions conflicts solution entities) ->
     recommendation (evaluate_suggestion_quality s seen current known) = "review")
  /\ (forall s, In s (_generate_student_group_resolutions conflicts solution entities) ->
        recommendation (evaluate_suggestion_quality s seen current known)
        = if String.eqb (ResolutionSuggestion.resolution_type s) "split_group"
          then "review" else "approve")
  /\ (forall s, In s (_generate_equipment_resolutions conflicts solution entities) ->
        recommendation (evaluate_suggestion_quality s seen current known) = "approve")
  /\ (forall s, In s (_generate_venue_conflict_resolutions conflicts solution entities) ->
        (ResolutionSuggestion.resolution_type s = "reassign_venue" ->
         recommendation (evaluate_suggestion_quality s seen current entities) = "approve")
        /\ (ResolutionSuggestion.resolution_type s = "reschedule" ->
            (recommendation (evaluate_suggestion_quality s seen current known) = "approve"
             <-> 2 <= conflicts_resolved s seen))).
Proof.
  split; [|split; [|split]].
  - intros s Hs. apply in_flat_map in Hs as (conflict & _ & Hs).
    unfold generic_suggestions in Hs.
    destruct (affected_by conflict solution) as [|session rest]; [done|].
    destruct (_find_alternative_times session _) as [|time times]; [done|].
    destruct Hs as [<-|[]]. apply review_intro.
    match goal with |- context [_calculate_impact_score ?s seen current] =>
      destruct (impact_when_not_high s seen current) as [[Hi0 Hi1] _]; [done|];
      set (i := _calculate_impact_score s seen current) in *
    end.
    match goal with |- context [_calculate_feasibility_score ?s known] =>
      assert (Ef : (_calculate_feasibility_score s known == 7#10)%Q)
        by (vm_compute; reflexivity);
      set (f := _calculate_feasibility_score s known) in *
    end.
    clearbody i f. unfold weighted_overall. cbn. lra.
  - intros s Hs. apply in_flat_map in Hs as (conflict & _ & Hs).
    unfold student_group_suggestions in Hs.
    destruct (affected_by conflict solution) as [|session rest]; [done|].
    apply in_app_iff in Hs as [Hs|Hs].
    + destruct (_find_alternative_times session _) as [|time times]; [done|].
      destruct Hs as [<-|[]]. cbn [ResolutionSuggestion.resolution_type ResolutionSuggestion.make String.eqb Ascii.eqb Bool.eqb].
      apply approve_intro; [|vm_compute; discriminate].
      match goal with |- context [_calculate_impact_score ?s seen current] =>
        destruct (impact_when_not_high s seen current) as [[Hi0 Hi1] _]; [done|];
        set (i := _calculate_impact_score s seen current) in *
      end.
      match goal with |- context [_calculate_feasibility_score ?s known] =>
        assert (Ef : (_calculate_feasibility_score s known == 7#10)%Q)
          by (vm_compute; reflexivity);
        set (f := _calculate_feasibility_score s known) in *
      end.
      clearbody i f. unfold weighted_overall. cbn. lra.
    + destruct (1 <? length (student_groups session))%nat; [|done].
      destruct Hs as [<-|[]]. cbn [ResolutionSuggestion.resolution_type ResolutionSuggestion.make String.eqb Ascii.eqb Bool.eqb].
      apply review_intro.
      match goal with |- context [_calculate_impact_score ?s seen current] =>
        destruct (impact_bounds s seen current) as [_ Hi]; specialize (Hi eq_refl);
        set (i := _calculate_impact_score s seen current) in *
      end.
      match goal with |- context [_calculate_feasibility_score ?s known] =>
        assert (Ef : (_calculate_feasibility_score s known == 6#10)%Q)
          by (vm_compute; reflexivity);
        set (f := _calculate_feasibility_score s known) in *
      end.
      clearbody i f. unfold weighted_overall. cbn. lra.
  - intros s Hs. apply in_flat_map in Hs as (conflict & _ & Hs).
    unfold equipment_suggestions in Hs. cbv zeta in Hs.
    destruct (affected_by conflict solution) as [|session rest]; [done|].
    destruct (lookup_by_id Course.id _ _) as [course|]; [|done].
    destruct (equipped_venues session _ _) as [|best_venue others]; [done|].
    destruct Hs as [<-|[]]. apply approve_intro; [|vm_compute; discriminate].
    match goal with |- context [_calculate_impact_score ?s seen current] =>
      destruct (impact_when_not_high s seen current) as [[Hi0 Hi1] _]; [done|];
      set (i := _calculate_impact_score s seen current) in *
    end.
    match goal with |- context [_calculate_feasibility_score ?s known] =>
      destruct (feasibility_bounds s known) as [_ _];
      assert (Ef : (5#10 <= _calculate_feasibility_score s known)%Q);
      [|set (f := _calculate_feasibility_score s known) in *]
    end.
    { unfold _calculate_feasibility_score. cbn.
      destruct (negb _); vm_compute; discriminate. }
    clearbody i f. unfold weighted_overall. cbn. lra.
  - intros s Hs. apply in_flat_map in Hs as (conflict & _ & Hs).
    unfold venue_conflict_suggestions in Hs. cbv zeta in Hs.
    destruct (affected_by conflict solution) as [|session1 [|session2 rest]]; try done.
    apply in_app_iff in Hs as [Hs|Hs].
    + destruct (_find_alternative_venues session1 _ entities) as [|venue others] eqn:Ev;
        [done|].
      destruct Hs as [<-|[]]. split; [|discriminate]. intros _.
      assert (Hin : In venue (Entities.venues entities)).
      { apply (values_by_id_In Venue.id).
        apply (alternative_venues_In session1 _ entities). rewrite Ev. by left. }
      apply approve_intro; [|vm_compute; discriminate].
      match goal with |- context [_calculate_impact_score ?s seen current] =>
        destruct (impact_when_not_high s seen current) as [[Hi0 Hi1] _]; [done|];
        set (i := _calculate_impact_score s seen current) in *
      end.
      match goal with |- context [_calculate_feasibility_score ?s entities] =>
        assert (Ef : (_calculate_feasibility_score s entities == 8#10)%Q);
        [|set (f := _calculate_feasibility_score s entities) in *]
      end.
      { unfold _calculate_feasibility_score. cbn -[known_id].
        rewrite (known_venue_id _ _ Hin). vm_compute. reflexivity. }
      clearbody i f. unfold weighted_overall. cbn. lra.
    + destruct (_find_alternative_times session1 _) as [|time times]; [done|].
      destruct Hs as [<-|[]]. split; [discriminate|]. intros _.
      match goal with |- context [evaluate_suggestion_quality ?s seen current known] =>
        destruct (impact_when_not_high s seen current) as ([Hi0 Hi1] & Hle & Hge); [done|];
        assert (Ef : (_calculate_feasibility_score s known == 7#10)%Q)
          by (vm_compute; reflexivity);
        set (sg := s) in *
      end.
      destruct (Z_le_gt_dec 2 (conflicts_resolved sg seen)) as [H2|H2].
      * split; [done|]. intros _. specialize (Hge H2).
        apply approve_intro; [|vm_compute; discriminate].
        set (i := _calculate_impact_score sg seen current) in *.
        set (f := _calculate_feasibility_score sg known) in *.
        clearbody i f. unfold weighted_overall. cbn. lra.
      * split; [|lia]. intros Ha. exfalso.
        assert (Hr : recommendation (evaluate_suggestion_quality sg seen current known)
                     = "review").
        { apply review_intro. specialize (Hle ltac:(lia)).
          set (i := _calculate_impact_score sg seen current) in *.
          set (f := _calculate_feasibility_score sg known) in *.
          clearbody i f. unfold weighted_overall. cbn. lra. }
        rewrite Hr in Ha. discriminate.
Qed.
End Verdicts.

(** ** Session variables and the extracted solution *)

Section SessionKeys.
Import CSPSolver.

Lemma string_app_assoc (a b c : string) : (a +:+ b) +:+ c = a +:+ (b +:+ c).
Proof.
  induction a as [|x a IH]; [done|].
  change (String x ((a +:+ b) +:+ c) = String x (a +:+ (b +:+ c))). by f_equal.
Qed.

Lemma occurs_app (c : ascii) (a b : string) :
  occurs c (a +:+ b) = occurs c a || occurs c b.
Proof.
  induction a as [|x a IH]; [done|].
  change (Ascii.eqb x c || occurs c (a +:+ b)
          = Ascii.eqb x c || occurs c a || occurs c b).
  by rewrite IH, orb_assoc.
Qed.

(** A string is split in one way only at the last occurrence of a
    character. *)
Lemma suffix_sep_inj (c : ascii) (a a' b b' : string) :
  occurs c b = false -> occurs c b' = false ->
  a +:+ String c b = a' +:+ String c b' -> a = a' /\ b = b'.
Proof.
  intros Hb Hb'. revert a'. induction a as [|x a IH]; intros [|x' a'] E;
    cbn [String.append] in E;
    repeat match type of E with
           | context [String ?y ?s +:+ ?t] =>
               change (String y s +:+ t) with (String y (s +:+ t)) in E
           | context ["" +:+ ?t] => change ("" +:+ t) with t in E
           end.
  - injection E as E. auto.
  - injection E as E1 E2. subst x'. rewrite E2, occurs_app in Hb. simpl in Hb.
    rewrite Ascii.eqb_refl, orb_true_r in Hb. discriminate.
  - injection E as E1 E2. subst x. rewrite <- E2, occurs_app in Hb'. simpl in Hb'.
    rewrite Ascii.eqb_refl, orb_true_r in Hb'. discriminate.
  - injection E as E1 E2. subst x'. destruct (IH a' E2) as [-> ->]. auto.
Qed.

Lemma session_key_inj c i c' i' :
  session_key c i = session_key c' i' -> c = c' /\ i = i'.
Proof.
  unfold session_key. intros E.
  change ("_session_" +:+ str_int i) with ("_session" +:+ String "_" (str_int i)) in E.
  change ("_session_" +:+ str_int i') with ("_session" +:+ String "_" (str_int i')) in E.
  rewrite <- !string_app_assoc in E.
  apply suffix_sep_inj in E as [E1 E2]; try apply occurs_str_int.
  apply str_int_inj in E2.
  change "_session" with (String "_" "session") in E1.
  apply suffix_sep_inj in E1 as [E1 _]; auto.
Qed.

(** A dictionary filled with [d[K x] = x] for items on which [K] is
    injective holds every item once, under its key. *)
Lemma keyed_fold {V} (K : V -> string) (items : list V) :
  (forall x y, In x items -> In y items -> K x = K y -> x = y) ->
  NoDup (map fst (fold_left (fun d x => upsert (K x) (fun _ => x) d) items []))
  /\ forall k v,
       In (k, v) (fold_left (fun d x => upsert (K x) (fun _ => x) d) items [])
       <-> In v items /\ k = K v.
Proof.
  induction items as [|x items IH] using rev_ind; intros Hinj.
  - split; [constructor|]. intros k v. simpl. tauto.
  - destruct IH as [IHn IHi].
    { intros a b Ha Hb. apply Hinj; apply in_app_iff; by left. }
    rewrite fold_left_app. simpl.
    set (d := fold_left (fun d x => upsert (K x) (fun _ => x) d) items []) in *.
    split; [by apply (upsert_NoDup (fun _ => 0))|].
    intros k v. rewrite (upsert_In _ _ _ _ _ IHn), in_app_iff. split.
    + intros [[Hne Hin]|[-> [(v0 & _ & ->)|[_ ->]]]].
      * apply IHi in Hin as [Hin ->]. auto.
      * split; [right; by left|done].
      * split; [right; by left|done].
    + intros [[Hin|[<-|[]]] ->].
      * destruct (String.string_dec (K v) (K x)) as [E|Hne].
        -- assert (v = x) as ->.
           { apply Hinj; [apply in_app_iff; by left|apply in_app_iff; right; by left|done]. }
           right. split; [done|]. left. exists x. split; [|done]. by apply IHi.
        -- left. split; [done|]. by apply IHi.
      * right. split; [done|].
        destruct (in_dec String.string_dec (K x) (map fst d)) as [Hk|Hk].
        -- apply in_map_iff in Hk as ([k0 v0] & Ek & Hk). simpl in Ek. subst k0.
           left. by exists v0.
        -- right. split; [|done]. intros v0 Hv0. apply Hk.
           apply in_map_iff. by exists (K x, v0).
Qed.

Lemma create_variables_planned encoded :
  _create_variables encoded
  = fold_left (fun d x => upsert (session_key (fst x) (snd x)) (fun _ => x) d)
      (planned_sessions (enc_courses encoded)) [].
Proof.
  unfold _create_variables, planned_sessions. rewrite fold_left_flat_map.
  apply fold_left_ext. intros d [course frequency]. by rewrite fold_left_map.
Qed.

Lemma planned_sessions_In courses cid idx :
  In (cid, idx) (planned_sessions courses)
  <-> exists course frequency,
        In (course, frequency) courses /\ Course.id course = cid
        /\ 0 <= idx < frequency.
Proof.
  unfold planned_sessions. rewrite in_flat_map. split.
  - intros ([course frequency] & Hc & Hin). apply in_map_iff in Hin as (i & E & Hi).
    simpl in E. injection E as <- <-. apply In_range in Hi.
    exists course, frequency. simpl in Hi. auto.
  - intros (course & frequency & Hc & <- & Hi). exists (course, frequency).
    split; [done|]. apply in_map_iff. exists idx. split; [done|]. by apply In_range.
Qed.

Lemma create_variables_spec encoded :
  NoDup (map fst (_create_variables encoded))
  /\ forall key cid idx,
       In (key, (cid, idx)) (_create_variables encoded)
       <-> In (cid, idx) (planned_sessions (enc_courses encoded))
           /\ key = session_key cid idx.
Proof.
  rewrite create_variables_planned.
  destruct (keyed_fold (fun x : string * Z => session_key (fst x) (snd x))
              (planned_sessions (enc_courses encoded))) as [Hn Hi].
  { intros [c i] [c' i'] _ _ E. simpl in E. by apply session_key_inj in E as [-> ->]. }
  split; [exact Hn|]. intros key cid idx. apply (Hi key (cid, idx)).
Qed.
End SessionKeys.

Section Extraction.
Import CSPSolver ScheduledSessionModel.

Lemma NoDup_map_inj_In {A B} (f : A -> B) (l : list A) a b :
  NoDup (map f l) -> In a l -> In b l -> f a = f b -> a = b.
Proof.
  induction l as [|x l IH]; intros Hn Ha Hb E; [destruct Ha|].
  simpl in Hn. apply NoDup_cons in Hn as [Hx Hn]. rewrite list_elem_of_In in Hx.
  destruct Ha as [->|Ha], Hb as [->|Hb]; auto.
  - exfalso. apply Hx. rewrite E. by apply in_map.
  - exfalso. apply Hx. rewrite <- E. by apply in_map.
Qed.

Lemma NoDup_map_equiv_In {A B C} (f : A -> B) (g : A -> C) (l : list A) :
  (forall a b, In a l -> In b l -> f a = f b -> g a = g b) ->
  NoDup (map g l) -> NoDup (map f l).
Proof.
  induction l as [|x l IH]; intros H Hn; simpl in *; [constructor|].
  apply NoDup_cons in Hn as [Hx Hn]. apply NoDup_cons. split.
  - intros Hin. apply Hx. apply list_elem_of_In. apply list_elem_of_In in Hin.
    apply in_map_iff in Hin as (y & E & Hy). apply in_map_iff. exists y.
    split; [|done]. apply H; auto.
  - apply IH; [|done]. intros a b Ha Hb. apply H; by right.
Qed.

Lemma NoDup_filter_map {A B} (f : A -> B) (p : A -> bool) (l : list A) :
  NoDup (map f l) -> NoDup (map f (List.filter p l)).
Proof.
  induction l as [|x l IH]; intros Hn; simpl in *; [constructor|].
  apply NoDup_cons in Hn as [Hx Hn]. destruct (p x); simpl; [|by apply IH].
  apply NoDup_cons. split; [|by apply IH].
  intros Hin. apply Hx. apply list_elem_of_In. apply list_elem_of_In in Hin.
  apply in_map_iff in Hin as (y & E & Hy). apply filter_In in Hy as [Hy _].
  apply in_map_iff. by exists y.
Qed.

Lemma NoDup_range a b : NoDup (range a b).
Proof.
  unfold range.
  assert (Inj eq eq (fun i : nat => a + Z.of_nat i)) by (intros i j E; lia).
  apply (NoDup_fmap_2 (fun i : nat => a + Z.of_nat i)). apply NoDup_seq.
Qed.

Lemma length_range a b : length (range a b) = Z.to_nat (b - a).
Proof. unfold range. by rewrite length_map, length_seq. Qed.

(** Every course with a distinct id gets as many session variables as its
    frequency. *)
Lemma variables_per_course encoded course frequency :
  NoDup (map (fun c => Course.id (fst c)) (enc_courses encoded)) ->
  In (course, frequency) (enc_courses encoded) ->
  length (List.filter (fun entry => String.eqb (fst (snd entry)) (Course.id course))
            (_create_variables encoded))
  = Z.to_nat frequency.
Proof.
  intros Hids Hc. destruct (create_variables_spec encoded) as [Hn Hi].
  set (chosen := List.filter
                   (fun entry => String.eqb (fst (snd entry)) (Course.id course))
                   (_create_variables encoded)).
  assert (Hin : forall entry, In entry chosen
                  <-> exists idx, entry = (session_key (Course.id course) idx,
                                           (Course.id course, idx))
                                  /\ 0 <= idx < frequency).
  { intros [key [cid idx]]. unfold chosen. rewrite filter_In, Hi, planned_sessions_In.
    simpl. rewrite String.eqb_eq. split.
    - intros [[(course' & frequency' & Hc' & Hid & Hidx) ->] ->].
      assert ((course', frequency') = (course, frequency)) as E.
      { apply (NoDup_map_inj_In (fun c => Course.id (fst c)) (enc_courses encoded));
          auto. }
      injection E as -> ->. by exists idx.
    - intros (i & E & Hidx). injection E as -> -> ->.
      split; [|done]. split; [|done]. by exists course, frequency. }
  assert (Hperm : Permutation (map (fun entry => snd (snd entry)) chosen)
                    (range 0 frequency)).
  { apply NoDup_Permutation.
    - apply (NoDup_map_equiv_In _ fst).
      + intros a b Ha Hb E. apply Hin in Ha as (i & -> & _), Hb as (j & -> & _).
        simpl in *. by subst.
      + by apply NoDup_filter_map.
    - apply NoDup_range.
    - intros i. rewrite !list_elem_of_In, in_map_iff, In_range. split.
      + intros (entry & <- & He). apply Hin in He as (j & -> & Hj). simpl. lia.
      + intros Hidx. exists (session_key (Course.id course) i, (Course.id course, i)).
        split; [done|]. apply Hin. exists i. split; [done|lia]. }
  apply Permutation_length in Hperm.
  rewrite length_map, length_range in Hperm. rewrite Hperm. f_equal. lia.
Qed.

Lemma py_index_in_range {A} (l : list A) (i : Z) :
  0 <= i < Z.of_nat (length l) -> exists x, py_index l i = Returns x /\ In x l.
Proof.
  intros Hi. unfold py_index.
  replace (0 <=? i) with true by (symmetry; apply Z.leb_le; lia).
  replace (i <? 0) with false by (symmetry; apply Z.ltb_ge; lia).
  destruct (nth_error l (Z.to_nat i)) as [x|] eqn:E.
  - exists x. split; [done|]. by apply nth_error_In in E.
  - apply nth_error_None in E. lia.
Qed.

(** What an iteration of the extraction loop produces from in-range
    values. *)
Lemma extract_session_ok encoded value key cid idx :
  (forall k, 0 <= fst (fst (value k)) < Z.of_nat (length (enc_venues encoded))
             /\ 0 <= snd (fst (value k)) < Z.of_nat (length (enc_lecturers encoded))
             /\ 0 <= snd (value k) < Z.of_nat (length (enc_time_slots encoded))) ->
  (forall slot, In slot (enc_time_slots encoded) -> 0 <= slot_hour slot <= 22) ->
  exists session,
    extract_session encoded value (key, (cid, idx)) = Returns session
    /\ id session = key /\ course_id session = cid
    /\ In (venue_id session) (map Venue.id (enc_venues encoded))
    /\ In (lecturer_id session) (map Lecturer.id (enc_lecturers encoded))
    /\ exists slot, In slot (enc_time_slots encoded)
                    /\ day_of_week session = slot_day_of_week slot
                    /\ start_hour session = slot_hour slot.
Proof.
  intros Hv Hh. unfold extract_session. specialize (Hv key).
  destruct (value key) as [[venue_idx lecturer_idx] time_idx]. simpl in Hv.
  destruct Hv as (Hv & Hl & Ht).
  destruct (py_index_in_range _ _ Hv) as (venue & -> & Hvenue).
  destruct (py_index_in_range _ _ Hl) as (lecturer & -> & Hlecturer).
  destruct (py_index_in_range _ _ Ht) as (slot & -> & Hslot).
  specialize (Hh slot Hslot). unfold replace_hour.
  replace ((0 <=? slot_hour slot) && (slot_hour slot <=? 23)) with true
    by (symmetry; apply andb_true_iff; split; apply Z.leb_le; lia).
  replace ((0 <=? slot_hour slot + 1) && (slot_hour slot + 1 <=? 23)) with true
    by (symmetry; apply andb_true_iff; split; apply Z.leb_le; lia).
  eexists. split; [reflexivity|]. simpl.
  split; [done|]. split; [done|]. split; [by apply in_map|].
  split; [by apply in_map|]. by exists slot.
Qed.

Lemma extract_sessions_ok encoded value entries :
  (forall k, 0 <= fst (fst (value k)) < Z.of_nat (length (enc_venues encoded))
             /\ 0 <= snd (fst (value k)) < Z.of_nat (length (enc_lecturers encoded))
             /\ 0 <= snd (value k) < Z.of_nat (length (enc_time_slots encoded))) ->
  (forall slot, In slot (enc_time_slots encoded) -> 0 <= slot_hour slot <= 22) ->
  exists sessions,
    extract_sessions encoded value entries = Returns sessions
    /\ map id sessions = map fst entries
    /\ map course_id sessions = map (fun entry => fst (snd entry)) entries
    /\ forall session, In session sessions ->
         In (venue_id session) (map Venue.id (enc_venues encoded))
         /\ In (lecturer_id session) (map Lecturer.id (enc_lecturers encoded))
         /\ exists slot, In slot (enc_time_slots encoded)
                         /\ day_of_week session = slot_day_of_week slot
                         /\ start_hour session = slot_hour slot.
Proof.
  intros Hv Hh. induction entries as [|[key [cid idx]] entries IH].
  - exists []. split; [done|]. split; [done|]. split; [done|]. intros ? [].
  - destruct IH as (sessions & E & Hid & Hcid & Hall).
    destruct (extract_session_ok encoded value key cid idx Hv Hh)
      as (session & Es & Hsid & Hscid & Hrest).
    exists (session :: sessions). cbn [extract_sessions]. rewrite Es, E.
    split; [reflexivity|]. split; [simpl; by rewrite Hid, Hsid|].
    split; [simpl; by rewrite Hcid, Hscid|].
    intros s [<-|Hs]; [exact Hrest|by apply Hall].
Qed.

Lemma filter_map_length {A B} (f : A -> B) (p : B -> bool) (l : list A) :
  length (List.filter p (map f l)) = length (List.filter (fun x => p (f x)) l).
Proof. induction l as [|x l IH]; simpl; [done|]. destruct (p (f x)); simpl; by rewrite IH. Qed.

Lemma filter_by_map_length {A B} (f : A -> B) (p : B -> bool) (l : list A) :
  length (List.filter (fun x => p (f x)) l) = length (List.filter p (map f l)).
Proof. symmetry. apply filter_map_length. Qed.
End Extraction.

Section ExtractionTheorem.
Import CSPSolver ScheduledSessionModel.

(** X23.  Reading a solution back.  When the courses have distinct ids, the
    solver's values are list positions and every slot hour lies between 0
    and 22, [_extract_solution] returns a solution flagged feasible whose
    sessions have distinct ids and which holds, for every course, exactly
    as many sessions as the frequency of the course (none for a frequency
    below 1); every session is placed in a venue, with a lecturer and in a
    slot of the encoded problem, and the solution carries the validator's
    score and conflicts for its sessions. *)
Theorem extracted_sessions_match_frequency (encoded : encoded_constraints)
  (value : string -> Z * Z * Z) :
  NoDup (map (fun c => Course.id (fst c)) (enc_courses encoded)) ->
  (forall k, 0 <= fst (fst (value k)) < Z.of_nat (length (enc_venues encoded))
             /\ 0 <= snd (fst (value k)) < Z.of_nat (length (enc_lecturers encoded))
             /\ 0 <= snd (value k) < Z.of_nat (length (enc_time_slots encoded))) ->
  (forall slot, In slot (enc_time_slots encoded) -> 0 <= slot_hour slot <= 22) ->
  exists solution,
    _extract_solution encoded value = Returns solution
    /\ SolutionModel.is_feasible solution = true
    /\ NoDup (map id (SolutionModel.sessions solution))
    /\ (forall course frequency,
          In (course, frequency) (enc_courses encoded) ->
          length (List.filter
                    (fun session => String.eqb (course_id session) (Course.id course))
                    (SolutionModel.sessions solution))
          = Z.to_nat frequency)
    /\ (forall session, In session (SolutionModel.sessions solution) ->
          In (venue_id session) (map Venue.id (enc_venues encoded))
          /\ In (lecturer_id session) (map Lecturer.id (enc_lecturers encoded))
          /\ exists slot, In slot (enc_time_slots encoded)
                          /\ day_of_week session = slot_day_of_week slot
                          /\ start_hour session = slot_hour slot)
    /\ SolutionModel.score solution
       = ValidationResult.score (validate_solution solution)
    /\ SolutionModel.conflicts solution
       = ValidationResult.conflicts (validate_solution solution).
Proof.
  intros Hids Hv Hh.
  destruct (extract_sessions_ok encoded value (_create_variables encoded) Hv Hh)
    as (sessions & E & Hid & Hcid & Hall).
  unfold _extract_solution. rewrite E. cbv zeta.
  eexists. split; [reflexivity|]. cbn [SolutionModel.is_feasible SolutionModel.sessions
                                         SolutionModel.score SolutionModel.conflicts].
  split; [done|]. split; [|split; [|split; [exact Hall|split]]].
  - rewrite Hid. apply (create_variables_spec encoded).
  - intros course frequency Hc.
    rewrite (filter_by_map_length course_id
               (fun cid => String.eqb cid (Course.id course))), Hcid.
    rewrite (filter_map_length (fun entry => fst (snd entry))).
    by apply variables_per_course.
  - reflexivity.
  - destruct (validate_conflicts
                {| SolutionModel.sessions := sessions; SolutionModel.score := 0;
                   SolutionModel.is_feasible := true; SolutionModel.conflicts := [];
                   SolutionModel.metadata := [] |}) as [-> _].
    match goal with |- _ = ValidationResult.conflicts (validate_solution ?s) =>
      destruct (validate_conflicts s) as [-> _]
    end. reflexivity.
Qed.

Lemma extracted_sessions_match_frequency_witness :
  exists solution,
    _extract_solution small_problem small_assignment = Returns solution
    /\ SolutionModel.is_feasible solution = true
    /\ NoDup (map id (SolutionModel.sessions solution))
    /\ (forall course frequency,
          In (course, frequency) (enc_courses small_problem) ->
          length (List.filter
                    (fun session => String.eqb (course_id session) (Course.id course))
                    (SolutionModel.sessions solution))
          = Z.to_nat frequency)
    /\ (forall session, In session (SolutionModel.sessions solution) ->
          In (venue_id session) (map Venue.id (enc_venues small_problem))
          /\ In (lecturer_id session) (map Lecturer.id (enc_lecturers small_problem))
          /\ exists slot, In slot (enc_time_slots small_problem)
                          /\ day_of_week session = slot_day_of_week slot
                          /\ start_hour session = slot_hour slot)
    /\ SolutionModel.score solution
       = ValidationResult.score (validate_solution solution)
    /\ SolutionModel.conflicts solution
       = ValidationResult.conflicts (validate_solution solution).
Proof.
  apply (extracted_sessions_match_frequency small_problem small_assignment).
  - simpl. apply (bool_decide_unpack _). vm_compute. exact I.
  - intros k. unfold small_assignment.
    destruct (String.eqb k "c1_session_1"); [simpl; lia|].
    destruct (String.eqb k "c2_session_0"); simpl; lia.
  - intros slot [<-|[<-|[<-|[]]]]; simpl; lia.
Defined.
End ExtractionTheorem.

(** ** The three results of [solve] *)

Section SolveForms.
Import CSPSolver.
Context {World EncodedConstraints OptimizationParameters : Type}.
Variable time_time : World -> Q * World.
Variable new_model : OptimizationParameters -> M (World := World) unit.
Variable _create_variables : EncodedConstraints -> M (World := World) unit.
Variable _add_hard_constraints : EncodedConstraints -> M (World := World) unit.
Variable _add_soft_constraints :
  EncodedConstraints -> OptimizationParameters -> M (World := World) unit.
Variable _set_objective : OptimizationParameters -> M (World := World) unit.
Variable solver_Solve : M (World := World) CpStatus.
Variable _extract_solution : EncodedConstraints -> M (World := World) SolutionModel.t.

Lemma dict_get_set_same k v d : dict_get k (dict_set k v d) = Some v.
Proof.
  unfold dict_set. induction d as [|[k' v'] d IH]; simpl.
  - by rewrite String.eqb_refl.
  - destruct (String.eqb k' k) eqn:E; simpl; rewrite E; [done|exact IH].
Qed.

Lemma dict_get_set_other k k' v d :
  k <> k' -> dict_get k (dict_set k' v d) = dict_get k d.
Proof.
  intros Hne. unfold dict_set. induction d as [|[k0 v0] d IH]; simpl.
  - destruct (String.eqb_spec k' k); [congruence|done].
  - destruct (String.eqb_spec k0 k') as [->|Hne']; simpl.
    + destruct (String.eqb_spec k' k); [congruence|done].
    + destruct (String.eqb k0 k); [done|exact IH].
Qed.

(** X24.  [solve] ends in one of three ways.  Either the model was built, the
    search reported OPTIMAL or FEASIBLE and [_extract_solution] returned:
    then the result is the extracted solution - same sessions, score,
    feasibility flag and conflicts - with [solver_status] set to "optimal"
    or "feasible".  Or the search reported another status: then the result
    is the infeasible one.  Or an exception left the [try] block: then the
    result is the error one.  In each case the metadata holds the
    processing time, and a result that has sessions or is flagged feasible
    is of the first kind. *)
Theorem solve_result_forms encoded_constraints parameters w :
  exists solution w',
    solve time_time new_model _create_variables _add_hard_constraints
      _add_soft_constraints _set_objective solver_Solve _extract_solution
      encoded_constraints parameters w = (Returns solution, w')
    /\ ((exists w1 status w2 extracted,
           build_model new_model _create_variables _add_hard_constraints
             _add_soft_constraints _set_objective encoded_constraints parameters
             (snd (time_time w)) = (Returns tt, w1)
           /\ solver_Solve w1 = (Returns status, w2)
           /\ is_solved status = true
           /\ _extract_solution encoded_constraints (snd (time_time w2))
              = (Returns extracted, w')
           /\ solution = with_status extracted
                           (fst (time_time w2) - fst (time_time w))%Q status
           /\ SolutionModel.sessions solution = SolutionModel.sessions extracted
           /\ SolutionModel.score solution = SolutionModel.score extracted
           /\ SolutionModel.is_feasible solution = SolutionModel.is_feasible extracted
           /\ SolutionModel.conflicts solution = SolutionModel.conflicts extracted
           /\ dict_get "solver_status" (SolutionModel.metadata solution)
              = Some (PStr (if match status with OPTIMAL => true | _ => false end
                            then "optimal" else "feasible")))
        \/ (exists w1 status w2,
              build_model new_model _create_variables _add_hard_constraints
                _add_soft_constraints _set_objective encoded_constraints parameters
                (snd (time_time w)) = (Returns tt, w1)
              /\ solver_Solve w1 = (Returns status, w2)
              /\ is_solved status = false
              /\ solution = infeasible_solution
                              (fst (time_time w2) - fst (time_time w))%Q)
        \/ (exists e w'',
              raises_in_try time_time new_model _create_variables
                _add_hard_constraints _add_soft_constraints _set_objective
                solver_Solve _extract_solution encoded_constraints parameters
                (snd (time_time w)) e w''
              /\ solution = error_solution e
                              (fst (time_time w'') - fst (time_time w))%Q))
    /\ (exists processing_time,
          dict_get "processing_time" (SolutionModel.metadata solution)
          = Some (PNum processing_time))
    /\ (SolutionModel.sessions solution <> []
        \/ SolutionModel.is_feasible solution = true ->
        exists status extracted processing_time w2,
          is_solved status = true
          /\ _extract_solution encoded_constraints w2 = (Returns extracted, w')
          /\ solution = with_status extracted processing_time status).
Proof.
  rewrite solve_unfold.
  destruct (solve_body _ _ _ _ _ _ _ _ _ _ _ _) as [[solution|e] w'] eqn:Eb.
  - exists solution, w'. split; [reflexivity|].
    rewrite body_unfold in Eb.
    destruct (build_model _ _ _ _ _ _ _ _) as [[[]|e1] w1] eqn:Ebuild; [|done].
    destruct (solver_Solve w1) as [[status|e2] w2] eqn:Es; [|done].
    destruct (is_solved status) eqn:Eok.
    + destruct (_extract_solution encoded_constraints (snd (time_time w2)))
        as [[extracted|e3] w3] eqn:Ee; [|done].
      injection Eb as <- <-.
      split; [|split].
      * left. exists w1, status, w2, extracted. repeat split; auto.
        cbn [with_status SolutionModel.metadata]. rewrite dict_get_set_same.
        by destruct status.
      * eexists. cbn [with_status SolutionModel.metadata].
        rewrite dict_get_set_other by done. apply dict_get_set_same.
      * intros _. by exists status, extracted,
                           (fst (time_time w2) - fst (time_time w))%Q,
                           (snd (time_time w2)).
    + injection Eb as <- <-. split; [|split].
      * right. left. by exists w1, status, w2.
      * by eexists.
      * intros [H|H]; [by destruct H|discriminate].
  - eexists _, _. split; [reflexivity|]. split; [|split].
    + right. right. exists e, w'. split; [|reflexivity].
      by apply (raises_in_try_iff _ _ _ _ _ _ _ _ (fst (time_time w))).
    + by eexists.
    + intros [H|H]; [by destruct H|discriminate].
Qed.
End SolveForms.

(** ** Alternative resolution paths *)

Section AlternativesFacts.
Import ConflictAnalyzer.

Lemma sorted_by_fixed {A} (leb : A -> A -> bool) (l : list A) :
  StronglySorted (fun a b => leb a b = true) l -> sorted_by leb l = l.
Proof.
  induction 1 as [|x l Hs IH Hall]; [done|].
  cbn [sorted_by fold_right]. fold (sorted_by leb l). rewrite IH.
  destruct l as [|y l]; [done|]. cbn [insert_by].
  apply Forall_cons_iff in Hall as [Hy _]. by rewrite Hy.
Qed.

Lemma StronglySorted_firstn {A} (R : A -> A -> Prop) (l : list A) n :
  StronglySorted R l -> StronglySorted R (firstn n l).
Proof.
  intros H. revert n. induction H as [|x l Hs IH Hall]; intros [|n]; simpl;
    try constructor; auto.
  apply List.Forall_forall. intros y Hy. apply In_firstn in Hy.
  rewrite List.Forall_forall in Hall. by apply Hall.
Qed.

Lemma slice_to_sorted {A} (R : A -> A -> Prop) (l : list A) n :
  StronglySorted R l -> StronglySorted R (slice_to l n).
Proof. intros H. unfold slice_to. destruct (n <? 0); by apply StronglySorted_firstn. Qed.

Lemma paths_fold {A} (path : Z -> list A) (indices : list Z) (acc : list (list A)) :
  fold_left
    (fun alternatives i =>
       match path i with
       | [] => alternatives
       | alternative => alternatives ++ [alternative]
       end)
    indices acc
  = acc ++ List.filter (fun alternative => negb (length alternative =? 0)%nat)
             (map path indices).
Proof.
  revert acc. induction indices as [|i indices IH]; intros acc; simpl.
  - by rewrite app_nil_r.
  - rewrite IH. destruct (path i) as [|s alternative]; simpl; [done|].
    by rewrite <- app_assoc.
Qed.

Lemma In_skipn {A} (l : list A) (n : nat) x : In x (skipn n l) -> In x l.
Proof.
  intros H. rewrite <- (firstn_skipn n l). apply in_app_iff. by right.
Qed.
End AlternativesFacts.

Section AlternativesTheorem.
Import ConflictAnalyzer.

(** X25.  The alternative paths.  There are at most [num_alternatives] of them
    and none when no suggestion is generated or [num_alternatives] is not
    positive; each path is non-empty, has at most five suggestions and
    draws them from the twenty best-ranked suggestions.  The first path
    offers low-effort suggestions only; the second, sorted by score again,
    is the first five of the ranking itself; path [i >= 2] is the window of
    five that starts at position [2 i] of the ranking. *)
Theorem multiple_alternatives_spec
  (g_venue g_lecturer g_group g_capacity g_equipment g_availability g_generic :
     list Conflict.t -> SolutionModel.t -> Entities.t -> list ResolutionSuggestion.t)
  (conflicts : list Conflict.t) (solution : SolutionModel.t)
  (entities : Entities.t) (num_alternatives : Z) :
  generate_multiple_alternatives g_venue g_lecturer g_group g_capacity g_equipment
    g_availability g_generic conflicts solution entities num_alternatives
  = List.filter (fun alternative => negb (length alternative =? 0)%nat)
      (map (alternative_path
              (generate_resolution_suggestions g_venue g_lecturer g_group g_capacity
                 g_equipment g_availability g_generic conflicts solution entities 20))
         (range 0 (Z.min num_alternatives
                     (Z.of_nat (length (generate_resolution_suggestions g_venue
                                          g_lecturer g_group g_capacity g_equipment
                                          g_availability g_generic conflicts solution
                                          entities 20))))))
  /\ Z.of_nat (length (generate_multiple_alternatives g_venue g_lecturer g_group
                         g_capacity g_equipment g_availability g_generic conflicts
                         solution entities num_alternatives))
     <= Z.max 0 num_alternatives
  /\ (forall alternative,
        In alternative
          (generate_multiple_alternatives g_venue g_lecturer g_group g_capacity
             g_equipment g_availability g_generic conflicts solution entities
             num_alternatives) ->
        alternative <> [] /\ (length alternative <= 5)%nat
        /\ forall s, In s alternative ->
             In s (generate_resolution_suggestions g_venue g_lecturer g_group
                     g_capacity g_equipment g_availability g_generic conflicts
                     solution entities 20))
  /\ (forall s,
        In s (alternative_path
                (generate_resolution_suggestions g_venue g_lecturer g_group g_capacity
                   g_equipment g_availability g_generic conflicts solution entities 20)
                0) ->
        ResolutionSuggestion.effort_level s = "low")
  /\ alternative_path
       (generate_resolution_suggestions g_venue g_lecturer g_group g_capacity
          g_equipment g_availability g_generic conflicts solution entities 20) 1
     = firstn 5
         (generate_resolution_suggestions g_venue g_lecturer g_group g_capacity
            g_equipment g_availability g_generic conflicts solution entities 20)
  /\ (forall i, 2 <= i ->
        alternative_path
          (generate_resolution_suggestions g_venue g_lecturer g_group g_capacity
             g_equipment g_availability g_generic conflicts solution entities 20) i
        = firstn 5
            (skipn (Z.to_nat (2 * i))
               (generate_resolution_suggestions g_venue g_lecturer g_group
                  g_capacity g_equipment g_availability g_generic conflicts
                  solution entities 20)))
  /\ (generate_resolution_suggestions g_venue g_lecturer g_group g_capacity
        g_equipment g_availability g_generic conflicts solution entities 20 = [] ->
      generate_multiple_alternatives g_venue g_lecturer g_group g_capacity
        g_equipment g_availability g_generic conflicts solution entities
        num_alternatives = []).
Proof.
  set (ranked := generate_resolution_suggestions g_venue g_lecturer g_group g_capacity
                   g_equipment g_availability g_generic conflicts solution entities 20).
  assert (E : generate_multiple_alternatives g_venue g_lecturer g_group g_capacity
                g_equipment g_availability g_generic conflicts solution entities
                num_alternatives
              = List.filter (fun alternative => negb (length alternative =? 0)%nat)
                  (map (alternative_path ranked)
                     (range 0 (Z.min num_alternatives (Z.of_nat (length ranked)))))).
  { unfold generate_multiple_alternatives. fold ranked.
    destruct ranked as [|s0 rest] eqn:Er.
    - replace (Z.min num_alternatives (Z.of_nat (length (@nil ResolutionSuggestion.t))))
        with (Z.min num_alternatives 0) by done.
      unfold range. replace (Z.to_nat (Z.min num_alternatives 0 - 0)) with 0%nat by lia.
      reflexivity.
    - cbv zeta. by rewrite paths_fold. }
  assert (Hpath : forall i s, In s (alternative_path ranked i) -> In s ranked).
  { intros i s. unfold alternative_path.
    destruct (i =? 0); [|destruct (i =? 1)]; intros H; apply In_firstn in H.
    - by apply filter_In in H as [H _].
    - by apply sorted_by_In in H.
    - by apply In_skipn in H. }
  assert (Hlen : forall i, (length (alternative_path ranked i) <= 5)%nat).
  { intros i. unfold alternative_path.
    destruct (i =? 0); [|destruct (i =? 1)]; apply firstn_le_length. }
  split; [exact E|]. rewrite E. split; [|split; [|split; [|split; [|split]]]].
  - pose proof (filter_length_le (fun alternative => negb (length alternative =? 0)%nat)
                  (map (alternative_path ranked)
                     (range 0 (Z.min num_alternatives (Z.of_nat (length ranked)))))) as H.
    rewrite length_map, length_range in H. lia.
  - intros alternative H. apply filter_In in H as [H Hne].
    apply in_map_iff in H as (i & <- & _).
    split; [|split; [apply Hlen|apply Hpath]].
    intros E0. rewrite E0 in Hne. discriminate.
  - intros s H. unfold alternative_path in H. simpl in H.
    apply In_firstn, filter_In in H as [_ H]. by apply String.eqb_eq.
  - unfold alternative_path. simpl. f_equal. apply sorted_by_fixed.
    unfold ranked, generate_resolution_suggestions, _rank_suggestions.
    apply slice_to_sorted.
    eapply StronglySorted_weaken;
      [|apply sorted_by_sorted; [apply rank_leb_total|apply rank_leb_trans]].
    intros a b H. apply rank_leb_iff in H. unfold score_desc. apply Qle_bool_iff.
    destruct H as [H|[H _]]; [by apply Qlt_le_weak|]. rewrite H. apply Qle_refl.
  - intros i Hi. unfold alternative_path.
    destruct (Z.eqb_spec i 0); [lia|]. destruct (Z.eqb_spec i 1); [lia|].
    by replace (i * 2) with (2 * i) by lia.
  - intros E0. rewrite E0.
    replace (Z.min num_alternatives (Z.of_nat (length (@nil ResolutionSuggestion.t))))
      with (Z.min num_alternatives 0) by done.
    unfold range. by replace (Z.to_nat (Z.min num_alternatives 0 - 0)) with 0%nat by lia.
Qed.
End AlternativesTheorem.

(** ** The encoder: time grid and availability *)

Section EncoderFacts.
Import ConstraintEncoder CSPSolver.

Lemma assoc_get_upsert {V} (k k' : string) (f : option V -> V) d :
  assoc_get k (upsert k' f d)
  = if String.eqb k' k then Some (f (assoc_get k d)) else assoc_get k d.
Proof.
  unfold assoc_get. induction d as [|[k0 v0] d IH]; simpl.
  - by destruct (String.eqb k' k).
  - destruct (String.eqb_spec k0 k') as [->|Hne]; simpl.
    + by destruct (String.eqb k' k).
    + destruct (String.eqb_spec k0 k) as [->|Hne'].
      * destruct (String.eqb_spec k' k); [congruence|done].
      * exact IH.
Qed.

Lemma assoc_get_Some_iff {V} (k : string) (d : list (string * V)) :
  is_Some (assoc_get k d) <-> In k (map fst d).
Proof.
  unfold assoc_get. induction d as [|[k0 v0] d IH]; simpl.
  - split; [intros [? ?]; discriminate|intros []].
  - destruct (String.eqb_spec k0 k) as [->|Hne].
    + split; [auto|]. intros _. by eexists.
    + rewrite IH. split; [auto|]. intros [?|?]; [congruence|done].
Qed.

Lemma has_key_iff key (d : list (string * list (Z * Z))) :
  has_key key d = true <-> is_Some (assoc_get key d).
Proof.
  unfold has_key, assoc_get. induction d as [|[k0 v0] d IH]; simpl.
  - split; [discriminate|intros [? ?]; discriminate].
  - destruct (String.eqb k0 key); simpl; [|exact IH]. split; [by eexists|done].
Qed.

(** In a dictionary filled with [d[K x] = W x], the last writer of a key
    decides its value. *)
Lemma last_writer {X V} (K : X -> string) (W : X -> V) (items : list X) k :
  assoc_get k (fold_left (fun d x => upsert (K x) (fun _ => W x) d) items [])
  = option_map W (find (fun x => String.eqb (K x) k) (rev items)).
Proof.
  induction items as [|x items IH] using rev_ind; [done|].
  rewrite fold_left_app, rev_app_distr. simpl.
  rewrite assoc_get_upsert, IH. by destruct (String.eqb (K x) k).
Qed.

Lemma parse_day_key_range key : 0 <= _parse_day_key key < 5.
Proof.
  unfold _parse_day_key.
  destruct (find _ day_mapping) as [kv|] eqn:E; [|lia].
  apply find_some in E as [Hin _]. unfold day_mapping in Hin. simpl in Hin.
  repeat (destruct Hin as [<-|Hin]; [simpl; lia|]). destruct Hin.
Qed.

(** The second loop: a weekday without an entry gets the empty list. *)
Lemma fill_weekdays days : forall (d : list (string * list (Z * Z))) k,
  assoc_get k
    (fold_left
       (fun normalized day =>
          if has_key (str_int day) normalized then normalized
          else upsert (str_int day) (fun _ => []) normalized)
       days d)
  = match assoc_get k d with
    | Some v => Some v
    | None => if existsb (fun day => String.eqb (str_int day) k) days
              then Some [] else None
    end.
Proof.
  induction days as [|day days IH]; intros d k; simpl.
  - by destruct (assoc_get k d).
  - rewrite IH. destruct (has_key (str_int day) d) eqn:Eh.
    + destruct (assoc_get k d) eqn:Ek; [done|].
      destruct (String.eqb_spec (str_int day) k) as [<-|]; [|done].
      apply has_key_iff in Eh as [v Ev]. congruence.
    + rewrite assoc_get_upsert.
      destruct (String.eqb_spec (str_int day) k) as [<-|]; simpl.
      * destruct (assoc_get (str_int day) d) eqn:Ek; [|done].
        assert (has_key (str_int day) d = true) by (apply has_key_iff; by eexists).
        congruence.
      * done.
Qed.

Lemma fill_weekdays_NoDup days : forall (d : list (string * list (Z * Z))),
  NoDup (map fst d) ->
  NoDup (map fst
           (fold_left
              (fun normalized day =>
                 if has_key (str_int day) normalized then normalized
                 else upsert (str_int day) (fun _ => []) normalized)
              days d)).
Proof.
  induction days as [|day days IH]; intros d Hn; simpl; [done|].
  apply IH. destruct (has_key (str_int day) d); [done|].
  by apply (upsert_NoDup (fun _ => 0)).
Qed.

Lemma writes_NoDup {X V} (K : X -> string) (W : X -> V) (items : list X) :
  NoDup (map fst (fold_left (fun d x => upsert (K x) (fun _ => W x) d) items [])).
Proof.
  induction items as [|x items IH] using rev_ind; [constructor|].
  rewrite fold_left_app. simpl. by apply (upsert_NoDup (fun _ => 0)).
Qed.

Lemma normalize_unfold availability :
  _normalize_availability availability
  = fold_left
      (fun normalized day =>
         if has_key (str_int day) normalized then normalized
         else upsert (str_int day) (fun _ => []) normalized)
      (range 0 5)
      (fold_left
         (fun d x => upsert (str_int (_parse_day_key (fst x)))
                       (fun _ => normal_slots (snd x)) d)
         availability []).
Proof.
  unfold _normalize_availability. cbv zeta. f_equal.
  apply fold_left_ext. by intros d [k v].
Qed.

Lemma normalized_get availability k :
  assoc_get k (_normalize_availability availability)
  = match find (fun x => String.eqb (str_int (_parse_day_key (fst x))) k)
            (rev availability) with
    | Some x => Some (normal_slots (snd x))
    | None => if existsb (fun day => String.eqb (str_int day) k) (range 0 5)
              then Some [] else None
    end.
Proof.
  rewrite normalize_unfold, fill_weekdays, last_writer.
  by destruct (find _ (rev availability)).
Qed.
End EncoderFacts.

Section EncoderTheorems.
Import ConstraintEncoder CSPSolver.

Lemma find_ext_eq {A} (p q : A -> bool) (l : list A) :
  (forall x, p x = q x) -> find p l = find q l.
Proof. intros H. induction l as [|x l IH]; simpl; [done|]. by rewrite H, IH. Qed.

Lemma lower_char_idem c : lower_char (lower_char c) = lower_char c.
Proof. destruct c as [[] [] [] [] [] [] [] []]; reflexivity. Qed.

Lemma lower_idem s : lower (lower s) = lower s.
Proof.
  induction s as [|c s IH]; [done|]. cbn [lower]. by rewrite lower_char_idem, IH.
Qed.

Lemma slots_on_normalized availability day :
  slots_on (_normalize_availability availability) day
  = match last_entry_for day availability with
    | Some kv => normal_slots (snd kv)
    | None => []
    end.
Proof.
  unfold slots_on, last_entry_for. rewrite normalized_get.
  rewrite (find_ext_eq _ (fun kv => _parse_day_key (fst kv) =? day)).
  - destruct (find _ (rev availability)); [done|]. by destruct (existsb _ _).
  - intros [k v]. simpl. destruct (Z.eqb_spec (_parse_day_key k) day) as [->|Hne].
    + apply String.eqb_refl.
    + apply String.eqb_neq. intros E. by apply str_int_inj in E.
Qed.

Lemma is_available_slots_on lecturer day hour :
  is_available lecturer day hour
  = existsb (fun slot => (fst slot <=? hour) && (hour <? snd slot))
      (slots_on (Lecturer.availability lecturer) day).
Proof.
  unfold is_available, slots_on, assoc_get.
  by destruct (find _ (Lecturer.availability lecturer)).
Qed.

(** X26.  Normalised availability.  The result has exactly one entry for each of
    the weekdays 0 to 4 and no other key.  A raw key is read without regard
    to case, and a key that is not a day name or number is read as Monday.
    The slots of a day are those of the last raw entry whose key is read as
    that day - a list is kept, a single slot becomes a one-element list,
    any other value becomes 8 to 17 - and a day without a raw entry has no
    slot.  Hence a lecturer with this availability is available, for the
    solver, at a (day, hour) exactly when the last raw entry read as that
    day has a slot that starts at or before the hour and ends after it;
    with no raw entry at all the lecturer is never available. *)
Theorem normalized_availability_spec
  (availability : list (string * DayAvailability)) :
  NoDup (map fst (_normalize_availability availability))
  /\ (forall key, In key (map fst (_normalize_availability availability))
                  <-> exists day, 0 <= day < 5 /\ key = str_int day)
  /\ (forall key, 0 <= _parse_day_key key < 5
                  /\ _parse_day_key key = _parse_day_key (lower key)
                  /\ ((forall kv, In kv day_mapping -> fst kv <> lower key) ->
                      _parse_day_key key = 0))
  /\ (forall day,
        slots_on (_normalize_availability availability) day
        = match last_entry_for day availability with
          | Some kv => normal_slots (snd kv)
          | None => []
          end)
  /\ (forall lecturer day hour,
        Lecturer.availability lecturer = _normalize_availability availability ->
        is_available lecturer day hour
        = match last_entry_for day availability with
          | Some kv =>
              existsb (fun slot => (fst slot <=? hour) && (hour <? snd slot))
                (normal_slots (snd kv))
          | None => false
          end)
  /\ (forall lecturer day hour,
        Lecturer.availability lecturer = _normalize_availability [] ->
        is_available lecturer day hour = false).
Proof.
  split; [|split; [|split; [|split; [|split]]]].
  - rewrite normalize_unfold. apply fill_weekdays_NoDup, writes_NoDup.
  - intros key. rewrite <- assoc_get_Some_iff, normalized_get. split.
    + destruct (find _ (rev availability)) as [[k v]|] eqn:E.
      * intros _. apply find_some in E as [_ E]. apply String.eqb_eq in E.
        simpl in E. exists (_parse_day_key k). split; [apply parse_day_key_range|done].
      * destruct (existsb _ (range 0 5)) eqn:Ex; [|intros [? ?]; discriminate].
        intros _. apply existsb_exists in Ex as (day & Hd & Ed).
        apply String.eqb_eq in Ed. apply In_range in Hd. by exists day.
    + intros (day & Hd & ->).
      destruct (find _ (rev availability)); [by eexists|].
      replace (existsb (fun day0 => String.eqb (str_int day0) (str_int day)) (range 0 5))
        with true; [by eexists|].
      symmetry. apply existsb_exists. exists day.
      split; [by apply In_range|apply String.eqb_refl].
  - intros key. split; [apply parse_day_key_range|]. split.
    + unfold _parse_day_key. by rewrite lower_idem.
    + intros H. unfold _parse_day_key.
      destruct (find _ day_mapping) as [kv|] eqn:E; [|done].
      apply find_some in E as [Hin E]. apply String.eqb_eq in E.
      by destruct (H kv Hin).
  - apply slots_on_normalized.
  - intros lecturer day hour E.
    rewrite is_available_slots_on, E, slots_on_normalized.
    by destruct (last_entry_for day availability).
  - intros lecturer day hour E.
    rewrite is_available_slots_on, E, slots_on_normalized.
    unfold last_entry_for. reflexivity.
Qed.

(** X27.  The time grid.  [_generate_time_slots] yields the 50 slots of Monday
    to Friday, 8 to 17, day by day in ascending hours, with distinct ids;
    50 is also the number of slots that the validator's efficiency score
    assumes.  Every slot has an hour from which a session start and end can
    be built, and every slot that the analyzer's search for alternative
    times visits is a slot of the grid. *)
Theorem time_grid_spec :
  (forall slot, In slot _generate_time_slots
                <-> exists day hour, 0 <= day < 5 /\ 8 <= hour < 18
                                     /\ slot = slot_of day hour)
  /\ length _generate_time_slots = 50%nat
  /\ (forall day hour, 0 <= day < 5 -> 8 <= hour < 18 ->
        nth_error _generate_time_slots (Z.to_nat (10 * day + (hour - 8)))
        = Some (slot_of day hour))
  /\ NoDup (map slot_id _generate_time_slots)
  /\ (forall slot, In slot _generate_time_slots -> 0 <= slot_hour slot <= 22)
  /\ (forall day hour, In (day, hour) visited_slots ->
        In (slot_of day hour) _generate_time_slots).
Proof.
  assert (Hin : forall slot, In slot _generate_time_slots
                  <-> exists day hour, 0 <= day < 5 /\ 8 <= hour < 18
                                       /\ slot = slot_of day hour).
  { intros slot. unfold _generate_time_slots. rewrite in_flat_map. split.
    - intros (day & Hd & Hs). apply in_map_iff in Hs as (hour & <- & Hh).
      apply In_range in Hd, Hh. by exists day, hour.
    - intros (day & hour & Hd & Hh & ->). exists day. split; [by apply In_range|].
      apply in_map_iff. exists hour. split; [done|]. by apply In_range. }
  split; [exact Hin|]. split; [reflexivity|]. split; [|split; [|split]].
  - intros day hour Hd Hh.
    assert (Hday : In day (range 0 5)) by (by apply In_range).
    assert (Hhour : In hour (range 8 18)) by (by apply In_range).
    unfold range in Hday, Hhour. simpl in Hday, Hhour.
    repeat (destruct Hday as [<-|Hday]; [|]); try destruct Hday;
      repeat (destruct Hhour as [<-|Hhour]; [reflexivity|]); destruct Hhour.
  - apply (bool_decide_unpack _). vm_compute. exact I.
  - intros slot Hs. apply Hin in Hs as (day & hour & _ & Hh & ->). simpl. lia.
  - intros day hour Hv. apply visited_slots_In in Hv as [Hd Hh].
    apply Hin. exists day, hour. split; [done|]. split; [lia|done].
Qed.
End EncoderTheorems.

(** ** Root causes and recommendations *)

Section RootCauseFacts.
Import ConflictAnalyzer CSPSolver ScheduledSessionModel.

Lemma above_In usage avg factor k :
  In k (above usage avg factor)
  <-> exists c, In (k, c) usage /\ (avg * factor < inject_Z c)%Q.
Proof.
  unfold above. rewrite in_map_iff. split.
  - intros ([k' c] & <- & H). apply filter_In in H as [Hin Hc]. simpl in *.
    exists c. split; [done|]. apply negb_true_iff in Hc. by apply Qle_bool_false.
  - intros (c & Hin & Hc). exists (k, c). split; [done|]. apply filter_In.
    split; [done|]. simpl. apply negb_true_iff. by apply Qle_bool_false.
Qed.

(** [c > (T / n) * (p / q)] in integers. *)
Lemma above_average_iff (usage : list (string * Z)) (n : nat) (c p q : Z) :
  (0 < n)%nat -> 0 < q ->
  (average usage n * (inject_Z p / inject_Z q) < inject_Z c)%Q
  <-> p * Zsum (map snd usage) < q * c * Z.of_nat n.
Proof.
  intros Hn Hq. unfold average.
  set (T := Zsum (map snd usage)).
  assert (HnQ : (0 < inject_Z (Z.of_nat n))%Q) by (rewrite <- (Zlt_Qlt 0); lia).
  assert (HqQ : (0 < inject_Z q)%Q) by (by rewrite <- (Zlt_Qlt 0)).
  assert (Hnz : ~ (inject_Z (Z.of_nat n) == 0)%Q)
    by (intros E; rewrite E in HnQ; by apply Qlt_irrefl in HnQ).
  assert (Hqz : ~ (inject_Z q == 0)%Q)
    by (intros E; rewrite E in HqQ; by apply Qlt_irrefl in HqQ).
  assert (Hd : (0 < inject_Z q * inject_Z (Z.of_nat n))%Q).
  { rewrite <- (Qmult_0_l (inject_Z (Z.of_nat n))). by apply Qmult_lt_compat_r. }
  rewrite <- (Qmult_lt_r _ _ _ Hd).
  assert (E : (inject_Z T / inject_Z (Z.of_nat n) * (inject_Z p / inject_Z q)
               * (inject_Z q * inject_Z (Z.of_nat n))
               == inject_Z (p * T))%Q).
  { rewrite inject_Z_mult. field. by split. }
  rewrite E.
  assert (E' : (inject_Z c * (inject_Z q * inject_Z (Z.of_nat n))
                == inject_Z (q * c * Z.of_nat n))%Q).
  { rewrite !inject_Z_mult. ring. }
  rewrite E'. by rewrite <- Zlt_Qlt.
Qed.

Lemma Zsum_ge_length (usage : list (string * Z)) :
  (forall kv, In kv usage -> 0 < snd kv) ->
  Z.of_nat (length usage) <= Zsum (map snd usage).
Proof.
  induction usage as [|kv usage IH]; intros H; simpl length; simpl Zsum; [done|].
  assert (0 < snd kv) by (apply H; by left).
  assert (Z.of_nat (length usage) <= Zsum (map snd usage))
    by (apply IH; intros ? ?; apply H; by right).
  simpl. lia.
Qed.


(** The entities named by the venue block and by the lecturer block. *)
Lemma overused_iff who sessions n k :
  (0 < n)%nat ->
  In k (above (usage_by who sessions) (average (usage_by who sessions) n) (15#10))
  <-> 0 < load who sessions k
      /\ 3 * Z.of_nat (length sessions) < 2 * load who sessions k * Z.of_nat n.
Proof.
  intros Hn. rewrite above_In.
  change (15#10)%Q with (inject_Z 15 / inject_Z 10)%Q.
  split.
  - intros (c & Hin & Hc). apply usage_by_load in Hin as [-> Hpos].
    apply above_average_iff in Hc; [|done|lia]. rewrite usage_by_sum in Hc.
    split; [done|lia].
  - intros [Hpos Hc]. exists (load who sessions k). split; [by apply usage_by_load|].
    apply above_average_iff; [done|lia|]. rewrite usage_by_sum. lia.
Qed.

Lemma peak_iff sessions k :
  In k (above (usage_by time_key sessions)
          (average (usage_by time_key sessions) (length (usage_by time_key sessions))) 2)
  -> 3 <= load time_key sessions k.
Proof.
  rewrite above_In. intros (c & Hin & Hc).
  pose proof (Zsum_ge_length (usage_by time_key sessions) (usage_by_pos _ _)) as Hlen.
  assert (Hn : (0 < length (usage_by time_key sessions))%nat).
  { destruct (usage_by time_key sessions); [destruct Hin|simpl; lia]. }
  change 2%Q with (inject_Z 2 / inject_Z 1)%Q in Hc.
  apply above_average_iff in Hc; [|done|lia].
  apply usage_by_load in Hin as [-> Hpos]. nia.
Qed.
End RootCauseFacts.

Section RootCauses.
Import ConflictAnalyzer CSPSolver ScheduledSessionModel.

Lemma venue_scarcity_shape sessions venues cause :
  In cause (venue_scarcity sessions venues) ->
  venue_scarcity sessions venues = [cause]
  /\ cause_type cause = "venue_scarcity"
  /\ cause_affected_entities cause <> []
  /\ (cause_severity cause = "high" \/ cause_severity cause = "medium")
  /\ forall v, In v (cause_affected_entities cause)
               <-> 0 < load venue_id sessions v
                   /\ 3 * Z.of_nat (length sessions)
                      < 2 * load venue_id sessions v * Z.of_nat (length venues).
Proof.
  unfold venue_scarcity. cbv zeta. destruct venues as [|v0 venues]; [done|].
  set (n := length (v0 :: venues)).
  assert (Hn : (0 < n)%nat) by (unfold n; simpl; lia).
  pose proof (fun k => overused_iff venue_id sessions n k Hn) as Hiff.
  destruct (above _ _ _) as [|k ks] eqn:E; [done|].
  intros [<-|[]]. cbn [cause_type cause_affected_entities cause_severity].
  split; [done|]. split; [done|]. split; [done|].
  split; [destruct (more_than_share _ _ _); auto|]. exact Hiff.
Qed.

Lemma lecturer_overload_shape sessions lecturers cause :
  In cause (lecturer_overload sessions lecturers) ->
  lecturer_overload sessions lecturers = [cause]
  /\ cause_type cause = "lecturer_overload"
  /\ cause_affected_entities cause <> []
  /\ (cause_severity cause = "high" \/ cause_severity cause = "medium")
  /\ forall l, In l (cause_affected_entities cause)
               <-> 0 < load lecturer_id sessions l
                   /\ 3 * Z.of_nat (length sessions)
                      < 2 * load lecturer_id sessions l * Z.of_nat (length lecturers).
Proof.
  unfold lecturer_overload. cbv zeta. destruct lecturers as [|l0 lecturers]; [done|].
  set (n := length (l0 :: lecturers)).
  assert (Hn : (0 < n)%nat) by (unfold n; simpl; lia).
  pose proof (fun k => overused_iff lecturer_id sessions n k Hn) as Hiff.
  destruct (above _ _ _) as [|k ks] eqn:E; [done|].
  intros [<-|[]]. cbn [cause_type cause_affected_entities cause_severity].
  split; [done|]. split; [done|]. split; [done|].
  split; [destruct (more_than_share _ _ _); auto|]. exact Hiff.
Qed.

Lemma time_slot_congestion_shape sessions cause :
  In cause (time_slot_congestion sessions) ->
  time_slot_congestion sessions = [cause]
  /\ cause_type cause = "time_slot_congestion"
  /\ cause_affected_entities cause <> []
  /\ cause_severity cause = "medium"
  /\ forall slot, In slot (cause_affected_entities cause) ->
                  3 <= load time_key sessions slot.
Proof.
  unfold time_slot_congestion. cbv zeta.
  pose proof (peak_iff sessions) as Hpeak.
  destruct (usage_by time_key sessions) as [|kv usage] eqn:Eu; [done|].
  destruct (above _ _ _) as [|k ks] eqn:E; [done|].
  intros [<-|[]]. cbn [cause_type cause_affected_entities cause_severity].
  repeat split; auto.
Qed.



Lemma pattern_recommendation_length pattern :
  (length (pattern_recommendation pattern) <= 1)%nat.
Proof.
  unfold pattern_recommendation.
  repeat match goal with |- context [if ?b then _ else _] => destruct b end;
    simpl; lia.
Qed.

Lemma flat_map_length_le {A B} (f : A -> list B) (l : list A) (k : nat) :
  (forall x, (length (f x) <= k)%nat) ->
  (length (flat_map f l) <= k * length l)%nat.
Proof.
  intros H. induction l as [|x l IH]; simpl; [lia|].
  rewrite length_app. specialize (H x). lia.
Qed.

Lemma high_causes_length conflicts solution entities :
  (length (flat_map cause_recommendations
             (_identify_root_causes conflicts solution entities)) <= 2)%nat.
Proof.
  unfold _identify_root_causes. cbv zeta. rewrite app_nil_l, !flat_map_app, !length_app.
  assert (Hv : (length (flat_map cause_recommendations
                         (venue_scarcity (SolutionModel.sessions solution)
                            (Entities.venues entities))) <= 1)%nat).
  { destruct (venue_scarcity _ _) as [|c l] eqn:E; [simpl; lia|].
    assert (In c (venue_scarcity (SolutionModel.sessions solution)
                    (Entities.venues entities))) as H by (rewrite E; by left).
    apply venue_scarcity_shape in H as [H _]. rewrite E in H. injection H as ->.
    simpl. unfold cause_recommendations. destruct (String.eqb _ _); simpl; lia. }
  assert (Hl : (length (flat_map cause_recommendations
                         (lecturer_overload (SolutionModel.sessions solution)
                            (Entities.lecturers entities))) <= 1)%nat).
  { destruct (lecturer_overload _ _) as [|c l] eqn:E; [simpl; lia|].
    assert (In c (lecturer_overload (SolutionModel.sessions solution)
                    (Entities.lecturers entities))) as H by (rewrite E; by left).
    apply lecturer_overload_shape in H as [H _]. rewrite E in H. injection H as ->.
    simpl. unfold cause_recommendations. destruct (String.eqb _ _); simpl; lia. }
  assert (Ht : flat_map cause_recommendations
                 (time_slot_congestion (SolutionModel.sessions solution)) = []).
  { destruct (time_slot_congestion _) as [|c l] eqn:E; [done|].
    assert (In c (time_slot_congestion (SolutionModel.sessions solution))) as H
      by (rewrite E; by left).
    apply time_slot_congestion_shape in H as (H & _ & _ & Hs & _).
    rewrite E in H. injection H as ->. simpl. unfold cause_recommendations.
    by rewrite Hs. }
  rewrite Ht. simpl. lia.
Qed.

(** X29.  The recommendations of an analysis.  There are at most five; each
    comes from one of the first three patterns or is the recommendation of
    a root cause of high severity.  When the root causes are those that
    [_identify_root_causes] finds, the limit of five never cuts anything -
    at most three recommendations come from patterns and at most two from
    causes - and, congestion being of medium severity, spreading sessions
    over more time slots is recommended only if a pattern says so. *)
Theorem analysis_recommendations_spec (patterns : list ConflictPattern.t)
  (root_causes : list RootCause) (conflicts : list Conflict.t)
  (solution : SolutionModel.t) (entities : Entities.t) :
  (length (_generate_analysis_recommendations patterns root_causes) <= 5)%nat
  /\ (forall r,
        In r (_generate_analysis_recommendations patterns root_causes) ->
        (exists pattern, In pattern (firstn 3 patterns)
                         /\ In r (pattern_recommendation pattern))
        \/ (exists cause, In cause root_causes
                          /\ cause_severity cause = "high"
                          /\ r = cause_recommendation cause))
  /\ _generate_analysis_recommendations patterns
       (_identify_root_causes conflicts solution entities)
     = flat_map pattern_recommendation (firstn 3 patterns)
       ++ flat_map cause_recommendations
            (_identify_root_causes conflicts solution entities)
  /\ (forall cause,
        In cause (_identify_root_causes conflicts solution entities) ->
        cause_type cause = "time_slot_congestion" ->
        cause_recommendations cause = []).
Proof.
  split; [|split; [|split]].
  - unfold _generate_analysis_recommendations. cbv zeta. apply firstn_le_length.
  - intros r H. unfold _generate_analysis_recommendations in H. cbv zeta in H.
    apply In_firstn, in_app_iff in H as [H|H]; apply in_flat_map in H as (x & Hx & H).
    + left. by exists x.
    + right. exists x. unfold cause_recommendations in H.
      destruct (String.eqb_spec (cause_severity x) "high") as [E|]; [|done].
      destruct H as [<-|[]]. auto.
  - unfold _generate_analysis_recommendations. cbv zeta. apply firstn_all2.
    rewrite length_app.
    pose proof (flat_map_length_le pattern_recommendation (firstn 3 patterns) 1
                  pattern_recommendation_length) as Hp.
    pose proof (firstn_le_length 3 patterns) as H3.
    pose proof (high_causes_length conflicts solution entities) as Hc. lia.
  - intros cause Hin Ht. unfold _identify_root_causes in Hin. cbv zeta in Hin.
    rewrite app_nil_l in Hin. apply in_app_iff in Hin as [Hin|Hin];
      [apply in_app_iff in Hin as [Hin|Hin]|].
    + apply venue_scarcity_shape in Hin as (_ & E & _). congruence.
    + apply lecturer_overload_shape in Hin as (_ & E & _). congruence.
    + apply time_slot_congestion_shape in Hin as (_ & _ & _ & Hs & _).
      unfold cause_recommendations. by rewrite Hs.
Qed.
End RootCauses.

Section NegativeLimit.
Import ConflictAnalyzer.

(** X30.  A limit that is not positive.  [max_suggestions = 0] returns nothing;
    a negative limit, which nothing rejects, does not mean "none": it drops
    that many suggestions from the end of the ranking and returns the
    rest. *)
Theorem nonpositive_max_suggestions
  (g_venue g_lecturer g_group g_capacity g_equipment g_availability g_generic :
     list Conflict.t -> SolutionModel.t -> Entities.t -> list ResolutionSuggestion.t)
  (conflicts : list Conflict.t) (solution : SolutionModel.t)
  (entities : Entities.t) (max_suggestions : Z) :
  (max_suggestions = 0 ->
   generate_resolution_suggestions g_venue g_lecturer g_group g_capacity
     g_equipment g_availability g_generic conflicts solution entities
     max_suggestions = [])
  /\ (max_suggestions < 0 ->
      generate_resolution_suggestions g_venue g_lecturer g_group g_capacity
        g_equipment g_availability g_generic conflicts solution entities
        max_suggestions
      = firstn
          (length (all_suggestions g_venue g_lecturer g_group g_capacity g_equipment
                     g_availability g_generic conflicts solution entities)
           - Z.to_nat (- max_suggestions))
          (_rank_suggestions
             (all_suggestions g_venue g_lecturer g_group g_capacity g_equipment
                g_availability g_generic conflicts solution entities)
             conflicts solution)
      /\ length (generate_resolution_suggestions g_venue g_lecturer g_group g_capacity
                   g_equipment g_availability g_generic conflicts solution entities
                   max_suggestions)
         = (length (all_suggestions g_venue g_lecturer g_group g_capacity g_equipment
                      g_availability g_generic conflicts solution entities)
            - Z.to_nat (- max_suggestions))%nat)
  /\ length (generate_resolution_suggestions sample_generator sample_generator
               sample_generator sample_generator sample_generator sample_generator
               sample_generator [sample_conflict]
               (schedule_of [crowded_a; crowded_b] true) crowded_entities (-1))
     = 2%nat.
Proof.
  split; [by intros ->|]. split; [|reflexivity].
  intros Hmax. unfold generate_resolution_suggestions, _rank_suggestions.
  set (generated := all_suggestions g_venue g_lecturer g_group g_capacity g_equipment
                      g_availability g_generic conflicts solution entities).
  assert (E : slice_to (sorted_by rank_leb generated) max_suggestions
              = firstn (length generated - Z.to_nat (- max_suggestions))
                  (sorted_by rank_leb generated)).
  { unfold slice_to. rewrite sorted_by_length.
    replace (max_suggestions <? 0) with true by (symmetry; by apply Z.ltb_lt).
    f_equal. lia. }
  split; [exact E|].
  rewrite E, length_firstn, sorted_by_length. lia.
Qed.
End NegativeLimit.
